(** * HN-LoRA evaluation harness: rollout loops and the result ledger

    A shallow embedding of the three evaluation drivers of the repository

    - [src/domains/LIBERO/evaluate.py]       (module [Single]),
    - [src/octo/domains/LIBERO/evaluate.py]  (module [Vectorized]),
    - [src/scripts/evaluate.py]              (module [Simpler]),

    together with the JSON result ledger the two LIBERO drivers share.

    Conventions.  Python exceptions are the [Raise] branch of [result].
    The policy, the simulator (pool), the attention utilities and the
    benchmark are external collaborators: they are Section variables or
    fields of a [sim] record, so every theorem is quantified over all of
    them.  Python floats that the drivers only compare with zero or
    obtain by dividing two small integers are rationals ([Q]).  Lists
    indexed in place ([finished_tasks], [episode_length], [dones]) are
    stdpp lists with [!!] and [<[_:=_]>]; an index out of range raises
    [IndexError] as in Python.  The result files and what a run prints
    and writes besides them form a [world] that is threaded through
    [evaluate]; directories, [env.close()] and the prints other than a
    task's banner are left out.

    The first part holds the definitions, the second the lemmas and the
    theorems, the third a scripted scenario on which they are run. *)

From Stdlib Require Import QArith Ascii.
From stdpp Require Import gmap strings list fin_maps pretty.

Local Close Scope Q_scope.
Local Open Scope nat_scope.

(** ** Exceptions *)

Inductive exn : Type :=
  | JSONDecodeError
  | ValueError
  | IndexError
  | ZeroDivisionError
  | UnboundLocalError
  | TypeError.

Inductive result (A : Type) : Type :=
  | Ok (a : A)
  | Raise (e : exn).
Arguments Ok {A} a.
Arguments Raise {A} e.

#[global] Instance result_ret : MRet result := fun _ a => Ok a.
#[global] Instance result_bind : MBind result := fun _ _ f m =>
  match m with
  | Ok a => f a
  | Raise e => Raise e
  end.

#[global] Instance result_fmap : FMap result := fun _ _ f m =>
  match m with
  | Ok a => Ok (f a)
  | Raise e => Raise e
  end.

(** Python's [all(l)] and [sum(l)] on a list of booleans. *)
Definition all (l : list bool) : bool := forallb id l.
Definition sum (l : list bool) : nat := length (filter (fun b => b = true) l).

(** [a / b] on two non-negative Python ints: a float, or
    [ZeroDivisionError]. *)
Definition true_div (a b : nat) : result Q :=
  match b with
  | O => Raise ZeroDivisionError
  | S _ => Ok (Z.of_nat a # Pos.of_nat b)%Q
  end.

(** [x > 0] on a float. *)
Definition gt0 (x : Q) : bool := negb (Qle_bool x 0).

(** [l[i]] on a Python list. *)
Definition getitem {A} (l : list A) (i : nat) : result A :=
  match l !! i with
  | Some x => Ok x
  | None => Raise IndexError
  end.

(** A list comprehension whose element expression may raise. *)
Fixpoint comprehension {A B} (f : A -> result B) (l : list A) : result (list B) :=
  match l with
  | [] => Ok []
  | x :: l' => y ← f x; ys ← comprehension f l'; Ok (y :: ys)
  end.

(** ** Strings and paths *)

(** [s.split(sep)] for a one-character separator. *)
Fixpoint str_split (sep : Ascii.ascii) (s : string) : list string :=
  match s with
  | EmptyString => [EmptyString]
  | String c s' =>
      if decide (c = sep) then EmptyString :: str_split sep s'
      else match str_split sep s' with
           | [] => [String c EmptyString]
           | w :: ws => String c w :: ws
           end
  end.

(** [s[:-10]] *)
Definition drop_last10 (s : string) : string :=
  String.substring 0 (String.length s - 10) s.

(** [f'{checkpoint_step}'] for an [int] or [None]. *)
Definition fmt_step (checkpoint_step : option Z) : string :=
  match checkpoint_step with
  | None => "None"
  | Some z => pretty z
  end.

(** Lines 38-42 of [src/domains/LIBERO/evaluate.py] (41-45 of the octo
    copy). *)
Definition eval_path (model_path : string) (seed : Z)
    (checkpoint_step : option Z) : string :=
  if decide (model_path = "hf://rail-berkeley/octo-base-1.5")
  then "eval_results/libero/octo-base/" +:+ pretty seed
  else
    let save_dir :=
      "eval_results/libero/" +:+
      String.concat "/" (tail (str_split "/"%char model_path)) in
    save_dir +:+ "/eval_step_" +:+ fmt_step checkpoint_step +:+ "/" +:+ pretty seed.

(** ** The result ledger and the outside world *)

(** A ledger value: the float written by the vectorized driver, or the
    [[success_rate, episode_results]] pair written by the
    single-environment driver. *)
Inductive entry : Type :=
  | Rate (success_rate : Q)
  | RateOutcomes (success_rate : Q) (episode_results : list bool).

(** What a result file holds: text that [json.load] rejects, or the
    JSON object that [json.dump] wrote for a ledger.  (A well-formed
    file that is not an object is outside the model.) *)
Inductive contents : Type :=
  | Garbage
  | Json (m : gmap string entry).

Definition json_load (c : contents) : result (gmap string entry) :=
  match c with
  | Garbage => Raise JSONDecodeError
  | Json m => Ok m
  end.

(** What a run leaves behind besides the result files: the banner
    printed before a task's rollouts, the videos, the pickled record and
    the JSON dumps, in order. *)
Inductive event : Type :=
  | Banner (task_name : string)
  | WriteVideo (path : string) (frames : nat)
  | PickleDump (path : string)
  | JsonDump (path : string) (m : gmap string entry).

Record world := {
  files : gmap string contents;
  log : list event;
}.

(** Computations that read and write the world and may raise; the world
    reached before an exception is kept. *)
Definition M (A : Type) : Type := world -> world * result A.

#[global] Instance M_ret : MRet M := fun _ a w => (w, Ok a).
#[global] Instance M_bind : MBind M := fun _ _ f m w =>
  match m w with
  | (w', Ok a) => f a w'
  | (w', Raise e) => (w', Raise e)
  end.

Definition lift {A} (r : result A) : M A := fun w => (w, r).

Definition emit (e : event) : M unit := fun w =>
  ({| files := files w; log := log w ++ [e] |}, Ok tt).

(** [with open(path, 'w') as f: json.dump(m, f)], taken to go through:
    the file then holds [m].  In the source the [open] empties the file
    before [json.dump] streams into it, so a write that is cut short
    leaves a truncated file; such a write is not covered here. *)
Definition json_dump (path : string) (m : gmap string entry) : M unit := fun w =>
  ({| files := <[path := Json m]> (files w);
      log := log w ++ [JsonDump path m] |}, Ok tt).

(** Lines 46-50 (49-53): the ledger a run starts from. *)
Definition load (path : string) : M (gmap string entry) := fun w =>
  (w, match files w !! path with
      | Some c => json_load c
      | None => Ok ∅
      end).

(** ** Tasks *)

Record task := {
  name : string;
  language : string;
  problem_folder : string;
  bddl_file : string;
}.

(** [l.index(x)] *)
Definition index (l : list string) (x : string) : result nat :=
  match list_find (fun y => y = x) l with
  | Some (i, _) => Ok i
  | None => Raise ValueError
  end.

(** Lines 58-64 (61-67): whatever the caller passed as [tasks] is
    replaced by the train or test list of [task_split.pkl], turned into
    indices of the suite. *)
Definition resolve_tasks (task_suite : list task)
    (task_split : list string * list string)
    (tasks : list nat) (split : string) : result (list nat) :=
  let all_task_names := map name task_suite in
  let '(train_tasks, test_tasks) := task_split in
  let tasks := if decide (split = "train") then train_tasks else test_tasks in
  comprehension (fun task_name => index all_task_names (drop_last10 task_name)) tasks.

(** The loop over tasks, lines 66-75 and 126-129 (69-78 and 194-197):
    the two LIBERO drivers differ in [run_task], the code between the
    skip test and the ledger update, and in [report], the progress
    print between the ledger update and the dump (line 127, line 195),
    which raises if it cannot build what it prints. *)
Section TaskLoop.
Context {Policy : Type}.
Variable task_suite : list task.
Variable file : string.
Variable run_task : nat -> task -> Policy -> M (Policy * entry).
Variable report : gmap string entry -> result unit.

Definition task_step (task_id : nat) (s : Policy * gmap string entry)
    : M (Policy * gmap string entry) :=
  task ← lift (getitem task_suite task_id);
  if decide (is_Some (s.2 !! name task)) then mret s
  else
    '(model, e) ← run_task task_id task s.1;
    let all_tasks_success_rate := <[name task := e]> s.2 in
    _ ← lift (report all_tasks_success_rate);
    _ ← json_dump file all_tasks_success_rate;
    mret (model, all_tasks_success_rate).

Fixpoint task_loop (tasks : list nat) (s : Policy * gmap string entry)
    : M (Policy * gmap string entry) :=
  match tasks with
  | [] => mret s
  | task_id :: tasks' => s' ← task_step task_id s; task_loop tasks' s'
  end.

End TaskLoop.

(** The frame the two [evaluate] functions share: load the ledger,
    resolve the task list, loop over the tasks. *)
Definition run_ledger {Policy} (task_suite : list task) (file : string)
    (run_task : nat -> task -> Policy -> M (Policy * entry))
    (report : gmap string entry -> result unit)
    (tasks : result (list nat)) (model : Policy) : M (gmap string entry) :=
  all_tasks_success_rate ← load file;
  tasks ← lift tasks;
  s ← task_loop task_suite file run_task report tasks
        (model, all_tasks_success_rate);
  mret s.2.

(** ** Shapes of a run's log *)

(** Videos and pickled records: what a task leaves besides its ledger
    entry. *)
Definition is_artifact (e : event) : Prop :=
  match e with
  | WriteVideo _ _ | PickleDump _ => True
  | Banner _ | JsonDump _ _ => False
  end.

(** [flushed file l evs l']: the events [evs] are those of a sequence of
    evaluated tasks that takes the ledger from [l] to [l']; each task
    prints its banner, writes its artifacts and then dumps to [file]
    the ledger it found, extended by its own fresh entry, before the
    next banner. *)
Inductive flushed (file : string)
    : gmap string entry -> list event -> gmap string entry -> Prop :=
  | flushed_done l : flushed file l [] l
  | flushed_task l n e arts evs l' :
      l !! n = None ->
      Forall is_artifact arts ->
      flushed file (<[n := e]> l) evs l' ->
      flushed file l
        (Banner n :: arts ++ JsonDump file (<[n := e]> l) :: evs) l'.

(** The file holds the in-memory ledger [l] (an absent file stands for
    the empty ledger). *)
Definition synced (file : string) (l : gmap string entry) (w : world) : Prop :=
  match files w !! file with
  | Some c => c = Json l
  | None => l = ∅
  end.

(** [m] leaves the result files alone and logs only artifacts. *)
Definition quiet {A} (m : M A) : Prop :=
  forall w w' r, m w = (w', r) ->
    files w' = files w /\
    exists evs, log w' = log w ++ evs /\ Forall is_artifact evs.

(** [m] leaves the result files alone and, when it returns, has logged
    the banner of [n] followed by artifacts. *)
Definition announces {A} (n : string) (m : M A) : Prop :=
  forall w w' r, m w = (w', r) ->
    files w' = files w /\
    forall a, r = Ok a ->
      exists arts, log w' = log w ++ Banner n :: arts /\ Forall is_artifact arts.

(** ** The single-environment driver, [src/domains/LIBERO/evaluate.py] *)

Module Single.

Section Driver.
Context {Policy Env Obs Row Actions InitState : Type}.
Local Abbreviation Image := (list Row).

Record model_out := {
  mo_policy : Policy;
  mo_action : Actions;
}.

Record env_out := {
  eo_env : Env;
  eo_obs : Obs;
  eo_reward : Q;
  eo_done : bool;
}.

(** The policy adapter, the simulator and the benchmark. *)
Record sim := {
  (** [load_model(model_name, model_path, seed, step=checkpoint_step)],
      taken to return a policy: a load that raises ends the run before
      the task list is read and is not covered here. *)
  load_model : string -> string -> Z -> option Z -> Policy;
  model_reset : Policy -> string -> Policy;
  (** [model.step(image)] *)
  model_step : Policy -> Image -> model_out;
  (** [np.concatenate([a["world_vector"], a["rotation_delta"], a["gripper"]])] *)
  concatenate : Actions -> list Q;
  (** [os.path.join(get_libero_path("bddl_files"), task.problem_folder,
      task.bddl_file)] *)
  task_bddl_file : task -> string;
  OffScreenRenderEnv : string -> Env;
  env_seed : Env -> Z -> Env;
  env_reset : Env -> Env;
  env_set_init_state : Env -> InitState -> Env * Obs;
  env_step : Env -> list Q -> env_out;
  get_task_init_states : nat -> list InitState;
  agentview_image : Obs -> Image;
}.

Variable S : sim.

(** The variables of the loop at line 105; [reward] is unbound until
    the first step. *)
Record loop_state := {
  policy : Policy;
  env : Env;
  image : Image;
  images : list Image;
  reward : option Q;
  done : bool;
}.

(** What the simulator answers when the loop body runs from [st]. *)
Definition sim_reply (st : loop_state) : env_out :=
  env_step S (env st)
    (concatenate S (mo_action (model_step S (policy st) (image st)))).

(** Lines 107-114. *)
Definition body (st : loop_state) : loop_state :=
  let m := model_step S (policy st) (image st) in
  let r := sim_reply st in
  let image' := rev (agentview_image S (eo_obs r)) in
  {| policy := mo_policy m; env := eo_env r; image := image';
     images := images st ++ [image'];
     reward := Some (eo_reward r); done := eo_done r |}.

(** [for t in range(n)] with the [break] of lines 115-116. *)
Fixpoint for_range (n : nat) (st : loop_state) : loop_state :=
  match n with
  | O => st
  | Datatypes.S n' =>
      let st' := body st in
      if done st' then st' else for_range n' st'
  end.

(** Line 117. *)
Definition success_of (st : loop_state) : result bool :=
  match reward st with
  | Some r => Ok (gt0 r)
  | None => Raise UnboundLocalError
  end.

(** Lines 98-104: the state the loop of one run starts from. *)
Definition start (model : Policy) (e : Env) (init_state : InitState)
    : loop_state :=
  let '(e1, o) := env_set_init_state S (env_reset S e) init_state in
  let image := rev (agentview_image S o) in
  {| policy := model; env := e1; image := image; images := [image];
     reward := None; done := false |}.

(** Lines 98-117: one episode, from the reset to the success flag. *)
Definition episode (model : Policy) (e : Env) (init_state : InitState)
    : result (loop_state * bool) :=
  let st := for_range 600 (start model e init_state) in
  success ← success_of st;
  Ok (st, success).

Definition total_runs : nat := 1.

Record run_acc := {
  acc_model : Policy;
  acc_env : Env;
  success_count : nat;
  episode_results : list bool;
}.

(** Lines 97-124. *)
Definition run_step (save_video : bool) (video_path : string)
    (init_states : list InitState) (run : nat) (a : run_acc) : M run_acc :=
  init ← lift (getitem init_states run);
  '(st, success) ← lift (episode (acc_model a) (acc_env a) init);
  let success_count' :=
    if success : bool then success_count a + 1 else success_count a in
  _ ← (if save_video : bool then
         let result := if success then "success" else "fail" in
         emit (WriteVideo
                 (video_path +:+ "/" +:+ pretty (run + 1) +:+ "_" +:+ result +:+ ".mp4")
                 (length (images st)))
       else mret tt);
  mret {| acc_model := policy st; acc_env := env st;
          success_count := success_count';
          episode_results := episode_results a ++ [success] |}.

Fixpoint runs (save_video : bool) (video_path : string)
    (init_states : list InitState) (rs : list nat) (a : run_acc) : M run_acc :=
  match rs with
  | [] => mret a
  | run :: rs' =>
      a' ← run_step save_video video_path init_states run a;
      runs save_video video_path init_states rs' a'
  end.

(** Lines 77-126: a task that is not in the ledger yet. *)
Definition run_task (save_video : bool) (eval_path : string)
    (task_id : nat) (t : task) (model : Policy) : M (Policy * entry) :=
  let video_path := eval_path +:+ "/video/" +:+ name t in
  let e :=
    env_reset S (env_seed S (OffScreenRenderEnv S (task_bddl_file S t)) 0) in
  let init_states := get_task_init_states S task_id in
  let model := model_reset S model (language t) in
  _ ← emit (Banner (name t));
  a ← runs save_video video_path init_states (seq 0 total_runs)
        {| acc_model := model; acc_env := e;
           success_count := 0; episode_results := [] |};
  rate ← lift (true_div (success_count a) total_runs);
  mret (acc_model a, RateOutcomes rate (episode_results a)).

(** Line 127: [print({key: all_tasks_success_rate[key][0] for key in
    all_tasks_success_rate})] subscripts every value; a float value
    raises [TypeError]. *)
Definition subscriptable (e : entry) : bool :=
  match e with
  | RateOutcomes _ _ => true
  | Rate _ => false
  end.

Definition report (all_tasks_success_rate : gmap string entry) : result unit :=
  if forallb (fun kv => subscriptable kv.2) (map_to_list all_tasks_success_rate)
  then Ok tt else Raise TypeError.

(** [evaluate], lines 36-129. *)
Definition evaluate (task_suite : list task)
    (task_split : list string * list string)
    (model_name model_path : string) (tasks : list nat) (seed : Z)
    (checkpoint_step : option Z) (split : string) (save_video : bool)
    : M (gmap string entry) :=
  let eval_path := eval_path model_path seed checkpoint_step in
  let save_file_name := "success_rate" in
  let file := eval_path +:+ "/" +:+ save_file_name +:+ ".json" in
  all_tasks_success_rate ← load file;
  let model := load_model S model_name model_path seed checkpoint_step in
  tasks ← lift (resolve_tasks task_suite task_split tasks split);
  s ← task_loop task_suite file (run_task save_video eval_path) report tasks
        (model, all_tasks_success_rate);
  mret s.2.

End Driver.
End Single.

(** ** The vectorized episode driver
    [src/octo/domains/LIBERO/evaluate.py], lines 155-183 *)

Module Vectorized.

Definition max_step : nat := 600.

Section Rollout.
Context {Policy Env Obs Row Actions Attn Heat : Type}.

(** One image is a list of rows; [image[::-1]] reverses them. *)
Local Abbreviation Image := (list Row).

Record model_out := {
  mo_policy : Policy;
  mo_actions : Actions;
  mo_attention : Attn;
}.

Record env_out := {
  eo_env : Env;
  obs : list Obs;
  rewards : list Q;
  dones : list bool;
}.

(** [model.step(images)] *)
Variable model_step : Policy -> list Image -> model_out.
(** [generate_attention_map(w['mean'][-1])] *)
Variable generate_attention_map : Attn -> Heat.
Variable combine_image_and_heatmap : list Image -> Heat -> list Image.
(** [np.concatenate([a['world_vector'], a['rot_axangle'],
    a['gripper'].reshape(-1, 1)], axis=1)] *)
Variable concatenate : Actions -> list (list Q).
(** [env.step(actions)] *)
Variable env_step : Env -> list (list Q) -> env_out.
(** [o['agentview_image']] *)
Variable agentview_image : Obs -> Image.

Variable env_num : nat.

(** [np.stack([obs[i]['agentview_image'][::-1] for i in range(len(obs))])],
    for a pool with at least one environment: [np.stack] of an empty
    list raises [ValueError], so a pool of none is not covered here. *)
Definition stack_images (o : list Obs) : list Image :=
  map (fun x => rev (agentview_image x)) o.

Record loop_state := {
  policy : Policy;
  env : Env;
  images : list Image;
  images_history : list (list Image);
  images_with_attention_weights : list (list Image);
  attention_history : list Attn;
  finished_tasks : list bool;
  episode_length : list nat;
}.

(** The state at line 165, before the first iteration. *)
Definition init_state (p : Policy) (e : Env) (o : list Obs) : loop_state :=
  let images := stack_images o in
  {| policy := p; env := e; images := images;
     images_history := [images];
     images_with_attention_weights := [];
     attention_history := [];
     finished_tasks := replicate env_num false;
     episode_length := replicate env_num max_step |}.

(** Lines 174-177: [for k in range(env_num): if dones[k]: ...]. *)
Fixpoint check_slots (step : nat) (dn : list bool) (ks : list nat)
    (fin : list bool) (len : list nat) : result (list bool * list nat) :=
  match ks with
  | [] => Ok (fin, len)
  | k :: ks' =>
      match dn !! k with
      | None => Raise IndexError
      | Some true =>
          match len !! k with
          | None => Raise IndexError
          | Some l =>
              if decide (k < length fin)
              then check_slots step dn ks'
                     (<[k := true]> fin) (<[k := Nat.min (step + 1) l]> len)
              else Raise IndexError
          end
      | Some false => check_slots step dn ks' fin len
      end
  end.

(** What the policy and the pool answer when the loop body runs from
    [st]: lines 166 and 171-172. *)
Definition policy_reply (st : loop_state) : model_out :=
  model_step (policy st) (images st).
Definition pool_reply (st : loop_state) : env_out :=
  env_step (env st) (concatenate (mo_actions (policy_reply st))).

(** One iteration of the loop at line 165; the boolean is [true] when
    the iteration ends in [break]. *)
Definition body (step : nat) (st : loop_state) : result (loop_state * bool) :=
  let m := policy_reply st in
  let heatmaps := generate_attention_map (mo_attention m) in
  let masked_images := combine_image_and_heatmap (images st) heatmaps in
  let r := pool_reply st in
  '(fin, len) ← check_slots step (dones r) (seq 0 env_num)
                  (finished_tasks st) (episode_length st);
  let st1 :=
    {| policy := mo_policy m; env := eo_env r; images := images st;
       images_history := images_history st;
       images_with_attention_weights :=
         images_with_attention_weights st ++ [masked_images];
       attention_history := attention_history st ++ [mo_attention m];
       finished_tasks := fin;
       episode_length := len |} in
  if all fin then Ok (st1, true)
  else
    let images' := stack_images (obs r) in
    Ok ({| policy := policy st1; env := env st1; images := images';
           images_history := images_history st1 ++ [images'];
           images_with_attention_weights := images_with_attention_weights st1;
           attention_history := attention_history st1;
           finished_tasks := fin;
           episode_length := len |}, false).

(** [for step in range(a, a + n)] with [break]. *)
Fixpoint for_range (a n : nat) (st : loop_state) : result (loop_state * bool) :=
  match n with
  | O => Ok (st, false)
  | S n' =>
      '(st', brk) ← body a st;
      if brk : bool then Ok (st', true) else for_range (S a) n' st'
  end.

(** Lines 161-181. *)
Definition rollout (p : Policy) (e : Env) (o : list Obs) : result loop_state :=
  fst <$> for_range 0 max_step (init_state p e o).

(** Line 183. *)
Definition success_rate (st : loop_state) : result Q :=
  true_div (sum (finished_tasks st)) env_num.

(** Line 188. *)
Definition video_result (st : loop_state) (i : nat) : result string :=
  match finished_tasks st !! i with
  | Some true => Ok "success"%string
  | Some false => Ok "fail"%string
  | None => Raise IndexError
  end.

(** The loop invariant after [a] iterations: every recorded length is
    within the budget, a finished slot's length is at most the number
    of iterations run, an unfinished slot still has the budget. *)
Definition inv (a : nat) (st : loop_state) : Prop :=
  length (finished_tasks st) = env_num /\
  length (episode_length st) = env_num /\
  length (attention_history st) = a /\
  forall k l, episode_length st !! k = Some l ->
    (1 <= l <= max_step) /\
    (finished_tasks st !! k = Some true -> l <= a) /\
    (finished_tasks st !! k = Some false -> l = max_step).

End Rollout.

(** [evaluate], lines 39-197 of [src/octo/domains/LIBERO/evaluate.py]. *)
Section Driver.
Context {Policy Env Obs Row Actions Attn Heat InitState : Type}.
Local Abbreviation Image := (list Row).

(** The policy adapter, the environment pool, the attention utilities
    and the benchmark. *)
Record sim := {
  (** [load_model(model_name, model_path, seed, step=checkpoint_step)],
      taken to return a policy: a load that raises ends the run before
      the task list is read and is not covered here. *)
  load_model : string -> string -> Z -> option Z -> Policy;
  model_reset : Policy -> string -> Policy;
  model_step : Policy -> list Image -> @model_out Policy Actions Attn;
  generate_attention_map : Attn -> Heat;
  combine_image_and_heatmap : list Image -> Heat -> list Image;
  concatenate : Actions -> list (list Q);
  (** [os.path.join(get_libero_path("bddl_files"), task.problem_folder,
      task.bddl_file)] *)
  task_bddl_file : task -> string;
  (** the pool of [env_num] [OffScreenRenderEnv] instances on one bddl
      file, line 143 *)
  SubprocVectorEnv : nat -> string -> Env;
  env_seed : Env -> Z -> Env;
  env_reset : Env -> Env;
  env_set_init_state : Env -> list InitState -> Env * list Obs;
  env_step : Env -> list (list Q) -> @env_out Env Obs;
  get_task_init_states : nat -> list InitState;
  agentview_image : Obs -> Image;
}.

Variable S : sim.
Variable env_num : nat.

(** Lines 152-153: five steps with [np.zeros((env_num, 7))]. *)
Fixpoint settle (n : nat) (e : Env) (o : list Obs) : Env * list Obs :=
  match n with
  | O => (e, o)
  | Datatypes.S n' =>
      let r := env_step S e (replicate env_num (replicate 7 0%Q)) in
      settle n' (eo_env r) (obs r)
  end.

(** Lines 187-190. *)
Fixpoint write_videos (video_path : string)
    (st : @loop_state Policy Env Row Attn) (slots : list nat) : M unit :=
  match slots with
  | [] => mret tt
  | i :: slots' =>
      result ← lift (video_result st i);
      len ← lift (getitem (episode_length st) i);
      frames ← lift (comprehension (fun x => getitem x i)
                       (take len (images_with_attention_weights st)));
      _ ← emit (WriteVideo
                  (video_path +:+ "/" +:+ pretty (i + 1) +:+ "_" +:+ result +:+ ".mp4")
                  (length frames));
      write_videos video_path st slots'
  end.

(** Lines 80-194: a task that is not in the ledger yet. *)
Definition run_task (save_video : bool) (eval_path split : string)
    (task_id : nat) (t : task) (model : Policy) : M (Policy * entry) :=
  let video_path := eval_path +:+ "/video/" +:+ split +:+ "/" +:+ name t in
  let model := model_reset S model (language t) in
  let e :=
    env_reset S (env_seed S (SubprocVectorEnv S env_num (task_bddl_file S t)) 0) in
  let init_states := get_task_init_states S task_id in
  let indices := map (fun i => i mod length init_states) (seq 0 env_num) in
  selected ← lift (comprehension (getitem init_states) indices);
  let '(e1, o1) := env_set_init_state S e selected in
  let '(e2, o2) := settle 5 e1 o1 in
  _ ← emit (Banner (name t));
  st ← lift (rollout (model_step S) (generate_attention_map S)
               (combine_image_and_heatmap S) (concatenate S) (env_step S)
               (agentview_image S) env_num model e2 o2);
  success_rate ← lift (success_rate env_num st);
  _ ← (if save_video : bool then
         _ ← write_videos video_path st (seq 0 env_num);
         emit (PickleDump (video_path +:+ "/record.pkl"))
       else mret tt);
  mret (policy st, Rate success_rate).

(** Line 195: [print(all_tasks_success_rate)] prints the mapping as it
    is. *)
Definition report (all_tasks_success_rate : gmap string entry) : result unit :=
  Ok tt.

Definition evaluate (task_suite : list task)
    (task_split : list string * list string)
    (model_name model_path : string) (tasks : list nat) (seed : Z)
    (checkpoint_step : option Z) (split : string) (save_video : bool)
    : M (gmap string entry) :=
  let eval_path := eval_path model_path seed checkpoint_step in
  let save_file_name := "success_rate_" +:+ split in
  let file := eval_path +:+ "/" +:+ save_file_name +:+ ".json" in
  all_tasks_success_rate ← load file;
  let model := load_model S model_name model_path seed checkpoint_step in
  tasks ← lift (resolve_tasks task_suite task_split tasks split);
  s ← task_loop task_suite file (run_task save_video eval_path split) report
        tasks (model, all_tasks_success_rate);
  mret s.2.

End Driver.
End Vectorized.

(** ** The SimplerEnv episode loop, [src/scripts/evaluate.py],
    lines 104-145 *)

Module Simpler.

Section Episode.
Context {Policy Env Obs Image : Type}.

(** The processed action of [model.step]. *)
Record action := {
  world_vector : list Q;
  rot_axangle : list Q;
  gripper : list Q;
  terminate_episode : list Q;
}.

Record model_out := {
  mo_policy : Policy;
  mo_action : action;
}.

Record env_out := {
  eo_env : Env;
  eo_obs : Obs;
  eo_reward : Q;
  eo_success : bool;
  eo_truncated : bool;
}.

Record sim := {
  model_reset : Policy -> string -> Policy;
  (** [model.step(image, instruction)] *)
  model_step : Policy -> Image -> string -> model_out;
  env_reset : Env -> Env * Obs;
  env_step : Env -> list Q -> env_out;
  get_language_instruction : Env -> string;
  is_final_subtask : Env -> bool;
  advance_to_next_subtask : Env -> Env;
  get_image_from_maniskill2_obs_dict : Env -> Obs -> Image;
}.

Variable S : sim.

(** The variables of the loop at line 119. *)
Record loop_state := {
  policy : Policy;
  env : Env;
  instruction : string;
  final_subtask : bool;
  image : Image;
  images : list Image;
  predicted_terminated : bool;
  success : bool;
  truncated : bool;
  timestep : nat;
}.

(** Line 119: the loop runs while this holds. *)
Definition running (st : loop_state) : bool :=
  negb (truncated st || success st).

(** The action the policy answers when the body runs from [st]. *)
Definition policy_action (st : loop_state) : action :=
  mo_action (model_step S (policy st) (image st) (instruction st)).

(** Line 122: [bool(action["terminate_episode"][0] > 0)]. *)
Definition predicts_terminate (a : action) : result bool :=
  gt0 <$> getitem (terminate_episode a) 0.

(** Lines 121-142: one iteration. *)
Definition body (st : loop_state) : result loop_state :=
  let m := model_step S (policy st) (image st) (instruction st) in
  let a := mo_action m in
  predicted ← predicts_terminate a;
  let '(predicted, e) :=
    if predicted : bool then
      if negb (final_subtask st)
      then (false, advance_to_next_subtask S (env st))
      else (predicted, env st)
    else (predicted, env st) in
  let r := env_step S e (world_vector a ++ rot_axangle a ++ gripper a) in
  let new_instruction := get_language_instruction S (eo_env r) in
  let instruction' :=
    if decide (new_instruction <> instruction st)
    then new_instruction else instruction st in
  let image' := get_image_from_maniskill2_obs_dict S (eo_env r) (eo_obs r) in
  Ok {| policy := mo_policy m; env := eo_env r;
        instruction := instruction';
        final_subtask := is_final_subtask S (eo_env r);
        image := image'; images := images st ++ [image'];
        predicted_terminated := predicted;
        success := eo_success r; truncated := eo_truncated r;
        timestep := timestep st + 1 |}.

(** [while not (truncated or success)]: [None] when the fuel runs out
    before the loop ends. *)
Fixpoint while_loop (fuel : nat) (st : loop_state) : result (option loop_state) :=
  if running st then
    match fuel with
    | O => Ok None
    | Datatypes.S fuel' => st' ← body st; while_loop fuel' st'
    end
  else Ok (Some st).

(** Lines 104-114: the state the loop of one run starts from. *)
Definition start (model : Policy) (e : Env) : loop_state :=
  let '(e1, o) := env_reset S e in
  let instruction := get_language_instruction S e1 in
  let image := get_image_from_maniskill2_obs_dict S e1 o in
  {| policy := model_reset S model instruction; env := e1;
     instruction := instruction;
     final_subtask := is_final_subtask S e1;
     image := image; images := [image];
     predicted_terminated := false; success := false; truncated := false;
     timestep := 0 |}.

End Episode.
End Simpler.

(** ** A scripted world

    The scenario of the specification: four slots, the slot with index 2
    is reported done by the step with index 36 (its 37th), the others
    never.  Policy, observations and images carry no information. *)

Module Scenario.

Definition pool_step (e : nat) (_ : list (list Q)) : @Vectorized.env_out nat unit :=
  {| Vectorized.eo_env := e + 1;
     Vectorized.obs := replicate 4 tt;
     Vectorized.rewards := replicate 4 0%Q;
     Vectorized.dones := [false; false; bool_decide (e = 36); false] |}.

Definition policy_step (p : unit) (_ : list (list unit))
    : @Vectorized.model_out unit unit unit :=
  {| Vectorized.mo_policy := p; Vectorized.mo_actions := tt;
     Vectorized.mo_attention := tt |}.

Definition for_range :=
  Vectorized.for_range policy_step (fun _ : unit => tt) (fun i (_ : unit) => i)
    (fun _ : unit => []) pool_step (fun _ : unit => [tt]) 4.

Definition rollout :=
  Vectorized.rollout policy_step (fun _ : unit => tt) (fun i (_ : unit) => i)
    (fun _ : unit => []) pool_step (fun _ : unit => [tt]) 4.

Definition init : @Vectorized.loop_state unit nat unit unit :=
  Vectorized.init_state (fun _ : unit => [tt]) 4 tt 0 (replicate 4 tt).

(** The state from which the step with index [s] runs. *)
Definition before (s : nat) : @Vectorized.loop_state unit nat unit unit :=
  match for_range 0 s init with
  | Ok (st, _) => st
  | Raise _ => init
  end.

Definition final : @Vectorized.loop_state unit nat unit unit :=
  match rollout tt 0 (replicate 4 tt) with
  | Ok st => st
  | Raise _ => init
  end.

(** The same four slots when each is reported done once, by the steps
    with index 5, 12, 36 and 20: the rollout stops after its 37th
    iteration. *)
Definition pool_step_all (e : nat) (_ : list (list Q)) : @Vectorized.env_out nat unit :=
  {| Vectorized.eo_env := e + 1;
     Vectorized.obs := replicate 4 tt;
     Vectorized.rewards := replicate 4 0%Q;
     Vectorized.dones :=
       [bool_decide (e = 5); bool_decide (e = 12); bool_decide (e = 36);
        bool_decide (e = 20)] |}.

Definition for_range_all :=
  Vectorized.for_range policy_step (fun _ : unit => tt) (fun i (_ : unit) => i)
    (fun _ : unit => []) pool_step_all (fun _ : unit => [tt]) 4.

Definition final_all : @Vectorized.loop_state unit nat unit unit :=
  match Vectorized.rollout policy_step (fun _ : unit => tt) (fun i (_ : unit) => i)
          (fun _ : unit => []) pool_step_all (fun _ : unit => [tt]) 4
          tt 0 (replicate 4 tt) with
  | Ok st => st
  | Raise _ => init
  end.

(** Two tasks evaluated with the single-environment driver and with a
    pool of four slots; the simulator reports done, with reward 1, at
    its 40th step. *)
Definition task_suite : list task :=
  [ {| name := "open_the_drawer"; language := "open the drawer";
       problem_folder := "libero_90"; bddl_file := "open_the_drawer.bddl" |};
    {| name := "close_the_drawer"; language := "close the drawer";
       problem_folder := "libero_90"; bddl_file := "close_the_drawer.bddl" |} ].

Definition task_split : list string * list string :=
  (["close_the_drawer_demo.hdf5"; "open_the_drawer_demo.hdf5"], []).

Definition single_sim : @Single.sim unit nat unit unit unit unit :=
  {| Single.load_model := fun _ _ _ _ => tt;
     Single.model_reset := fun p _ => p;
     Single.model_step := fun p _ =>
       {| Single.mo_policy := p; Single.mo_action := tt |};
     Single.concatenate := fun _ => [];
     Single.task_bddl_file := bddl_file;
     Single.OffScreenRenderEnv := fun _ => 0;
     Single.env_seed := fun e _ => e;
     Single.env_reset := fun _ => 0;
     Single.env_set_init_state := fun e _ => (e, tt);
     Single.env_step := fun e _ =>
       {| Single.eo_env := e + 1; Single.eo_obs := tt;
          Single.eo_reward := if decide (e + 1 = 40) then 1%Q else 0%Q;
          Single.eo_done := bool_decide (e + 1 = 40) |};
     Single.get_task_init_states := fun _ => [tt];
     Single.agentview_image := fun _ => [tt] |}.

Definition pool_sim : @Vectorized.sim unit nat unit unit unit unit unit unit :=
  {| Vectorized.load_model := fun _ _ _ _ => tt;
     Vectorized.model_reset := fun p _ => p;
     Vectorized.model_step := policy_step;
     Vectorized.generate_attention_map := fun _ => tt;
     Vectorized.combine_image_and_heatmap := fun i _ => i;
     Vectorized.concatenate := fun _ => [];
     Vectorized.task_bddl_file := bddl_file;
     Vectorized.SubprocVectorEnv := fun _ _ => 0;
     Vectorized.env_seed := fun e _ => e;
     Vectorized.env_reset := fun _ => 0;
     Vectorized.env_set_init_state := fun e _ => (e, replicate 4 tt);
     Vectorized.env_step := pool_step;
     Vectorized.get_task_init_states := fun _ => [tt];
     Vectorized.agentview_image := fun _ => [tt] |}.

Definition fresh : world := {| files := ∅; log := [] |}.

Definition single_run (w : world) : world * result (gmap string entry) :=
  Single.evaluate single_sim task_suite task_split
    "octo-custom" "finetune_saves/run" [0] 0 (Some 5000%Z) "train" true w.

Definition pool_run (w : world) : world * result (gmap string entry) :=
  Vectorized.evaluate pool_sim 4 task_suite task_split
    "octo-custom" "finetune_saves/run" [0] 0 (Some 5000%Z) "train" true w.

Definition ledger_of (r : world * result (gmap string entry)) : gmap string entry :=
  match r.2 with
  | Ok l => l
  | Raise _ => ∅
  end.

(** A world whose result files hold text that is not JSON. *)
Definition corrupt : world :=
  {| files :=
       {[ "eval_results/libero/run/eval_step_5000/0/success_rate.json" := Garbage;
          "eval_results/libero/run/eval_step_5000/0/success_rate_train.json" := Garbage ]};
     log := [] |}.


(** The two simulators when the benchmark has no initial state for the
    first task of the suite: its evaluation raises. *)
Definition single_sim_crash : @Single.sim unit nat unit unit unit unit :=
  {| Single.load_model := Single.load_model single_sim;
     Single.model_reset := Single.model_reset single_sim;
     Single.model_step := Single.model_step single_sim;
     Single.concatenate := Single.concatenate single_sim;
     Single.task_bddl_file := Single.task_bddl_file single_sim;
     Single.OffScreenRenderEnv := Single.OffScreenRenderEnv single_sim;
     Single.env_seed := Single.env_seed single_sim;
     Single.env_reset := Single.env_reset single_sim;
     Single.env_set_init_state := Single.env_set_init_state single_sim;
     Single.env_step := Single.env_step single_sim;
     Single.get_task_init_states := fun task_id =>
       if decide (task_id = 0) then [] else [tt];
     Single.agentview_image := Single.agentview_image single_sim |}.

Definition pool_sim_crash : @Vectorized.sim unit nat unit unit unit unit unit unit :=
  {| Vectorized.load_model := Vectorized.load_model pool_sim;
     Vectorized.model_reset := Vectorized.model_reset pool_sim;
     Vectorized.model_step := Vectorized.model_step pool_sim;
     Vectorized.generate_attention_map := Vectorized.generate_attention_map pool_sim;
     Vectorized.combine_image_and_heatmap :=
       Vectorized.combine_image_and_heatmap pool_sim;
     Vectorized.concatenate := Vectorized.concatenate pool_sim;
     Vectorized.task_bddl_file := Vectorized.task_bddl_file pool_sim;
     Vectorized.SubprocVectorEnv := Vectorized.SubprocVectorEnv pool_sim;
     Vectorized.env_seed := Vectorized.env_seed pool_sim;
     Vectorized.env_reset := Vectorized.env_reset pool_sim;
     Vectorized.env_set_init_state := Vectorized.env_set_init_state pool_sim;
     Vectorized.env_step := Vectorized.env_step pool_sim;
     Vectorized.get_task_init_states := fun task_id =>
       if decide (task_id = 0) then [] else [tt];
     Vectorized.agentview_image := Vectorized.agentview_image pool_sim |}.

Definition open_the_drawer : task :=
  {| name := "open_the_drawer"; language := "open the drawer";
     problem_folder := "libero_90"; bddl_file := "open_the_drawer.bddl" |}.





(** A SimplerEnv episode on the final subtask whose policy predicts
    terminate at every step; the environment never reports success and
    truncates the episode after three steps. *)
Definition simpler_sim : @Simpler.sim unit nat unit unit :=
  {| Simpler.model_reset := fun p _ => p;
     Simpler.model_step := fun p _ _ =>
       {| Simpler.mo_policy := p;
          Simpler.mo_action :=
            {| Simpler.world_vector := [0%Q; 0%Q; 0%Q];
               Simpler.rot_axangle := [0%Q; 0%Q; 0%Q];
               Simpler.gripper := [0%Q];
               Simpler.terminate_episode := [1%Q] |} |};
     Simpler.env_reset := fun _ => (0, tt);
     Simpler.env_step := fun e _ =>
       {| Simpler.eo_env := e + 1; Simpler.eo_obs := tt;
          Simpler.eo_reward := 0%Q; Simpler.eo_success := false;
          Simpler.eo_truncated := bool_decide (3 <= e + 1) |};
     Simpler.get_language_instruction := fun _ => "pick coke can";
     Simpler.is_final_subtask := fun _ => true;
     Simpler.advance_to_next_subtask := fun e => e;
     Simpler.get_image_from_maniskill2_obs_dict := fun _ _ => tt |}.


End Scenario.


(** * The rest of the scripts *)

(** [c in s] for a character. *)
Fixpoint has_char (c : Ascii.ascii) (s : string) : bool :=
  match s with
  | EmptyString => false
  | String c' s' => if decide (c' = c) then true else has_char c s'
  end.

(** [sub in s] for strings. *)
Fixpoint contains (sub s : string) : bool :=
  String.prefix sub s ||
  match s with
  | EmptyString => false
  | String _ s' => contains sub s'
  end.

(** A Python [for x in l: f(x)] whose body reads and writes the world. *)
Fixpoint for_each {A B} (l : list A) (f : A -> M B) : M unit :=
  match l with
  | [] => mret tt
  | x :: l' => _ ← f x; for_each l' f
  end.

(** ** The command line of the two LIBERO drivers
    (lines 189-205 of [src/domains/LIBERO/evaluate.py], 201-217 of the
    octo copy): [evaluate] once per seed, with [tasks = [0]].  The seeds
    are taken as parsed. *)

Module Cli.

Definition single_main {Policy Env Obs Row Actions InitState}
    (S : @Single.sim Policy Env Obs Row Actions InitState)
    (task_suite : list task) (task_split : list string * list string)
    (model model_path : string) (seeds : list Z) (step : option Z)
    (split : string) (save_video : bool) : M unit :=
  let tasks := [0] in
  for_each seeds (fun seed =>
    Single.evaluate S task_suite task_split model model_path tasks seed step
      split save_video).

Definition pool_main {Policy Env Obs Row Actions Attn Heat InitState}
    (S : @Vectorized.sim Policy Env Obs Row Actions Attn Heat InitState)
    (task_suite : list task) (task_split : list string * list string)
    (model model_path : string) (seeds : list Z) (step : option Z)
    (split : string) (save_video : bool) : M unit :=
  let tasks := [0] in
  for_each seeds (fun seed =>
    Vectorized.evaluate S 20 task_suite task_split model model_path tasks seed
      step split save_video).

End Cli.

(** A ledger file that holds an entry for every task of the resolved
    list: what a completed run leaves, and what makes a run skip every
    task. *)
Definition settled (task_suite : list task) (tasks : result (list nat))
    (file : string) (w : world) : Prop :=
  exists ts (l : gmap string entry),
    tasks = Ok ts /\ synced file l w /\
    forall task_id, task_id ∈ ts ->
      exists t, task_suite !! task_id = Some t /\ is_Some (l !! name t).

(** ** Exceptions and endings of the other scripts *)

(** The exceptions of [exn], [NameError] and [AssertionError]. *)
Inductive pyexn : Type :=
  | Builtin (e : exn)
  | NameError
  | AssertionError.

Inductive outcome (A : Type) : Type :=
  | Return (a : A)
  | Throw (e : pyexn).
Arguments Return {A} a.
Arguments Throw {A} e.

#[global] Instance outcome_ret : MRet outcome := fun _ a => Return a.
#[global] Instance outcome_bind : MBind outcome := fun _ _ f m =>
  match m with
  | Return a => f a
  | Throw e => Throw e
  end.

(** [assert b] *)
Definition assert (b : bool) : outcome unit :=
  if b then Return tt else Throw AssertionError.

(** How a computation that contains a [while] loop ends: it returns, it
    raises, or the loop is still running when the fuel is used up. *)
Inductive ending (A : Type) : Type :=
  | Finished (a : A)
  | Raised (e : pyexn)
  | Unfinished.
Arguments Finished {A} a.
Arguments Raised {A} e.
Arguments Unfinished {A}.

Definition W (A : Type) : Type := world -> world * ending A.

#[global] Instance W_ret : MRet W := fun _ a w => (w, Finished a).
#[global] Instance W_bind : MBind W := fun _ _ f m w =>
  match m w with
  | (w', Finished a) => f a w'
  | (w', Raised e) => (w', Raised e)
  | (w', Unfinished) => (w', Unfinished)
  end.

Definition of_outcome {A} (o : outcome A) : W A := fun w =>
  (w, match o with Return a => Finished a | Throw e => Raised e end).

Definition of_result {A} (r : result A) : W A := fun w =>
  (w, match r with Ok a => Finished a | Raise e => Raised (Builtin e) end).

(** The result of a fuelled loop. *)
Definition of_loop {A} (r : result (option A)) : W A := fun w =>
  (w, match r with
      | Ok (Some a) => Finished a
      | Ok None => Unfinished
      | Raise e => Raised (Builtin e)
      end).

Definition log_event (e : event) : W unit := fun w =>
  ({| files := files w; log := log w ++ [e] |}, Finished tt).

(** The tasks whose banner is among the events, in order. *)
Definition banners (evs : list event) : list string :=
  omap (fun e => match e with Banner n => Some n | _ => None end) evs.

(** ** The SimplerEnv driver, [src/scripts/evaluate.py] *)

Module SimplerDriver.

(** Line 13-39. *)
Definition tasks : list string :=
  [ "google_robot_pick_coke_can";
    "google_robot_pick_object";
    "google_robot_move_near";
    "google_robot_open_drawer";
    "google_robot_close_drawer";
    "google_robot_place_in_closed_drawer";
    "google_robot_place_apple_in_closed_top_drawer";
    "widowx_spoon_on_towel";
    "widowx_carrot_on_plate";
    "widowx_stack_cube";
    "widowx_put_eggplant_in_basket" ].

(** The two [OctoModel] classes, [octo.model_lora.octo_model] and
    [octo.model.octo_model]. *)
Inductive octo_module : Type := ModelLora | ModelBase.

(** What a [with open(path, 'w') as f: json.dump(m, f)] can do: go
    through, fail before the file is opened, or fail after the file was
    truncated. *)
Inductive disk_reply : Type := Written | OpenFailed | WriteFailed.

Section Driver.
Context {Policy Env Obs Image Params : Type}.

Record host := {
  (** [OctoModel.load_pretrained(model_path, step=step)] of either
      module *)
  load_pretrained : octo_module -> string -> option Z -> Params;
  OctoInference : Params -> string -> Z -> Policy;
  (** [simpler_env.make(task_name)] *)
  make : string -> Env;
  (** the file system's answer to a dump of [m] at [path] *)
  disk : string -> gmap string entry -> disk_reply;
}.

Variable S : @Simpler.sim Policy Env Obs Image.
Variable H : host.

(** [load_model], lines 51-66.  The name [get_rt_1_checkpoint] is bound
    nowhere in the file; the imports of the branches are taken to
    succeed. *)
Definition load_model (model_name model_path policy_setup : string)
    (input_rng : Z) (step : option Z) : outcome Policy :=
  if contains "rt_1" model_name then Throw NameError
  else if contains "octo" model_name then
    let OctoModel :=
      if contains "hypernet" model_path || contains "vanilla_lora" model_path
      then ModelLora else ModelBase in
    let tempmodel := load_pretrained H OctoModel model_path step in
    Return (OctoInference H tempmodel policy_setup input_rng)
  else Throw (Builtin ValueError).

(** The [try: ... json.dump ... except: continue] of lines 154-158. *)
Definition try_json_dump (path : string) (m : gmap string entry) : W unit :=
  fun w =>
    match disk H path m with
    | Written =>
        ({| files := <[path := Json m]> (files w);
            log := log w ++ [JsonDump path m] |}, Finished tt)
    | OpenFailed => (w, Finished tt)
    | WriteFailed =>
        ({| files := <[path := Garbage]> (files w); log := log w |}, Finished tt)
    end.

Record run_acc := {
  acc_model : Policy;
  acc_env : Env;
  success_count : nat;
  success_timestep : nat;
}.

(** Lines 104-150: one run; the [while] loop of line 119 gets [fuel]
    iterations. *)
Definition run_step (fuel : nat) (save_dir task_name : string) (run : nat)
    (a : run_acc) : W run_acc :=
  st ← of_loop (Simpler.while_loop S fuel (Simpler.start S (acc_model a) (acc_env a)));
  let success := Simpler.success st in
  let result := if success then "success" else "fail" in
  let video_path :=
    save_dir +:+ "/video/" +:+ task_name +:+ "/" +:+ pretty run +:+ "_" +:+
    result +:+ ".mp4" in
  _ ← log_event (WriteVideo video_path (length (Simpler.images st)));
  mret {| acc_model := Simpler.policy st; acc_env := Simpler.env st;
          success_count :=
            if success then success_count a + 1 else success_count a;
          success_timestep :=
            if success then success_timestep a + Simpler.timestep st
            else success_timestep a |}.

Fixpoint runs (fuel : nat) (save_dir task_name : string) (rs : list nat)
    (a : run_acc) : W run_acc :=
  match rs with
  | [] => mret a
  | run :: rs' =>
      a' ← run_step fuel save_dir task_name run a;
      runs fuel save_dir task_name rs' a'
  end.

(** The variables the loop over tasks carries; [model] is unbound
    until the first [load_model]. *)
Record task_acc := {
  previous_policy_setup : string;
  model : option Policy;
  all_tasks_success_rate : gmap string entry;
}.

(** Lines 82-85. *)
Definition policy_setup_of (task_name : string) : string :=
  if contains "google" task_name then "google_robot" else "widowx_bridge".

(** Lines 80-158: one task. *)
Definition task_step (fuel : nat) (model_name model_path save_dir timestamp : string)
    (total_runs : nat) (rng_input : Z) (checkpoint_step : option Z)
    (task_name : string) (a : task_acc) : W task_acc :=
  let policy_setup := policy_setup_of task_name in
  model ← (if decide (policy_setup <> previous_policy_setup a)
           then of_outcome (load_model model_name model_path policy_setup
                              rng_input checkpoint_step)
           else match model a with
                | Some m => mret m
                | None => of_result (Raise UnboundLocalError)
                end);
  let env := make H task_name in
  _ ← log_event (Banner task_name);
  let env := (Simpler.env_reset S env).1 in
  r ← runs fuel save_dir task_name (seq 0 total_runs)
        {| acc_model := model; acc_env := env;
           success_count := 0; success_timestep := 0 |};
  rate ← of_result (true_div (success_count r) total_runs);
  let ledger := <[task_name := Rate rate]> (all_tasks_success_rate a) in
  _ ← try_json_dump
        (save_dir +:+ "/eval_success_rate_" +:+ timestamp +:+ ".json") ledger;
  mret {| previous_policy_setup := policy_setup;
          model := Some (acc_model r);
          all_tasks_success_rate := ledger |}.

Fixpoint task_loop (fuel : nat) (model_name model_path save_dir timestamp : string)
    (total_runs : nat) (rng_input : Z) (checkpoint_step : option Z)
    (tasks : list string) (a : task_acc) : W task_acc :=
  match tasks with
  | [] => mret a
  | task_name :: tasks' =>
      a' ← task_step fuel model_name model_path save_dir timestamp total_runs
             rng_input checkpoint_step task_name a;
      task_loop fuel model_name model_path save_dir timestamp total_runs
        rng_input checkpoint_step tasks' a'
  end.

(** [evaluate], lines 69-158; [timestamp] is the formatted
    [datetime.now()] of line 74. *)
Definition evaluate (fuel : nat) (timestamp : string)
    (model_name model_path : string) (tasks : list string) (total_runs : nat)
    (rng_input : Z) (base_path : string) (checkpoint_step : option Z)
    : W (gmap string entry) :=
  let save_dir :=
    if decide (model_path = "hf://rail-berkeley/octo-base-1.5")
    then "finetune_saves/octo-base" else model_path in
  a ← task_loop fuel model_name model_path save_dir timestamp total_runs
        rng_input checkpoint_step tasks
        {| previous_policy_setup := ""; model := None;
           all_tasks_success_rate := ∅ |};
  mret (all_tasks_success_rate a).

End Driver.
End SimplerDriver.

(** ** The finetuning configuration,
    [src/scripts/configs/finetune_config.py] *)

Module FinetuneConfig.

(** The entries of the configuration that [get_config] computes from
    its argument, and the constant entries that [finetune.py] reads
    itself.  The keyword dictionaries that are only handed on to the
    dataset, the optimizer and the model are left out. *)
Record config := {
  batch_size : Z;
  shuffle_buffer_size : Z;
  num_steps : Z;
  log_interval : Z;
  eval_interval : Z;
  save_interval : Z;
  save_dir : option string;
  seed : Z;
  modality : string;
  finetuning_mode : string;
  frozen_keys : option (list string);
  clean_instruction : bool;
  remove_useless_token : bool;
  goal_relabeling_strategy : option string;
  keep_image_prob : Q;
  action_pad_mask : option (list bool);
  eval_batch_size : Z;
}.

(** [x in l] for a list of strings. *)
Definition among (x : string) (l : list string) : bool :=
  bool_decide (x ∈ l).

(** [get_config], lines 7-212. *)
Definition get_config (config_string : string) : outcome config :=
  '(mode, task, dataset) ←
     match str_split "," config_string with
     | [mode; task; dataset] => Return (mode, task, dataset)
     | _ => Throw (Builtin ValueError)
     end;
  _ ← assert (among task ["image_conditioned"; "language_conditioned"; "multimodal"]);
  _ ← assert (among mode ["full"; "head_only"; "head_mlp_only"; "none"]);
  frozen_keys ←
    (if decide (mode = "full") then Return None
     else if decide (mode = "head_only") then Return (Some ["octo_transformer.*"])
     else if decide (mode = "head_mlp_only") then
       Return (Some ["octo_transformer.*";
                     "heads_*.map_head.probe";
                     "heads_*.map_head.MultiHeadDotProductAttention_0.*"])
     else if decide (mode = "none") then
       Return (Some ["octo_transformer.*"; "heads_*.*"])
     else Throw (Builtin ValueError));
  '(goal_relabeling_strategy, keep_image_prob) ←
    (if decide (task = "image_conditioned") then Return (Some "uniform", 1%Q)
     else if decide (task = "language_conditioned") then Return (None, 0%Q)
     else if decide (task = "multimodal") then Return (Some "uniform", (1 # 2)%Q)
     else Throw (Builtin ValueError));
  let action_pad_mask :=
    if decide (dataset = "metaworld")
    then Some [true; true; true; false; false; false; true] else None in
  Return {| batch_size := 32; shuffle_buffer_size := 10000;
            num_steps := 50000; log_interval := 100; eval_interval := 5000;
            save_interval := 5000; save_dir := None; seed := 42;
            modality := task; finetuning_mode := mode;
            frozen_keys := frozen_keys;
            clean_instruction := false; remove_useless_token := false;
            goal_relabeling_strategy := goal_relabeling_strategy;
            keep_image_prob := keep_image_prob;
            action_pad_mask := action_pad_mask;
            eval_batch_size := 32 |}.

End FinetuneConfig.

(** ** The finetuning script, [src/scripts/finetune.py] *)

Module Finetune.




(** Lines 297-298: the frozen keys the optimizer is created with. *)
Definition optimizer_frozen_keys (cfg : FinetuneConfig.config)
    (model_frozen_keys : option (list string)) : option (list string) :=
  match FinetuneConfig.frozen_keys cfg with
  | None => model_frozen_keys
  | Some keys => Some keys
  end.

(** *** Deleting configuration keys, lines 151-159 *)

(** [".".join(key)] *)
Definition dotted (key : list string) : string := String.concat "." key.

(** The pretrained model's configuration, flattened: tuples of names to
    values.  [delete_keys] is the double loop of lines 154-159 over the
    flattened [config_delete_keys]. *)
Definition delete_keys {V} (d_keys : list (list string))
    (flat_config : gmap (list string) V) : gmap (list string) V :=
  foldl (fun flat d_key =>
           filter (fun kv => ¬ String.prefix (dotted d_key) (dotted kv.1)) flat)
        flat_config d_keys.

(** *** Cleaning instructions, lines 178-183 *)

(** [s.replace(old, new)] for a non-empty [old]: the occurrences of
    [old] are replaced from the left, without overlap; [skip] counts
    the characters of an occurrence still to be dropped. *)
Fixpoint replace_from (old new : string) (skip : nat) (s : string) : string :=
  match s with
  | EmptyString => EmptyString
  | String c s' =>
      match skip with
      | S k => replace_from old new k s'
      | O =>
          if String.prefix old s
          then new +:+ replace_from old new (String.length old - 1) s'
          else String c (replace_from old new 0 s')
      end
  end.

Definition replace (old new s : string) : string := replace_from old new 0 s.

Definition clean_text (cfg : FinetuneConfig.config) (instruction : string)
    : string :=
  let instruction :=
    if FinetuneConfig.clean_instruction cfg
    then replace "moka pot" "pot"
           (replace "frying pan" "pan"
              (replace "mug" "cup" (replace "caddy" "box" instruction)))
    else instruction in
  let instruction :=
    if FinetuneConfig.remove_useless_token cfg
    then replace " the " " " instruction else instruction in
  instruction.

(** *** The train loop, lines 460-506 *)

Section TrainLoop.
Context {TrainState Batch Info : Type}.

(** [next(train_data_iter)], as the stream of batches *)
Variable batches : nat -> Batch.
(** [train_step(train_state, batch)] *)
Variable train_step : TrainState -> Batch -> TrainState * Info.
(** [update_info['training_loss'].item()] *)
Variable training_loss : Info -> Q.

(** The train state after [n] steps, and what step [n] reports. *)
Fixpoint run_steps (n : nat) (state : TrainState) : TrainState :=
  match n with
  | O => state
  | S k => (train_step (run_steps k state) (batches k)).1
  end.

Definition info_at (n : nat) (state : TrainState) : Info :=
  (train_step (run_steps n state) (batches n)).2.

(** What the loop prints, logs and saves. *)
Inductive train_event : Type :=
  | PrintLoss (step : nat) (average : Q)
  | WandbLog (step : nat) (update_info : Info)
  | SaveCheckpoint (step : nat) (state : TrainState).

Record loop_state := {
  train_state : TrainState;
  loss_history : list Q;
  events : list train_event;
}.

(** [np.mean(l)] *)
Definition mean (l : list Q) : Q :=
  (foldr Qplus 0 l / inject_Z (Z.of_nat (length l)))%Q.

(** [a % b == 0] on ints. *)
Definition divides_into (a b : Z) : result bool :=
  if decide (b = 0)%Z then Raise ZeroDivisionError
  else Ok (bool_decide (a `mod` b = 0)%Z).

(** Lines 467-506: the iteration with index [i]. *)
Definition body (cfg : FinetuneConfig.config) (save_dir : option string)
    (i : nat) (st : loop_state) : result loop_state :=
  let batch := batches i in
  let '(train_state, update_info) := train_step (train_state st) batch in
  let loss_history := loss_history st ++ [training_loss update_info] in
  let '(loss_history, events) :=
    if bool_decide ((Z.of_nat i + 1) `mod` 1000 = 0)%Z
    then ([], events st ++ [PrintLoss (i + 1) (mean loss_history)])
    else (loss_history, events st) in
  log ← divides_into (Z.of_nat i + 1) (FinetuneConfig.log_interval cfg);
  let events := if log : bool then events ++ [WandbLog i update_info] else events in
  save ← divides_into (Z.of_nat i + 1) (FinetuneConfig.save_interval cfg);
  let events :=
    if (save : bool) && bool_decide (save_dir <> None)
    then events ++ [SaveCheckpoint (i + 1) train_state] else events in
  Ok {| train_state := train_state; loss_history := loss_history;
        events := events |}.

(** [for i in range(a, a + n)]. *)
Fixpoint for_range (cfg : FinetuneConfig.config) (save_dir : option string)
    (a n : nat) (st : loop_state) : result loop_state :=
  match n with
  | O => Ok st
  | S n' => st' ← body cfg save_dir a st; for_range cfg save_dir (S a) n' st'
  end.

(** Lines 460-506; [save_dir] is the directory of lines 316-342, [None]
    when [config.save_dir] is. *)
Definition train (cfg : FinetuneConfig.config) (save_dir : option string)
    (state : TrainState) : result loop_state :=
  for_range cfg save_dir 0 (Z.to_nat (FinetuneConfig.num_steps cfg))
    {| train_state := state; loss_history := []; events := [] |}.

End TrainLoop.
End Finetune.


(** ** Scripted worlds for the other scripts *)

Module Examples.
Import Scenario.

(** Result files that already hold the second task of the suite. *)
Definition halfway : world :=
  {| files :=
       {[ "eval_results/libero/run/eval_step_5000/0/success_rate.json" :=
            Json {[ "close_the_drawer" := RateOutcomes 1 [true] ]};
          "eval_results/libero/run/eval_step_5000/0/success_rate_train.json" :=
            Json {[ "close_the_drawer" := Rate 1 ]} ]};
     log := [] |}.

(** A pickle list with an entry that names no task of the suite. *)
Definition task_split_unknown : list string * list string :=
  (["close_the_drawer_demo.hdf5"; "push_the_button_demo.hdf5"], []).

(** The benchmark of [single_sim] without initial states. *)
Definition single_sim_no_init : @Single.sim unit nat unit unit unit unit :=
  {| Single.load_model := Single.load_model single_sim;
     Single.model_reset := Single.model_reset single_sim;
     Single.model_step := Single.model_step single_sim;
     Single.concatenate := Single.concatenate single_sim;
     Single.task_bddl_file := Single.task_bddl_file single_sim;
     Single.OffScreenRenderEnv := Single.OffScreenRenderEnv single_sim;
     Single.env_seed := Single.env_seed single_sim;
     Single.env_reset := Single.env_reset single_sim;
     Single.env_set_init_state := Single.env_set_init_state single_sim;
     Single.env_step := Single.env_step single_sim;
     Single.get_task_init_states := fun _ => [];
     Single.agentview_image := Single.agentview_image single_sim |}.

(** The first task of the suite, run by the single-environment
    driver. *)
Definition single_task_run : world * result (unit * entry) :=
  Single.run_task single_sim true "eval_results/libero/run/eval_step_5000/0"
    0 open_the_drawer tt fresh.

(** The videos of the four-slot rollout. *)
Definition pool_videos : world * result unit :=
  Vectorized.write_videos
    "eval_results/libero/run/eval_step_5000/0/video/train/open_the_drawer"
    final (seq 0 4) fresh.

(** The two commands, for the seeds 0 and 1. *)
Definition single_cli (w : world) : world * result unit :=
  Cli.single_main single_sim task_suite task_split "octo-custom"
    "finetune_saves/run" [0; 1]%Z (Some 5000%Z) "train" true w.

(** A pool of twenty slots that are all reported done by the same
    step. *)
Definition pool_sim_20 : @Vectorized.sim unit nat unit unit unit unit unit unit :=
  {| Vectorized.load_model := Vectorized.load_model pool_sim;
     Vectorized.model_reset := Vectorized.model_reset pool_sim;
     Vectorized.model_step := Vectorized.model_step pool_sim;
     Vectorized.generate_attention_map := Vectorized.generate_attention_map pool_sim;
     Vectorized.combine_image_and_heatmap :=
       Vectorized.combine_image_and_heatmap pool_sim;
     Vectorized.concatenate := Vectorized.concatenate pool_sim;
     Vectorized.task_bddl_file := Vectorized.task_bddl_file pool_sim;
     Vectorized.SubprocVectorEnv := Vectorized.SubprocVectorEnv pool_sim;
     Vectorized.env_seed := Vectorized.env_seed pool_sim;
     Vectorized.env_reset := Vectorized.env_reset pool_sim;
     Vectorized.env_set_init_state := fun e _ => (e, replicate 20 tt);
     Vectorized.env_step := fun e _ =>
       {| Vectorized.eo_env := e + 1;
          Vectorized.obs := replicate 20 tt;
          Vectorized.rewards := replicate 20 0%Q;
          Vectorized.dones := replicate 20 (bool_decide (e = 36)) |};
     Vectorized.get_task_init_states := Vectorized.get_task_init_states pool_sim;
     Vectorized.agentview_image := Vectorized.agentview_image pool_sim |}.

Definition pool_cli (w : world) : world * result unit :=
  Cli.pool_main pool_sim_20 task_suite task_split "octo-custom"
    "finetune_saves/run" [0; 1]%Z (Some 5000%Z) "train" true w.


(** The SimplerEnv driver on [simpler_sim], with a file system that
    takes every write. *)
Definition host : @SimplerDriver.host unit nat unit :=
  {| SimplerDriver.load_pretrained := fun _ _ _ => tt;
     SimplerDriver.OctoInference := fun _ _ _ => tt;
     SimplerDriver.make := fun _ => 0;
     SimplerDriver.disk := fun _ _ => SimplerDriver.Written |}.

(** Two runs each of a Google robot task and a WidowX task. *)
Definition simpler_run (w : world) : world * ending (gmap string entry) :=
  SimplerDriver.evaluate simpler_sim host 10 "20240901_073905" "octo-custom"
    "finetune_saves/run" ["google_robot_pick_coke_can"; "widowx_spoon_on_towel"]
    2 42 "./inference_results" None w.

Definition mapping_of (r : world * ending (gmap string entry))
    : gmap string entry :=
  match r.2 with
  | Finished m => m
  | _ => ∅
  end.

(** The configuration of the default string, and the same with the
    schedule and the cleaning flags set from the command line. *)
Definition default_config : FinetuneConfig.config :=
  {| FinetuneConfig.batch_size := 32;
     FinetuneConfig.shuffle_buffer_size := 10000;
     FinetuneConfig.num_steps := 50000;
     FinetuneConfig.log_interval := 100;
     FinetuneConfig.eval_interval := 5000;
     FinetuneConfig.save_interval := 5000;
     FinetuneConfig.save_dir := None;
     FinetuneConfig.seed := 42;
     FinetuneConfig.modality := "language_conditioned";
     FinetuneConfig.finetuning_mode := "head_only";
     FinetuneConfig.frozen_keys := Some ["octo_transformer.*"];
     FinetuneConfig.clean_instruction := false;
     FinetuneConfig.remove_useless_token := false;
     FinetuneConfig.goal_relabeling_strategy := None;
     FinetuneConfig.keep_image_prob := 0;
     FinetuneConfig.action_pad_mask := None;
     FinetuneConfig.eval_batch_size := 32 |}.

Definition override (num_steps log_interval save_interval : Z)
    (clean : bool) : FinetuneConfig.config :=
  {| FinetuneConfig.batch_size := 32;
     FinetuneConfig.shuffle_buffer_size := 10000;
     FinetuneConfig.num_steps := num_steps;
     FinetuneConfig.log_interval := log_interval;
     FinetuneConfig.eval_interval := 5000;
     FinetuneConfig.save_interval := save_interval;
     FinetuneConfig.save_dir := Some "finetune_saves";
     FinetuneConfig.seed := 42;
     FinetuneConfig.modality := "language_conditioned";
     FinetuneConfig.finetuning_mode := "head_only";
     FinetuneConfig.frozen_keys := Some ["octo_transformer.*"];
     FinetuneConfig.clean_instruction := clean;
     FinetuneConfig.remove_useless_token := clean;
     FinetuneConfig.goal_relabeling_strategy := None;
     FinetuneConfig.keep_image_prob := 0;
     FinetuneConfig.action_pad_mask := None;
     FinetuneConfig.eval_batch_size := 32 |}.

(** A training run whose state counts the batches it has seen and whose
    loss at a step is the count before the step. *)
Definition batches (i : nat) : nat := 1.

Definition train_step (state batch : nat) : nat * nat :=
  (state + batch, state).

Definition training_loss (info : nat) : Q := inject_Z (Z.of_nat info).

Definition trained : @Finetune.loop_state nat nat :=
  match Finetune.train batches train_step training_loss
          (override 2000 500 1000 false) (Some "finetune_saves/run") 0 with
  | Ok st => st
  | Raise _ =>
      {| Finetune.train_state := 0; Finetune.loss_history := [];
         Finetune.events := [] |}
  end.

(** A flattened model configuration. *)
Definition flat_config : gmap (list string) Z :=
  {[ ["model"; "heads"; "action"; "kwargs"; "action_dim"] := 7%Z;
     ["model"; "heads"; "action"; "module"] := 1%Z;
     ["model"; "max_horizon"] := 10%Z ]}.

End Examples.
(** * Lemmas *)

Lemma all_true_iff (l : list bool) :
  all l = true <-> forall k b, l !! k = Some b -> b = true.
Proof.
  unfold all. rewrite forallb_forall. split.
  - intros H k b Hk. apply (H b). apply list_elem_of_In.
    apply list_elem_of_lookup. eauto.
  - intros H b Hb. apply list_elem_of_In, list_elem_of_lookup in Hb as [k Hk].
    exact (H k b Hk).
Qed.

Lemma all_false_iff (l : list bool) :
  all l = false <-> exists k, l !! k = Some false.
Proof.
  unfold all. induction l as [|b l IH]; cbn [forallb].
  - split; [discriminate|]. intros [k Hk]. by rewrite lookup_nil in Hk.
  - destruct b; cbn [id andb].
    + rewrite IH. split.
      * intros [k Hk]. by exists (S k).
      * intros [[|k] Hk]; [discriminate|]. by exists k.
    + split; [|done]. intros _. by exists 0.
Qed.

Lemma sum_le_length (l : list bool) : sum l <= length l.
Proof. unfold sum. apply length_filter. Qed.

Lemma true_div_unit (a b : nat) (q : Q) :
  a <= b -> true_div a b = Ok q -> (0 <= q /\ q <= 1)%Q.
Proof.
  intros Hab. destruct b as [|b]; simpl; [discriminate|].
  intros [= <-]. unfold Qle. cbn [Qnum Qden].
  assert (Z.pos (Pos.of_nat (S b)) = Z.of_nat (S b)) as ->
    by (rewrite <- Pos.of_nat_succ, Zpos_P_of_succ_nat; lia).
  split; lia.
Qed.

Module VectorizedFacts.
Import Vectorized.

Section Rollout.
Context {Policy Env Obs Row Actions Attn Heat : Type}.
Variable model_step : Policy -> list (list Row) -> @model_out Policy Actions Attn.
Variable generate_attention_map : Attn -> Heat.
Variable combine_image_and_heatmap : list (list Row) -> Heat -> list (list Row).
Variable concatenate : Actions -> list (list Q).
Variable env_step : Env -> list (list Q) -> @env_out Env Obs.
Variable agentview_image : Obs -> list Row.
Variable env_num : nat.

Local Abbreviation state := (@loop_state Policy Env Row Attn).
Local Abbreviation body :=
  (body model_step generate_attention_map combine_image_and_heatmap
        concatenate env_step agentview_image env_num).
Local Abbreviation for_range :=
  (for_range model_step generate_attention_map combine_image_and_heatmap
        concatenate env_step agentview_image env_num).
Local Abbreviation pool_reply := (pool_reply model_step concatenate env_step).
Local Abbreviation init_state := (init_state (Attn:=Attn) agentview_image env_num).
Local Abbreviation inv := (inv (Policy:=Policy) (Env:=Env) (Row:=Row) (Attn:=Attn) env_num).

(** The flag of slot [k] after the inner loop is the old flag or-ed
    with [dones[k]]; its length is lowered to [step + 1] exactly when
    [dones[k]] holds. *)
Lemma check_slots_spec step dn ks fin len fin' len' :
  check_slots step dn ks fin len = Ok (fin', len') ->
  length fin' = length fin /\ length len' = length len /\
  (forall k, k ∈ ks -> is_Some (dn !! k)) /\
  (forall k f, fin !! k = Some f ->
     fin' !! k = Some (f || bool_decide (k ∈ ks /\ dn !! k = Some true))) /\
  (forall k l, len !! k = Some l ->
     len' !! k = Some (if bool_decide (k ∈ ks /\ dn !! k = Some true)
                       then Nat.min (step + 1) l else l)).
Proof.
  revert fin len. induction ks as [|k0 ks IH]; intros fin len; cbn [check_slots].
  - intros [= <- <-]. split_and!; [done..| | |].
    + intros k Hk. by apply elem_of_nil in Hk.
    + intros k f Hf. rewrite bool_decide_eq_false_2; [by rewrite orb_false_r|].
      intros [Hk _]. by apply elem_of_nil in Hk.
    + intros k l Hl. rewrite bool_decide_eq_false_2; [done|].
      intros [Hk _]. by apply elem_of_nil in Hk.
  - destruct (dn !! k0) as [[|]|] eqn:Hd; [|intros H|discriminate].
    + destruct (len !! k0) as [l0|] eqn:Hl0; [|discriminate].
      destruct (decide (k0 < length fin)) as [Hlt|]; [|discriminate].
      intros H. apply IH in H as (Hf1 & Hl1 & Hd1 & Hfin & Hlen).
      rewrite length_insert in Hf1. rewrite length_insert in Hl1.
      split_and!; [done..| | |].
      * intros k [->|Hk]%elem_of_cons; eauto.
      * intros k f Hf. destruct (decide (k = k0)) as [->|Hne].
        -- rewrite (Hfin k0 true); [|by apply list_lookup_insert_eq].
           simpl. rewrite bool_decide_eq_true_2; [by rewrite orb_true_r|].
           split; [left|done].
        -- rewrite (Hfin k f); [|by rewrite list_lookup_insert_ne].
           f_equal. f_equal. apply bool_decide_ext.
           rewrite elem_of_cons. intuition congruence.
      * intros k l Hl. destruct (decide (k = k0)) as [->|Hne].
        -- assert (l = l0) as -> by congruence.
           rewrite (Hlen k0 (Nat.min (step + 1) l0));
             [|apply list_lookup_insert_eq; by eapply lookup_lt_Some].
           rewrite (bool_decide_eq_true_2 (k0 ∈ k0 :: ks /\ _));
             [|split; [left|done]].
           f_equal. case_bool_decide; lia.
        -- rewrite (Hlen k l); [|by rewrite list_lookup_insert_ne].
           f_equal. erewrite bool_decide_ext; [done|].
           rewrite elem_of_cons. intuition congruence.
    + apply IH in H as (Hf1 & Hl1 & Hd1 & Hfin & Hlen).
      split_and!; [done..| | |].
      * intros k [->|Hk]%elem_of_cons; eauto.
      * intros k f Hf. rewrite (Hfin k f Hf). f_equal. f_equal.
        apply bool_decide_ext. rewrite elem_of_cons. intuition congruence.
      * intros k l Hl. rewrite (Hlen k l Hl). f_equal.
        erewrite bool_decide_ext; [done|].
        rewrite elem_of_cons. intuition congruence.
Qed.

Lemma body_spec step st st' brk :
  body step st = Ok (st', brk) ->
  length (finished_tasks st') = length (finished_tasks st) /\
  length (episode_length st') = length (episode_length st) /\
  (forall k, k < env_num -> is_Some (dones (pool_reply st) !! k)) /\
  (forall k f, finished_tasks st !! k = Some f ->
     finished_tasks st' !! k =
     Some (f || bool_decide (k < env_num /\ dones (pool_reply st) !! k = Some true))) /\
  (forall k l, episode_length st !! k = Some l ->
     episode_length st' !! k =
     Some (if bool_decide (k < env_num /\ dones (pool_reply st) !! k = Some true)
           then Nat.min (step + 1) l else l)) /\
  brk = all (finished_tasks st') /\
  attention_history st' =
    attention_history st ++ [mo_attention (policy_reply model_step st)].
Proof.
  unfold Vectorized.body.
  destruct (check_slots _ _ _ _ _) as [[fin len]|] eqn:Hc; [|discriminate].
  apply check_slots_spec in Hc as (Hf & Hl & Hd & Hfin & Hlen).
  assert (Hseq : forall k,
    bool_decide (k ∈ seq 0 env_num /\ dones (pool_reply st) !! k = Some true) =
    bool_decide (k < env_num /\ dones (pool_reply st) !! k = Some true)).
  { intros k. apply bool_decide_ext. rewrite elem_of_seq. intuition lia. }
  cbn. destruct (all fin) eqn:Hall; intros [= <- <-]; cbn;
    (split_and!; [done|done| | | |done|done]).
  all: try (intros k Hk; apply Hd, elem_of_seq; lia).
  all: try (intros k f Hk; rewrite <- Hseq; by apply Hfin).
  all: intros k l Hk; rewrite <- Hseq; by apply Hlen.
Qed.

Lemma inv_init p e o : inv 0 (init_state p e o).
Proof.
  unfold inv, Vectorized.init_state; cbn [finished_tasks episode_length attention_history].
  rewrite !length_replicate. split_and!; [done..|].
  intros k l [-> Hk]%lookup_replicate.
  unfold max_step. split_and!; [lia|lia| |done].
  rewrite lookup_replicate_2; [done|lia].
Qed.

Lemma inv_body a st st' brk :
  inv a st -> body a st = Ok (st', brk) -> inv (S a) st'.
Proof.
  intros (Hf & Hl & Ha & Hlen) (Hf' & Hl' & _ & Hfin' & Hlen' & _ & Hah)%body_spec.
  unfold inv. rewrite Hf', Hl', Hah, length_app, Ha. cbn [length].
  split_and!; [done|done|lia|].
  intros k l' Hk.
  assert (is_Some (episode_length st !! k)) as [l Hlk].
  { apply lookup_lt_is_Some. rewrite <- Hl'. by eapply lookup_lt_Some. }
  assert (is_Some (finished_tasks st !! k)) as [f Hfk].
  { apply lookup_lt_is_Some. rewrite Hf, <- Hl. by eapply lookup_lt_Some. }
  destruct (Hlen k l Hlk) as (Hrange & Htrue & Hfalse).
  rewrite (Hlen' k l Hlk) in Hk. rewrite (Hfin' k f Hfk).
  injection Hk as <-.
  case_bool_decide; destruct f; cbn; split_and!; try done; try lia.
  all: try (intros _; specialize (Htrue Hfk); lia).
  all: try (intros _; specialize (Hfalse Hfk); lia).
Qed.

Lemma for_range_S a n st :
  for_range a (S n) st =
  body a st ≫= (fun '(st', brk) =>
    if brk : bool then Ok (st', true) else for_range (S a) n st').
Proof. reflexivity. Qed.

(** Running [n + m] iterations is running [n] and then, unless the loop
    was left, [m] more. *)
Lemma for_range_app a n m st :
  for_range a (n + m) st =
  for_range a n st ≫= (fun '(st', brk) =>
    if brk : bool then Ok (st', true) else for_range (a + n) m st').
Proof.
  revert a st. induction n as [|n IH]; intros a st.
  - cbn. by rewrite Nat.add_0_r.
  - cbn [Nat.add]. rewrite !for_range_S.
    destruct (body a st) as [[st1 [|]]|]; cbn; [done| |done].
    rewrite IH. by replace (S a + n) with (a + S n) by lia.
Qed.

Lemma inv_for_range a n st st' brk :
  inv a st -> for_range a n st = Ok (st', brk) ->
  exists m, m <= n /\ inv (a + m) st' /\
    (brk = true -> all (finished_tasks st') = true /\ 1 <= m) /\
    (brk = false -> m = n) /\
    (1 <= n -> brk = all (finished_tasks st')).
Proof.
  revert a st. induction n as [|n IH]; intros a st Hinv.
  - intros [= <- <-]. exists 0. rewrite Nat.add_0_r.
    split_and!; [done|done|done|done|lia].
  - rewrite for_range_S.
    destruct (body a st) as [[st1 b1]|] eqn:Hb; [|discriminate]. cbn.
    pose proof (inv_body _ _ _ _ Hinv Hb) as Hinv1.
    apply body_spec in Hb as (_ & _ & _ & _ & _ & Hbrk & _).
    destruct b1.
    + intros [= <- <-]. exists 1. replace (a + 1) with (S a) by lia.
      split_and!; [lia|done|done|done|done].
    + intros Hrest. destruct (IH _ _ Hinv1 Hrest) as (m & Hm & Hi & Ht & Hf & Hn).
      exists (S m). replace (a + S m) with (S a + m) by lia.
      split_and!; [lia|done| | |].
      * intros Hbt. destruct (Ht Hbt). split; [done|lia].
      * intros Hbf. rewrite (Hf Hbf). done.
      * intros _. destruct n as [|n]; [|apply Hn; lia].
        injection Hrest as <- <-. done.
Qed.

(** Every iteration before the last one ended without [break], with at
    least one slot still running. *)
Lemma for_range_prefix a n st st' brk :
  for_range a n st = Ok (st', brk) ->
  forall j, j < length (attention_history st') - length (attention_history st) ->
  exists st_j, for_range a j st = Ok (st_j, false) /\
    (1 <= j -> all (finished_tasks st_j) = false).
Proof.
  revert a st. induction n as [|n IH]; intros a st.
  - intros [= <- <-] j Hj. lia.
  - rewrite for_range_S.
    destruct (body a st) as [[st1 b1]|] eqn:Hb; [|discriminate]. cbn.
    pose proof Hb as (_ & _ & _ & _ & _ & Hbrk & Hah)%body_spec.
    intros Hrest [|j] Hj.
    { exists st. split; [done|lia]. }
    destruct b1.
    + injection Hrest as <- <-. rewrite Hah, length_app in Hj. cbn in Hj. lia.
    + rewrite for_range_S, Hb. cbn.
      destruct (IH _ _ Hrest j) as (st_j & Hrun & Hall).
      { rewrite Hah, length_app in *. cbn in *. lia. }
      exists st_j. split; [done|]. intros _.
      destruct j as [|j]; [|apply Hall; lia].
      injection Hrun as <-. done.
Qed.

(** A finished slot stays finished, with the length it has. *)
Lemma for_range_frozen a n st st' brk k l :
  for_range a n st = Ok (st', brk) ->
  finished_tasks st !! k = Some true ->
  episode_length st !! k = Some l ->
  l <= a ->
  finished_tasks st' !! k = Some true /\ episode_length st' !! k = Some l.
Proof.
  revert a st. induction n as [|n IH]; intros a st.
  - by intros [= <- <-].
  - rewrite for_range_S.
    destruct (body a st) as [[st1 b1]|] eqn:Hb; [|discriminate]. cbn.
    apply body_spec in Hb as (_ & _ & _ & Hfin & Hlen & _ & _).
    intros Hrest Hf Hl Hle.
    assert (finished_tasks st1 !! k = Some true) as Hf1
      by (by rewrite (Hfin k true Hf)).
    assert (episode_length st1 !! k = Some l) as Hl1.
    { rewrite (Hlen k l Hl). f_equal. case_bool_decide; lia. }
    destruct b1; [by injection Hrest as <- <-|].
    eapply IH; eauto.
Qed.

Lemma for_range_history a n st st' brk :
  for_range a n st = Ok (st', brk) ->
  length (attention_history st) <= length (attention_history st').
Proof.
  revert a st. induction n as [|n IH]; intros a st.
  - by intros [= <- <-].
  - rewrite for_range_S.
    destruct (body a st) as [[st1 b1]|] eqn:Hb; [|discriminate]. cbn.
    apply body_spec in Hb as (_ & _ & _ & _ & _ & _ & Hah).
    assert (length (attention_history st1) = S (length (attention_history st)))
      by (rewrite Hah, length_app; cbn; lia).
    destruct b1; [intros [= <- <-]; lia|].
    intros Hrest%IH. lia.
Qed.

(** A slot whose flag the pool never raises stays unfinished. *)
Lemma for_range_running a n st st' brk k :
  for_range a n st = Ok (st', brk) ->
  finished_tasks st !! k = Some false ->
  (forall j st_j,
     j < length (attention_history st') - length (attention_history st) ->
     for_range a j st = Ok (st_j, false) ->
     dones (pool_reply st_j) !! k = Some false) ->
  finished_tasks st' !! k = Some false.
Proof.
  revert a st. induction n as [|n IH]; intros a st.
  - by intros [= <- <-].
  - rewrite for_range_S.
    destruct (body a st) as [[st1 b1]|] eqn:Hb; [|discriminate]. cbn.
    pose proof Hb as (_ & _ & _ & Hfin & _ & _ & Hah)%body_spec.
    assert (length (attention_history st1) = S (length (attention_history st)))
      as Hlen1 by (rewrite Hah, length_app; cbn; lia).
    intros Hrest Hf Hnever.
    assert (length (attention_history st1) <= length (attention_history st'))
      as Hmono.
    { destruct b1; [injection Hrest as <- <-; lia|].
      by eapply for_range_history. }
    assert (finished_tasks st1 !! k = Some false) as Hf1.
    { rewrite (Hfin k false Hf). cbn. f_equal.
      apply bool_decide_eq_false_2. intros [_ Hd].
      rewrite (Hnever 0 st) in Hd; [done|lia|done]. }
    destruct b1; [by injection Hrest as <- <-|].
    eapply IH; [done..|].
    intros j st_j Hj Hrun. apply (Hnever (S j)); [lia|].
    rewrite for_range_S, Hb. done.
Qed.

(** The rollout does not raise when the pool keeps its contract of one
    done flag per slot. *)
Lemma check_slots_total step dn ks fin len :
  (forall k, k ∈ ks -> k < length dn /\ k < length fin /\ k < length len) ->
  exists fin' len', check_slots step dn ks fin len = Ok (fin', len').
Proof.
  revert fin len. induction ks as [|k ks IH]; intros fin len Hks;
    cbn [check_slots]; [eauto|].
  destruct (Hks k) as (Hd & Hf & Hl); [left|].
  destruct (lookup_lt_is_Some_2 dn k Hd) as [d ->].
  destruct (lookup_lt_is_Some_2 len k Hl) as [l ->].
  destruct d.
  - rewrite decide_True by done. apply IH. intros k' Hk'.
    rewrite !length_insert. apply Hks. by right.
  - apply IH. intros k' Hk'. apply Hks. by right.
Qed.

Lemma body_total a st :
  inv a st -> env_num <= length (dones (pool_reply st)) ->
  exists st' brk, body a st = Ok (st', brk).
Proof.
  intros (Hf & Hl & _) Hd. unfold Vectorized.body.
  destruct (check_slots_total a (dones (pool_reply st)) (seq 0 env_num)
              (finished_tasks st) (episode_length st)) as (fin & len & ->).
  { intros k Hk%elem_of_seq. lia. }
  cbn. destruct (all fin); eauto.
Qed.

Lemma for_range_total a n st :
  (forall e acts, env_num <= length (dones (env_step e acts))) ->
  inv a st ->
  exists st' brk, for_range a n st = Ok (st', brk).
Proof.
  intros Hpool. revert a st. induction n as [|n IH]; intros a st Hinv;
    [cbn; eauto|].
  rewrite for_range_S.
  destruct (body_total a st Hinv (Hpool _ _)) as (st1 & b1 & Hb).
  rewrite Hb. cbn. destruct b1; [eauto|].
  apply IH. by eapply inv_body.
Qed.

Lemma rollout_total p e o :
  (forall e acts, env_num <= length (dones (env_step e acts))) ->
  exists st,
    rollout model_step generate_attention_map combine_image_and_heatmap
            concatenate env_step agentview_image env_num p e o = Ok st.
Proof.
  intros Hpool. unfold rollout.
  destruct (for_range_total 0 max_step (init_state p e o) Hpool (inv_init p e o))
    as (st & brk & ->).
  by exists st.
Qed.

(** C2. Slot freezing: when slot [k], still running after [s]
    iterations, is reported done by the pool at step [s], then in every
    later loop state - whatever the other slots do - its finished flag
    is true and its recorded length is [min (s + 1) prev], where [prev]
    is the length recorded before step [s]. *)
Theorem slot_freezing p e o s k st :
  for_range 0 s (init_state p e o) = Ok (st, false) ->
  finished_tasks st !! k = Some false ->
  dones (pool_reply st) !! k = Some true ->
  exists prev, episode_length st !! k = Some prev /\
    forall n st' brk,
      s < n -> for_range 0 n (init_state p e o) = Ok (st', brk) ->
      finished_tasks st' !! k = Some true /\
      episode_length st' !! k = Some (Nat.min (s + 1) prev).
Proof.
  intros Hs Hf Hd.
  destruct (inv_for_range _ _ _ _ _ (inv_init p e o) Hs)
    as (m & _ & Hinv & _ & Hm & _).
  rewrite (Hm eq_refl) in Hinv. cbn in Hinv.
  destruct Hinv as (Hlf & Hll & _ & _).
  assert (k < env_num) as Hk by (rewrite <- Hlf; by eapply lookup_lt_Some).
  assert (is_Some (episode_length st !! k)) as [prev Hprev]
    by (apply lookup_lt_is_Some; lia).
  exists prev. split; [done|]. intros n st' brk Hn Hrun.
  replace n with (s + S (n - s - 1)) in Hrun by lia.
  rewrite for_range_app, Hs in Hrun. cbn [mbind result_bind] in Hrun.
  rewrite for_range_S in Hrun. cbn [Nat.add] in Hrun.
  destruct (body s st) as [[st1 b1]|] eqn:Hb; [|discriminate].
  cbn in Hrun.
  apply body_spec in Hb as (_ & _ & _ & Hfin & Hlen & _ & _).
  assert (finished_tasks st1 !! k = Some true) as Hf1.
  { rewrite (Hfin k false Hf). by rewrite bool_decide_eq_true_2. }
  assert (episode_length st1 !! k = Some (Nat.min (s + 1) prev)) as Hl1.
  { rewrite (Hlen k prev Hprev). by rewrite bool_decide_eq_true_2. }
  destruct b1; [by injection Hrun as <- <-|].
  eapply for_range_frozen; [done..|lia].
Qed.

(** A slot that is finished after some iterations was reported done in
    one of them. *)
Lemma for_range_reported a n (st st' : state) brk k :
  for_range a n st = Ok (st', brk) ->
  finished_tasks st !! k = Some false ->
  finished_tasks st' !! k = Some true ->
  exists j st_j,
    j < length (attention_history st') - length (attention_history st) /\
    for_range a j st = Ok (st_j, false) /\
    dones (pool_reply st_j) !! k = Some true.
Proof.
  revert a st. induction n as [|n IH]; intros a st.
  - intros [= <- <-]. congruence.
  - rewrite for_range_S.
    destruct (body a st) as [[st1 b1]|] eqn:Hb; [|discriminate]. cbn.
    pose proof Hb as (_ & _ & _ & Hfin & _ & _ & Hah)%body_spec.
    assert (length (attention_history st1) = S (length (attention_history st)))
      as Hlen1 by (rewrite Hah, length_app; cbn; lia).
    intros Hrest Hf Hf'.
    assert (length (attention_history st1) <= length (attention_history st'))
      as Hmono.
    { destruct b1; [injection Hrest as <- <-; lia|].
      by eapply for_range_history. }
    specialize (Hfin k false Hf). cbn in Hfin.
    case_bool_decide as Hd.
    + exists 0, st. split_and!; [lia|done|by destruct Hd].
    + destruct b1; [injection Hrest as <- <-; congruence|].
      destruct (IH _ _ Hrest Hfin Hf') as (j & st_j & Hj & Hrun & Hdone).
      exists (S j), st_j. split_and!; [lia| |done].
      rewrite for_range_S, Hb. done.
Qed.

(** A slot that the pool reports done in an iteration that is run is
    finished from then on. *)
Lemma for_range_reported_finished p e o n (st' : state) brk i st_i k :
  for_range 0 n (init_state p e o) = Ok (st', brk) ->
  k < env_num ->
  i < length (attention_history st') ->
  for_range 0 i (init_state p e o) = Ok (st_i, false) ->
  dones (pool_reply st_i) !! k = Some true ->
  finished_tasks st' !! k = Some true.
Proof.
  intros Hrun Hk Hi Hr Hd.
  destruct (inv_for_range _ _ _ _ _ (inv_init p e o) Hr)
    as (m & _ & Hinv & _ & Hm & _).
  rewrite (Hm eq_refl) in Hinv. cbn [Nat.add] in Hinv.
  destruct (inv_for_range _ _ _ _ _ (inv_init p e o) Hrun)
    as (n' & Hn' & (_ & _ & Hah & _) & _).
  cbn [Nat.add] in Hah. rewrite Hah in Hi.
  replace n with (i + S (n - i - 1)) in Hrun by lia.
  rewrite for_range_app, Hr in Hrun.
  cbn [mbind result_bind] in Hrun.
  rewrite for_range_S in Hrun. cbn [Nat.add] in Hrun.
  destruct (body i st_i) as [[st1 b1]|] eqn:Hb; [|discriminate].
  cbn in Hrun.
  pose proof (inv_body _ _ _ _ Hinv Hb) as (Hlf1 & Hll1 & _ & Hlen1).
  destruct Hinv as (Hlf & Hll & _ & _).
  apply body_spec in Hb as (_ & _ & _ & Hfin & _ & _ & _).
  assert (is_Some (finished_tasks st_i !! k)) as [f Hf]
    by (apply lookup_lt_is_Some; lia).
  assert (finished_tasks st1 !! k = Some true) as Hf1.
  { rewrite (Hfin k f Hf), bool_decide_eq_true_2 by done.
    by rewrite orb_true_r. }
  destruct b1; [by injection Hrun as <- <-|].
  assert (is_Some (episode_length st1 !! k)) as [l Hl]
    by (apply lookup_lt_is_Some; lia).
  destruct (Hlen1 k l Hl) as (_ & Hle & _).
  eapply for_range_frozen; [exact Hrun|done|done|].
  by apply Hle.
Qed.

(** C3. The rollout runs [n] iterations, [1 <= n <= 600]: it stops
    after the first iteration that leaves every slot finished, or after
    the 600th; no earlier iteration left all slots finished.  A slot
    whose done flag was never raised in these [n] steps is unfinished,
    is labelled "fail" and has [episode_length = 600].  Finished is
    what the pool reports: a slot is finished after the rollout exactly
    when the pool reported it done in one of the [n] iterations; so the
    rollout stops with every slot reported done or at the 600th
    iteration, and at every earlier point some slot had not been
    reported done yet. *)
Theorem rollout_stops p e o st :
  rollout model_step generate_attention_map combine_image_and_heatmap
          concatenate env_step agentview_image env_num p e o = Ok st ->
  1 <= length (attention_history st) <= max_step /\
  (all (finished_tasks st) = true \/ length (attention_history st) = max_step) /\
  (forall j, 1 <= j < length (attention_history st) ->
     exists st_j, for_range 0 j (init_state p e o) = Ok (st_j, false) /\
       all (finished_tasks st_j) = false) /\
  (forall k, k < env_num ->
     (forall j st_j, j < length (attention_history st) ->
        for_range 0 j (init_state p e o) = Ok (st_j, false) ->
        dones (pool_reply st_j) !! k = Some false) ->
     finished_tasks st !! k = Some false /\
     episode_length st !! k = Some max_step /\
     video_result st k = Ok "fail"%string) /\
  (forall k, k < env_num ->
     (finished_tasks st !! k = Some true <->
      exists j st_j,
        j < length (attention_history st) /\
        for_range 0 j (init_state p e o) = Ok (st_j, false) /\
        dones (pool_reply st_j) !! k = Some true)) /\
  ((forall k, k < env_num ->
      exists j st_j,
        j < length (attention_history st) /\
        for_range 0 j (init_state p e o) = Ok (st_j, false) /\
        dones (pool_reply st_j) !! k = Some true) \/
   length (attention_history st) = max_step) /\
  (forall j, 1 <= j < length (attention_history st) ->
     exists k, k < env_num /\
       forall i st_i, i < j ->
         for_range 0 i (init_state p e o) = Ok (st_i, false) ->
         dones (pool_reply st_i) !! k <> Some true).
Proof.
  intros Hroll.
  assert (forall k, k < env_num ->
            (finished_tasks st !! k = Some true <->
             exists j st_j,
               j < length (attention_history st) /\
               for_range 0 j (init_state p e o) = Ok (st_j, false) /\
               dones (pool_reply st_j) !! k = Some true)) as Hiff.
  { revert Hroll. unfold rollout.
    destruct (for_range 0 max_step (init_state p e o)) as [[st' brk]|] eqn:Hrun;
      [|discriminate].
    intros [= <-] k Hk. split.
    - intros Hfin.
      destruct (for_range_reported _ _ _ _ _ k Hrun) as (j & st_j & Hj & Hr & Hd);
        [by apply lookup_replicate_2|done|].
      exists j, st_j. cbn in Hj. split_and!; [lia|done|done].
    - intros (j & st_j & Hj & Hr & Hd).
      by eapply for_range_reported_finished. }
  revert Hroll. unfold rollout.
  destruct (for_range 0 max_step (init_state p e o)) as [[st' brk]|] eqn:Hrun;
    [|discriminate].
  intros [= <-].
  destruct (inv_for_range _ _ _ _ _ (inv_init p e o) Hrun)
    as (m & Hm & Hinv & Ht & Hf & _).
  cbn [Nat.add] in Hinv. destruct Hinv as (Hlf & Hll & Hah & Hlen).
  assert (1 <= m) as Hm1.
  { destruct brk; [by apply Ht|]. rewrite (Hf eq_refl). unfold max_step. lia. }
  split_and!.
  - lia.
  - lia.
  - destruct brk; [left; by apply Ht|right]. rewrite Hah. by apply Hf.
  - intros j [Hj1 Hj2].
    destruct (for_range_prefix _ _ _ _ _ Hrun j) as (st_j & Hrj & Hall).
    { cbn. lia. }
    exists st_j. split; [done|by apply Hall].
  - intros k Hk Hnever.
    assert (finished_tasks st' !! k = Some false) as Hfk.
    { eapply for_range_running; [done| |].
      - cbn. apply lookup_replicate_2. done.
      - intros j st_j Hj. apply Hnever. cbn in Hj. lia. }
    assert (is_Some (episode_length st' !! k)) as [l Hl]
      by (apply lookup_lt_is_Some; lia).
    destruct (Hlen k l Hl) as (_ & _ & Hmax).
    split_and!; [done| |].
    + rewrite Hl, (Hmax Hfk). done.
    + unfold video_result. by rewrite Hfk.
  - exact Hiff.
  - destruct brk; [left|right; rewrite Hah; by apply Hf].
    destruct (Ht eq_refl) as [Hall _]. intros k Hk. apply Hiff; [done|].
    assert (is_Some (finished_tasks st' !! k)) as [f Hfk]
      by (apply lookup_lt_is_Some; lia).
    rewrite Hfk. f_equal. by apply (proj1 (all_true_iff _) Hall k).
  - intros j [Hj1 Hj2].
    destruct (for_range_prefix _ _ _ _ _ Hrun j) as (st_j & Hrj & Hall).
    { cbn. lia. }
    specialize (Hall Hj1).
    destruct (inv_for_range _ _ _ _ _ (inv_init p e o) Hrj)
      as (mj & _ & (Hlfj & _ & Hahj & _) & _ & Hmj & _).
    rewrite (Hmj eq_refl) in Hahj. cbn [Nat.add] in Hahj.
    apply all_false_iff in Hall as [k Hk].
    assert (k < env_num) as Hlt by (rewrite <- Hlfj; by eapply lookup_lt_Some).
    exists k. split; [done|]. intros i st_i Hi Hri Hd.
    assert (finished_tasks st_j !! k = Some true) as Htrue.
    { apply (for_range_reported_finished p e o j st_j false i st_i k Hrj Hlt);
        [lia|exact Hri|exact Hd]. }
    congruence.
Qed.

(** C10. In every state the loop reaches, each of the [env_num]
    recorded lengths lies in [1, 600]; and a success rate computed from
    such a state lies in [0, 1]. *)
Theorem episode_length_bounds p e o n st brk :
  for_range 0 n (init_state p e o) = Ok (st, brk) ->
  length (episode_length st) = env_num /\
  (forall k l, episode_length st !! k = Some l -> 1 <= l <= 600) /\
  (forall r, success_rate env_num st = Ok r -> (0 <= r /\ r <= 1)%Q).
Proof.
  intros Hrun.
  destruct (inv_for_range _ _ _ _ _ (inv_init p e o) Hrun)
    as (m & _ & (Hlf & Hll & _ & Hlen) & _).
  split_and!; [done| |].
  - intros k l Hl. by destruct (Hlen k l Hl) as (? & _).
  - intros r. unfold success_rate. apply true_div_unit.
    rewrite <- Hlf. apply sum_le_length.
Qed.

End Rollout.
End VectorizedFacts.

Lemma gt0_iff (x : Q) : gt0 x = true <-> (0 < x)%Q.
Proof.
  unfold gt0. rewrite negb_true_iff, <- not_true_iff_false, Qle_bool_iff.
  split; [apply Qnot_le_lt|apply Qlt_not_le].
Qed.

Module SingleFacts.
Import Single.

Section Driver.
Context {Policy Env Obs Row Actions InitState : Type}.
Variable S : @sim Policy Env Obs Row Actions InitState.

Local Abbreviation body := (body S).
Local Abbreviation for_range := (for_range S).

(** The loop runs the body [m] times, [1 <= m <= n], where [m] is the
    first iteration that ends with [done], or [n]. *)
Lemma for_range_iter n st :
  1 <= n ->
  exists m, 1 <= m <= n /\
    for_range n st = Nat.iter m body st /\
    (forall j, 1 <= j < m -> done (Nat.iter j body st) = false) /\
    (done (Nat.iter m body st) = true \/ m = n).
Proof.
  revert st. induction n as [|n IH]; intros st Hn; [lia|].
  cbn [Single.for_range]. destruct (done (body st)) eqn:Hd.
  - exists 1. cbn. split_and!; [lia|lia|done| |by left].
    intros j Hj. lia.
  - destruct n as [|n].
    + exists 1. cbn. split_and!; [lia|lia|done| |by right].
      intros j Hj. lia.
    + destruct (IH (body st)) as (m & Hm & Hrun & Hbefore & Hlast); [lia|].
      exists (Datatypes.S m). rewrite Nat.iter_succ_r.
      split_and!; [lia|lia|done| |].
      * intros [|j] Hj; [lia|]. rewrite Nat.iter_succ_r.
        destruct j as [|j]; [done|]. apply Hbefore. lia.
      * destruct Hlast as [Hlast|Hlast]; [by left|right; lia].
Qed.

(** C8. An episode runs [m] steps, where [m] is the first step at which
    the simulator reports done, or 600; it does not raise, and its
    success flag is true exactly when the reward [r] returned by that
    last step is strictly positive. *)
Theorem success_iff_terminal_reward model e i :
  exists m r success,
    1 <= m <= 600 /\
    (forall j, 1 <= j < m -> done (Nat.iter j body (start S model e i)) = false) /\
    (done (Nat.iter m body (start S model e i)) = true \/ m = 600) /\
    r = eo_reward (sim_reply S (Nat.iter (m - 1) body (start S model e i))) /\
    episode S model e i = Ok (Nat.iter m body (start S model e i), success) /\
    (success = true <-> (0 < r)%Q).
Proof.
  destruct (for_range_iter 600 (start S model e i)) as (m & Hm & Hrun & Hb & Hl);
    [lia|].
  exists m, (eo_reward (sim_reply S (Nat.iter (m - 1) body (start S model e i)))),
    (gt0 (eo_reward (sim_reply S (Nat.iter (m - 1) body (start S model e i))))).
  split_and!; [lia|lia|done|done|done| |apply gt0_iff].
  unfold episode. rewrite Hrun.
  destruct m as [|m]; [lia|].
  replace (Datatypes.S m - 1) with m by lia. done.
Qed.

End Driver.
End SingleFacts.

Module SimplerFacts.
Import Simpler.

Section Episode.
Context {Policy Env Obs Image : Type}.
Variable S : @sim Policy Env Obs Image.


(** C5, as the code has it.  When the policy predicts terminate on the
    final subtask, the flag stays set and the environment is not
    advanced, but the environment is still stepped with the action and
    the loop ends only if that step reports success or truncation. *)
Theorem final_terminate_steps_on st x :
  final_subtask st = true ->
  terminate_episode (policy_action S st) !! 0 = Some x ->
  (0 < x)%Q ->
  exists st',
    body S st = Ok st' /\
    predicted_terminated st' = true /\
    env st' = eo_env (env_step S (env st)
                        (world_vector (policy_action S st) ++
                         rot_axangle (policy_action S st) ++
                         gripper (policy_action S st))) /\
    timestep st' = timestep st + 1 /\
    running st' =
      negb (eo_truncated (env_step S (env st)
                            (world_vector (policy_action S st) ++
                             rot_axangle (policy_action S st) ++
                             gripper (policy_action S st)))
            || eo_success (env_step S (env st)
                             (world_vector (policy_action S st) ++
                              rot_axangle (policy_action S st) ++
                              gripper (policy_action S st)))).
Proof.
  intros Hfinal Hx Hpos. apply gt0_iff in Hpos.
  unfold body, predicts_terminate, getitem. fold (policy_action S st).
  rewrite Hx. cbn. rewrite Hpos, Hfinal. cbn.
  eexists. split; [reflexivity|]. cbn.
  split_and!; reflexivity.
Qed.

End Episode.
End SimplerFacts.

(** ** The world monad *)

Lemma bind_Ok {A B} (m : M A) (f : A -> M B) w w' b :
  (m ≫= f) w = (w', Ok b) ->
  exists w1 a, m w = (w1, Ok a) /\ f a w1 = (w', Ok b).
Proof.
  unfold mbind, M_bind. destruct (m w) as [w1 [a|e]]; [eauto|discriminate].
Qed.

Lemma bind_run {A B} (m : M A) (f : A -> M B) w w1 a :
  m w = (w1, Ok a) -> (m ≫= f) w = f a w1.
Proof. unfold mbind, M_bind. by intros ->. Qed.

Lemma bind_raise {A B} (m : M A) (f : A -> M B) w w1 e :
  m w = (w1, Raise e) -> (m ≫= f) w = (w1, Raise e).
Proof. unfold mbind, M_bind. by intros ->. Qed.

Lemma quiet_ret {A} (a : A) : quiet (mret a).
Proof.
  intros w w' r [= <- <-]. split; [done|]. exists []. by rewrite app_nil_r.
Qed.

Lemma quiet_lift {A} (r : result A) : quiet (lift r).
Proof.
  intros w w' r' [= <- <-]. split; [done|]. exists []. by rewrite app_nil_r.
Qed.

Lemma quiet_emit e : is_artifact e -> quiet (emit e).
Proof.
  intros He w w' r [= <- <-]. split; [done|]. exists [e]. split; [done|].
  by constructor.
Qed.

Lemma quiet_bind {A B} (m : M A) (f : A -> M B) :
  quiet m -> (forall a, quiet (f a)) -> quiet (m ≫= f).
Proof.
  intros Hm Hf w w' r. unfold mbind, M_bind.
  destruct (m w) as [w1 [a|e]] eqn:Hmw.
  - intros Hfa. destruct (Hm _ _ _ Hmw) as (Hf1 & evs1 & Hl1 & Ha1).
    destruct (Hf a _ _ _ Hfa) as (Hf2 & evs2 & Hl2 & Ha2).
    split; [congruence|]. exists (evs1 ++ evs2).
    rewrite Hl2, Hl1, app_assoc. split; [done|by apply Forall_app].
  - intros [= <- <-]. eapply Hm; eauto.
Qed.

Lemma announces_lift {A B} (n : string) (r : result A) (f : A -> M B) :
  (forall a, announces n (f a)) -> announces n (lift r ≫= f).
Proof.
  intros Hf w w' r'. unfold mbind, M_bind, lift. destruct r as [a|e].
  - apply Hf.
  - intros [= <- <-]. split; [done|]. intros a [=].
Qed.

Lemma announces_banner {B} (n : string) (f : unit -> M B) :
  (forall u, quiet (f u)) -> announces n (emit (Banner n) ≫= f).
Proof.
  intros Hf w w' r. unfold mbind, M_bind, emit. intros Hrun.
  destruct (Hf _ _ _ _ Hrun) as (Hfiles & evs & Hlog & Hart). cbn in *.
  split; [done|]. intros a _. exists evs.
  rewrite Hlog, <- app_assoc. done.
Qed.

(** ** The loop over tasks *)

Section TaskLoopFacts.
Context {Policy : Type}.
Variable task_suite : list task.
Variable file : string.
Variable run_task : nat -> task -> Policy -> M (Policy * entry).
Variable report : gmap string entry -> result unit.
Hypothesis run_task_announces :
  forall task_id t model, announces (name t) (run_task task_id t model).

Local Abbreviation step := (task_step task_suite file run_task report).
Local Abbreviation loop := (task_loop task_suite file run_task report).

(** A task whose name is a key of the ledger is skipped: nothing is
    run, written or changed. *)
Lemma task_step_skip task_id t model (l : gmap string entry) w :
  task_suite !! task_id = Some t ->
  is_Some (l !! name t) ->
  step task_id (model, l) w = (w, Ok (model, l)).
Proof.
  intros Ht Hin. unfold task_step, getitem. rewrite Ht.
  unfold mbind at 1, M_bind, lift. cbn [snd].
  by rewrite decide_True.
Qed.

(** A task that is evaluated: its entry is added to the ledger and the
    whole ledger is dumped as the last thing the task does. *)
Lemma task_step_run task_id model (l : gmap string entry) w w' model' l' :
  step task_id (model, l) w = (w', Ok (model', l')) ->
  exists t, task_suite !! task_id = Some t /\
    ((is_Some (l !! name t) /\ w' = w /\ model' = model /\ l' = l) \/
     (l !! name t = None /\
      exists e arts,
        l' = <[name t := e]> l /\
        files w' = <[file := Json l']> (files w) /\
        Forall is_artifact arts /\
        log w' = log w ++ Banner (name t) :: arts ++ [JsonDump file l'])).
Proof.
  unfold task_step, getitem.
  destruct (task_suite !! task_id) as [t|] eqn:Ht; [|discriminate].
  unfold mbind at 1, M_bind, lift. cbn [fst snd].
  intros Hrun. exists t. split; [done|].
  destruct (decide (is_Some (l !! name t))) as [Hin|Hout].
  - left. by injection Hrun as <- <- <-.
  - right. split; [by apply eq_None_not_Some|].
    apply bind_Ok in Hrun as (w1 & [m1 e] & Hrt & Hrun).
    destruct (run_task_announces _ _ _ _ _ _ Hrt) as (Hfiles & Hlog).
    destruct (Hlog _ eq_refl) as (arts & Hlog1 & Harts).
    apply bind_Ok in Hrun as (w2 & [] & Hrep & Hrun).
    injection Hrep as <- _.
    apply bind_Ok in Hrun as (w2 & [] & Hdump & Hret).
    injection Hret as <- <- <-. injection Hdump as <-.
    exists e, arts. cbn. rewrite Hfiles, Hlog1, <- app_assoc. done.
Qed.


(** When the progress print raises, the task's entry is not dumped. *)
Lemma task_step_report_raises task_id t model (l : gmap string entry)
    w w1 model' e x :
  task_suite !! task_id = Some t ->
  l !! name t = None ->
  run_task task_id t model w = (w1, Ok (model', e)) ->
  report (<[name t := e]> l) = Raise x ->
  step task_id (model, l) w = (w1, Raise x).
Proof.
  intros Ht Hout Hrt Hrep. unfold task_step, getitem. rewrite Ht.
  unfold mbind at 1, M_bind, lift. cbn [fst snd].
  rewrite decide_False; [|rewrite Hout; by intros [? ?]].
  erewrite bind_run; [|exact Hrt]. cbn beta iota zeta.
  unfold mbind at 1, M_bind, lift. rewrite Hrep. done.
Qed.




Lemma task_loop_ok tasks model (l : gmap string entry) w w' model' l' :
  loop tasks (model, l) w = (w', Ok (model', l')) ->
  (forall task_id, task_id ∈ tasks ->
     exists t, task_suite !! task_id = Some t /\ is_Some (l' !! name t)) /\
  l ⊆ l' /\
  (synced file l w -> synced file l' w') /\
  (forall f, f <> file -> files w' !! f = files w !! f) /\
  exists evs, log w' = log w ++ evs /\ flushed file l evs l' /\
    (evs <> [] -> files w' !! file = Some (Json l')) /\
    (evs = [] -> files w' = files w).
Proof.
  revert model l w. induction tasks as [|task_id tasks IH]; intros model l w.
  - intros [= <- <- <-]. split_and!; [|done|done|done|].
    + intros ? []%elem_of_nil.
    + exists []. rewrite app_nil_r. split_and!; [done|constructor|done|done].
  - cbn [task_loop]. intros Hrun.
    apply bind_Ok in Hrun as (w1 & [m1 l1] & Hstep & Hrest).
    destruct (IH _ _ _ Hrest)
      as (Hcov & Hsub & Hsync & Hother & evs & Hlog & Hfl & Hfile & Hsame).
    apply task_step_run in Hstep as (t & Ht & Hcase).
    assert (l ⊆ l1 /\ is_Some (l1 !! name t)) as [Hsub1 Hin1].
    { destruct Hcase as [(Hin & -> & -> & ->)|(Hout & e & arts & -> & _)].
      - done.
      - split; [by apply insert_subseteq|]. rewrite lookup_insert_eq. eauto. }
    split_and!.
    + intros i [->|Hi]%elem_of_cons; [|by apply Hcov].
      exists t. split; [done|]. destruct Hin1 as [v Hv].
      exists v. by eapply lookup_weaken.
    + by etrans.
    + intros Hs. apply Hsync.
      destruct Hcase as [(Hin & -> & -> & ->)|(Hout & e & arts & -> & Hf & _)];
        [done|].
      unfold synced. by rewrite Hf, lookup_insert_eq.
    + intros f Hf. rewrite (Hother f Hf).
      destruct Hcase as [(Hin & -> & -> & ->)|(Hout & e & arts & -> & Hfw & _)];
        [done|].
      by rewrite Hfw, lookup_insert_ne.
    + destruct Hcase as [(Hin & -> & -> & ->)|(Hout & e & arts & -> & Hfw & Harts & Hlog1)].
      * exists evs. done.
      * exists (Banner (name t) :: arts ++ JsonDump file (<[name t := e]> l) :: evs).
        split_and!.
        -- rewrite Hlog, Hlog1, <- !app_assoc. cbn. by rewrite <- app_assoc.
        -- by constructor.
        -- intros _. destruct evs as [|ev evs]; [|by apply Hfile].
           inversion Hfl; subst. rewrite (Hsame eq_refl), Hfw.
           apply lookup_insert_eq.
        -- intros [=].
Qed.

End TaskLoopFacts.

Section SkipFacts.
Context {Policy : Type}.
Variable task_suite : list task.
Variable file : string.
Variable run_task : nat -> task -> Policy -> M (Policy * entry).
Variable report : gmap string entry -> result unit.

(** When every task of the list is a key of the ledger, the loop does
    nothing at all. *)
Lemma task_loop_skip_all tasks model (l : gmap string entry) w :
  (forall task_id, task_id ∈ tasks ->
     exists t, task_suite !! task_id = Some t /\ is_Some (l !! name t)) ->
  task_loop task_suite file run_task report tasks (model, l) w =
  (w, Ok (model, l)).
Proof.
  induction tasks as [|task_id tasks IH]; intros Hall; [done|].
  cbn [task_loop].
  destruct (Hall task_id) as (t & Ht & Hin); [left|].
  erewrite bind_run; [|by eapply task_step_skip].
  apply IH. intros i Hi. apply Hall. by right.
Qed.

End SkipFacts.

Lemma load_synced file w w' (l : gmap string entry) :
  load file w = (w', Ok l) -> w' = w /\ synced file l w.
Proof.
  unfold load, synced. intros [= <- Hl]. split; [done|].
  destruct (files w !! file) as [[|m]|]; cbn in Hl; congruence.
Qed.

Lemma synced_load file w (l : gmap string entry) :
  synced file l w -> load file w = (w, Ok l).
Proof.
  unfold load, synced. destruct (files w !! file) as [c|]; by intros ->.
Qed.


Section FrameFacts.
Context {Policy : Type}.
Variable task_suite : list task.
Variable file : string.
Variable run_task : nat -> task -> Policy -> M (Policy * entry).
Variable report : gmap string entry -> result unit.
Hypothesis run_task_announces :
  forall task_id t model, announces (name t) (run_task task_id t model).

Lemma run_ledger_ok tasks model w w' l' :
  run_ledger task_suite file run_task report tasks model w = (w', Ok l') ->
  exists l ts model',
    load file w = (w, Ok l) /\ tasks = Ok ts /\
    task_loop task_suite file run_task report ts (model, l) w =
    (w', Ok (model', l')).
Proof.
  unfold run_ledger. intros Hrun.
  apply bind_Ok in Hrun as (w1 & l & Hload & Hrun).
  pose proof Hload as [-> _]%load_synced.
  apply bind_Ok in Hrun as (w2 & ts & Hts & Hrun).
  injection Hts as <- ->.
  apply bind_Ok in Hrun as (w3 & [m3 l3] & Hloop & Hret).
  injection Hret as <- <-. eauto 6.
Qed.



(** A second run over the world a completed run left skips every task,
    whatever would run them. *)
Lemma run_ledger_again tasks model w w' l'
    (run_task' : nat -> task -> Policy -> M (Policy * entry))
    (report' : gmap string entry -> result unit) model' :
  run_ledger task_suite file run_task report tasks model w = (w', Ok l') ->
  run_ledger task_suite file run_task' report' tasks model' w' = (w', Ok l').
Proof.
  intros (l & ts & m1 & Hload & -> & Hloop)%run_ledger_ok.
  apply load_synced in Hload as [_ Hsync].
  apply (task_loop_ok _ _ _ _ run_task_announces) in Hloop
    as (Hcov & _ & Hsync' & _).
  unfold run_ledger.
  erewrite bind_run; [|by apply synced_load, Hsync'].
  erewrite bind_run; [|reflexivity].
  erewrite bind_run; [|by apply task_loop_skip_all].
  done.
Qed.

End FrameFacts.

Lemma run_ledger_missing {Policy} task_suite file
    (run_task : nat -> task -> Policy -> M (Policy * entry)) report
    tasks model w :
  files w !! file = None ->
  load file w = (w, Ok ∅) /\
  run_ledger task_suite file run_task report tasks model w =
  (ts ← lift tasks;
   s ← task_loop task_suite file run_task report ts (model, ∅);
   mret s.2) w.
Proof.
  intros Hnone. assert (load file w = (w, Ok ∅)) as Hload
    by (unfold load; by rewrite Hnone).
  split; [done|]. unfold run_ledger. by erewrite bind_run.
Qed.

Lemma run_ledger_garbage {Policy} task_suite file
    (run_task : nat -> task -> Policy -> M (Policy * entry)) report
    tasks model w :
  files w !! file = Some Garbage ->
  run_ledger task_suite file run_task report tasks model w =
  (w, Raise JSONDecodeError).
Proof.
  intros Hg. unfold run_ledger. erewrite bind_raise; [done|].
  unfold load. by rewrite Hg.
Qed.

(** ** The two bodies of the task loop *)


Section SingleRunTask.
Context {Policy Env Obs Row Actions InitState : Type}.
Variable S : @Single.sim Policy Env Obs Row Actions InitState.

Lemma single_runs_quiet save_video video_path init_states rs a :
  quiet (Single.runs S save_video video_path init_states rs a).
Proof.
  revert a. induction rs as [|run rs IH]; intros a; cbn [Single.runs].
  - apply quiet_ret.
  - apply quiet_bind; [|done]. unfold Single.run_step.
    apply quiet_bind; [apply quiet_lift|]. intros i.
    apply quiet_bind; [apply quiet_lift|]. intros [st success].
    apply quiet_bind; [|intros; apply quiet_ret].
    destruct save_video; [by apply quiet_emit|apply quiet_ret].
Qed.

Lemma single_run_task_announces save_video eval_path task_id t model :
  announces (name t) (Single.run_task S save_video eval_path task_id t model).
Proof.
  unfold Single.run_task. apply announces_banner. intros _.
  apply quiet_bind; [apply single_runs_quiet|]. intros a.
  apply quiet_bind; [apply quiet_lift|]. intros rate. apply quiet_ret.
Qed.


Lemma single_evaluate_frame task_suite task_split model_name model_path
    tasks seed checkpoint_step split save_video :
  Single.evaluate S task_suite task_split model_name model_path tasks seed
    checkpoint_step split save_video =
  run_ledger task_suite
    (eval_path model_path seed checkpoint_step +:+ "/" +:+ "success_rate" +:+ ".json")
    (Single.run_task S save_video (eval_path model_path seed checkpoint_step))
    Single.report
    (resolve_tasks task_suite task_split tasks split)
    (Single.load_model S model_name model_path seed checkpoint_step).
Proof. reflexivity. Qed.

End SingleRunTask.

Section PoolRunTask.
Context {Policy Env Obs Row Actions Attn Heat InitState : Type}.
Variable S : @Vectorized.sim Policy Env Obs Row Actions Attn Heat InitState.
Variable env_num : nat.

Lemma write_videos_quiet video_path
    (st : @Vectorized.loop_state Policy Env Row Attn) slots :
  quiet (Vectorized.write_videos video_path st slots).
Proof.
  induction slots as [|i slots IH]; cbn [Vectorized.write_videos].
  - apply quiet_ret.
  - apply quiet_bind; [apply quiet_lift|]. intros result.
    apply quiet_bind; [apply quiet_lift|]. intros len.
    apply quiet_bind; [apply quiet_lift|]. intros frames.
    apply quiet_bind; [by apply quiet_emit|]. done.
Qed.

Lemma pool_run_task_announces save_video eval_path split task_id t model :
  announces (name t)
    (Vectorized.run_task S env_num save_video eval_path split task_id t model).
Proof.
  unfold Vectorized.run_task. apply announces_lift. intros selected.
  destruct (Vectorized.env_set_init_state S _ selected) as [e1 o1].
  destruct (Vectorized.settle S env_num 5 e1 o1) as [e2 o2].
  apply announces_banner. intros _.
  apply quiet_bind; [apply quiet_lift|]. intros st.
  apply quiet_bind; [apply quiet_lift|]. intros rate.
  apply quiet_bind; [|intros; apply quiet_ret].
  destruct save_video; [|apply quiet_ret].
  apply quiet_bind; [apply write_videos_quiet|]. intros _.
  by apply quiet_emit.
Qed.

Lemma pool_evaluate_frame task_suite task_split model_name model_path
    tasks seed checkpoint_step split save_video :
  Vectorized.evaluate S env_num task_suite task_split model_name model_path
    tasks seed checkpoint_step split save_video =
  run_ledger task_suite
    (eval_path model_path seed checkpoint_step +:+ "/" +:+
     ("success_rate_" +:+ split) +:+ ".json")
    (Vectorized.run_task S env_num save_video
       (eval_path model_path seed checkpoint_step) split)
    Vectorized.report
    (resolve_tasks task_suite task_split tasks split)
    (Vectorized.load_model S model_name model_path seed checkpoint_step).
Proof. reflexivity. Qed.

End PoolRunTask.

(** ** The ledger of the two LIBERO drivers *)

Section Libero.
Context {Policy Env Obs Row Actions InitState : Type}.
Context {VPolicy VEnv VObs VRow VActions VAttn VHeat VInitState : Type}.

Local Abbreviation single_sim := (@Single.sim Policy Env Obs Row Actions InitState).
Local Abbreviation pool_sim :=
  (@Vectorized.sim VPolicy VEnv VObs VRow VActions VAttn VHeat VInitState).

(** C1. Resumability: when a run of either driver has completed, a
    second run on the same output path and task set - with whatever
    policy, simulator, [tasks] argument or video switch - returns the
    same ledger and leaves the world exactly as it found it: every task
    is skipped, nothing is run, logged or written. *)
Theorem resumability task_suite task_split model_path seed checkpoint_step split :
  (forall (S S' : single_sim) model_name model_name' tasks tasks'
          save_video save_video' w0 w1 l1,
     Single.evaluate S task_suite task_split model_name model_path tasks seed
       checkpoint_step split save_video w0 = (w1, Ok l1) ->
     Single.evaluate S' task_suite task_split model_name' model_path tasks' seed
       checkpoint_step split save_video' w1 = (w1, Ok l1)) /\
  (forall (S S' : pool_sim) env_num env_num' model_name model_name' tasks tasks'
          save_video save_video' w0 w1 l1,
     Vectorized.evaluate S env_num task_suite task_split model_name model_path
       tasks seed checkpoint_step split save_video w0 = (w1, Ok l1) ->
     Vectorized.evaluate S' env_num' task_suite task_split model_name' model_path
       tasks' seed checkpoint_step split save_video' w1 = (w1, Ok l1)).
Proof.
  split.
  - intros S S' mn mn' tasks tasks' sv sv' w0 w1 l1.
    rewrite !single_evaluate_frame. intros Hrun.
    eapply run_ledger_again in Hrun;
      [exact Hrun|apply single_run_task_announces].
  - intros S S' n n' mn mn' tasks tasks' sv sv' w0 w1 l1.
    rewrite !pool_evaluate_frame. intros Hrun.
    eapply run_ledger_again in Hrun;
      [exact Hrun|apply pool_run_task_announces].
Qed.


(** C7, as the code has it.  A missing result file makes the run start
    from the empty ledger, without an error; a result file that
    [json.load] rejects makes [evaluate] raise [JSONDecodeError] before
    anything is run or written. *)
Theorem ledger_load task_suite task_split model_name model_path tasks seed
    checkpoint_step split save_video w :
  (forall S : single_sim,
     (files w !! (eval_path model_path seed checkpoint_step +:+ "/success_rate.json")
        = None ->
      load (eval_path model_path seed checkpoint_step +:+ "/success_rate.json") w
        = (w, Ok ∅) /\
      Single.evaluate S task_suite task_split model_name model_path tasks seed
        checkpoint_step split save_video w =
      (ts ← lift (resolve_tasks task_suite task_split tasks split);
       s ← task_loop task_suite
             (eval_path model_path seed checkpoint_step +:+ "/success_rate.json")
             (Single.run_task S save_video (eval_path model_path seed checkpoint_step))
             Single.report
             ts (Single.load_model S model_name model_path seed checkpoint_step, ∅);
       mret s.2) w) /\
     (files w !! (eval_path model_path seed checkpoint_step +:+ "/success_rate.json")
        = Some Garbage ->
      Single.evaluate S task_suite task_split model_name model_path tasks seed
        checkpoint_step split save_video w = (w, Raise JSONDecodeError))) /\
  (forall (S : pool_sim) env_num,
     (files w !! (eval_path model_path seed checkpoint_step +:+
                  "/success_rate_" +:+ split +:+ ".json") = None ->
      load (eval_path model_path seed checkpoint_step +:+
            "/success_rate_" +:+ split +:+ ".json") w = (w, Ok ∅) /\
      Vectorized.evaluate S env_num task_suite task_split model_name model_path
        tasks seed checkpoint_step split save_video w =
      (ts ← lift (resolve_tasks task_suite task_split tasks split);
       s ← task_loop task_suite
             (eval_path model_path seed checkpoint_step +:+
              "/success_rate_" +:+ split +:+ ".json")
             (Vectorized.run_task S env_num save_video
                (eval_path model_path seed checkpoint_step) split)
             Vectorized.report
             ts (Vectorized.load_model S model_name model_path seed checkpoint_step, ∅);
       mret s.2) w) /\
     (files w !! (eval_path model_path seed checkpoint_step +:+
                  "/success_rate_" +:+ split +:+ ".json") = Some Garbage ->
      Vectorized.evaluate S env_num task_suite task_split model_name model_path
        tasks seed checkpoint_step split save_video w = (w, Raise JSONDecodeError))).
Proof.
  split.
  - intros S. rewrite single_evaluate_frame. split.
    + apply run_ledger_missing.
    + apply run_ledger_garbage.
  - intros S n. rewrite pool_evaluate_frame. split.
    + apply run_ledger_missing.
    + apply run_ledger_garbage.
Qed.

(** C9. The [tasks] argument is dead: the task list is the train or the
    test list of the pickle, by [split], turned into suite indices, and
    two calls that differ only in [tasks] are the same computation. *)
Theorem tasks_argument_ignored task_suite train_tasks test_tasks
    model_name model_path seed checkpoint_step split save_video
    (tasks tasks' : list nat) :
  resolve_tasks task_suite (train_tasks, test_tasks) tasks split =
    comprehension
      (fun task_name => index (map name task_suite) (drop_last10 task_name))
      (if decide (split = "train") then train_tasks else test_tasks) /\
  (forall S : single_sim,
     Single.evaluate S task_suite (train_tasks, test_tasks) model_name model_path
       tasks seed checkpoint_step split save_video =
     Single.evaluate S task_suite (train_tasks, test_tasks) model_name model_path
       tasks' seed checkpoint_step split save_video) /\
  (forall (S : pool_sim) env_num,
     Vectorized.evaluate S env_num task_suite (train_tasks, test_tasks) model_name
       model_path tasks seed checkpoint_step split save_video =
     Vectorized.evaluate S env_num task_suite (train_tasks, test_tasks) model_name
       model_path tasks' seed checkpoint_step split save_video).
Proof. split_and!; reflexivity. Qed.

End Libero.

(** * The scripted scenario *)

Module ScenarioFacts.
Import Scenario.

(** The four-slot rollout of the specification. *)
Example scenario_lengths :
  Vectorized.episode_length final = [600; 600; 37; 600] /\
  Vectorized.finished_tasks final = [false; false; true; false] /\
  length (Vectorized.attention_history final) = 600.
Proof. vm_compute. done. Qed.

(** The rollout in which every slot is reported done stops after its
    37th iteration. *)
Example scenario_early_exit :
  length (Vectorized.attention_history final_all) = 37 /\
  Vectorized.finished_tasks final_all = [true; true; true; true] /\
  Vectorized.episode_length final_all = [6; 13; 37; 21].
Proof. vm_compute. done. Qed.

Lemma slot_freezing_scenario :
  exists prev, Vectorized.episode_length (before 36) !! 2 = Some prev /\
    forall n st' brk,
      36 < n -> for_range 0 n init = Ok (st', brk) ->
      Vectorized.finished_tasks st' !! 2 = Some true /\
      Vectorized.episode_length st' !! 2 = Some (Nat.min (36 + 1) prev).
Proof.
  apply (VectorizedFacts.slot_freezing policy_step (fun _ : unit => tt)
           (fun i (_ : unit) => i) (fun _ : unit => []) pool_step
           (fun _ : unit => [tt]) 4 tt 0 (replicate 4 tt) 36 2 (before 36));
    vm_compute; reflexivity.
Defined.

Lemma rollout_stops_scenario :
  (1 <= length (Vectorized.attention_history final_all) <= Vectorized.max_step /\
   (all (Vectorized.finished_tasks final_all) = true \/
    length (Vectorized.attention_history final_all) = Vectorized.max_step) /\
   (forall j, 1 <= j < length (Vectorized.attention_history final_all) ->
      exists st_j, for_range_all 0 j init = Ok (st_j, false) /\
        all (Vectorized.finished_tasks st_j) = false) /\
   (forall k, k < 4 ->
      (forall j st_j, j < length (Vectorized.attention_history final_all) ->
         for_range_all 0 j init = Ok (st_j, false) ->
         Vectorized.dones
           (Vectorized.pool_reply policy_step (fun _ : unit => []) pool_step_all st_j)
           !! k = Some false) ->
      Vectorized.finished_tasks final_all !! k = Some false /\
      Vectorized.episode_length final_all !! k = Some Vectorized.max_step /\
      Vectorized.video_result final_all k = Ok "fail"%string) /\
   (forall k, k < 4 ->
      (Vectorized.finished_tasks final_all !! k = Some true <->
       exists j st_j,
         j < length (Vectorized.attention_history final_all) /\
         for_range_all 0 j init = Ok (st_j, false) /\
         Vectorized.dones
           (Vectorized.pool_reply policy_step (fun _ : unit => []) pool_step_all st_j)
           !! k = Some true)) /\
   ((forall k, k < 4 ->
       exists j st_j,
         j < length (Vectorized.attention_history final_all) /\
         for_range_all 0 j init = Ok (st_j, false) /\
         Vectorized.dones
           (Vectorized.pool_reply policy_step (fun _ : unit => []) pool_step_all st_j)
           !! k = Some true) \/
    length (Vectorized.attention_history final_all) = Vectorized.max_step) /\
   (forall j, 1 <= j < length (Vectorized.attention_history final_all) ->
      exists k, k < 4 /\
        forall i st_i, i < j ->
          for_range_all 0 i init = Ok (st_i, false) ->
          Vectorized.dones
            (Vectorized.pool_reply policy_step (fun _ : unit => []) pool_step_all st_i)
            !! k <> Some true)) /\
  (1 <= length (Vectorized.attention_history final) <= Vectorized.max_step /\
   (all (Vectorized.finished_tasks final) = true \/
    length (Vectorized.attention_history final) = Vectorized.max_step) /\
   (forall j, 1 <= j < length (Vectorized.attention_history final) ->
      exists st_j, for_range 0 j init = Ok (st_j, false) /\
        all (Vectorized.finished_tasks st_j) = false) /\
   (forall k, k < 4 ->
      (forall j st_j, j < length (Vectorized.attention_history final) ->
         for_range 0 j init = Ok (st_j, false) ->
         Vectorized.dones
           (Vectorized.pool_reply policy_step (fun _ : unit => []) pool_step st_j)
           !! k = Some false) ->
      Vectorized.finished_tasks final !! k = Some false /\
      Vectorized.episode_length final !! k = Some Vectorized.max_step /\
      Vectorized.video_result final k = Ok "fail"%string) /\
   (forall k, k < 4 ->
      (Vectorized.finished_tasks final !! k = Some true <->
       exists j st_j,
         j < length (Vectorized.attention_history final) /\
         for_range 0 j init = Ok (st_j, false) /\
         Vectorized.dones
           (Vectorized.pool_reply policy_step (fun _ : unit => []) pool_step st_j)
           !! k = Some true)) /\
   ((forall k, k < 4 ->
       exists j st_j,
         j < length (Vectorized.attention_history final) /\
         for_range 0 j init = Ok (st_j, false) /\
         Vectorized.dones
           (Vectorized.pool_reply policy_step (fun _ : unit => []) pool_step st_j)
           !! k = Some true) \/
    length (Vectorized.attention_history final) = Vectorized.max_step) /\
   (forall j, 1 <= j < length (Vectorized.attention_history final) ->
      exists k, k < 4 /\
        forall i st_i, i < j ->
          for_range 0 i init = Ok (st_i, false) ->
          Vectorized.dones
            (Vectorized.pool_reply policy_step (fun _ : unit => []) pool_step st_i)
            !! k <> Some true)).
Proof.
  split.
  - apply (VectorizedFacts.rollout_stops policy_step (fun _ : unit => tt)
             (fun i (_ : unit) => i) (fun _ : unit => []) pool_step_all
             (fun _ : unit => [tt]) 4 tt 0 (replicate 4 tt) final_all).
    vm_compute; reflexivity.
  - apply (VectorizedFacts.rollout_stops policy_step (fun _ : unit => tt)
             (fun i (_ : unit) => i) (fun _ : unit => []) pool_step
             (fun _ : unit => [tt]) 4 tt 0 (replicate 4 tt) final).
    vm_compute; reflexivity.
Defined.

Lemma episode_length_bounds_scenario :
  length (Vectorized.episode_length final) = 4 /\
  (forall k l, Vectorized.episode_length final !! k = Some l -> 1 <= l <= 600) /\
  (forall r, Vectorized.success_rate 4 final = Ok r -> (0 <= r /\ r <= 1)%Q).
Proof.
  apply (VectorizedFacts.episode_length_bounds policy_step (fun _ : unit => tt)
           (fun i (_ : unit) => i) (fun _ : unit => []) pool_step
           (fun _ : unit => [tt]) 4 tt 0 (replicate 4 tt) 600 final false).
  vm_compute; reflexivity.
Defined.

(** Two tasks, a fresh output directory: the second run changes
    nothing. *)
Lemma resumability_scenario :
  single_run (single_run fresh).1 =
    ((single_run fresh).1, Ok (ledger_of (single_run fresh))) /\
  pool_run (pool_run fresh).1 =
    ((pool_run fresh).1, Ok (ledger_of (pool_run fresh))).
Proof.
  split.
  - apply (proj1 (@resumability unit nat unit unit unit unit
                    unit nat unit unit unit unit unit unit
                    task_suite task_split "finetune_saves/run" 0
                    (Some 5000%Z) "train")
             single_sim single_sim "octo-custom" "octo-custom" [0] [0] true true
             fresh).
    vm_compute; reflexivity.
  - apply (proj2 (@resumability unit nat unit unit unit unit
                    unit nat unit unit unit unit unit unit
                    task_suite task_split "finetune_saves/run" 0
                    (Some 5000%Z) "train")
             pool_sim pool_sim 4 4 "octo-custom" "octo-custom" [0] [0] true true
             fresh).
    vm_compute; reflexivity.
Defined.


(** What the two crashing runs leave: the second task raises, and the
    ledger file holds the first task's entry. *)
Example later_crash_keeps_flushed :
  (Single.evaluate single_sim_crash task_suite task_split "octo-custom"
     "finetune_saves/run" [0] 0 (Some 5000%Z) "train" true fresh).2
  = Raise IndexError /\
  files (Single.evaluate single_sim_crash task_suite task_split "octo-custom"
           "finetune_saves/run" [0] 0 (Some 5000%Z) "train" true fresh).1
    !! "eval_results/libero/run/eval_step_5000/0/success_rate.json"
  = Some (Json {[ "close_the_drawer" := RateOutcomes 1 [true] ]}) /\
  (Vectorized.evaluate pool_sim_crash 4 task_suite task_split "octo-custom"
     "finetune_saves/run" [0] 0 (Some 5000%Z) "train" true fresh).2
  = Raise IndexError /\
  files (Vectorized.evaluate pool_sim_crash 4 task_suite task_split "octo-custom"
           "finetune_saves/run" [0] 0 (Some 5000%Z) "train" true fresh).1
    !! "eval_results/libero/run/eval_step_5000/0/success_rate_train.json"
  = Some (Json {[ "close_the_drawer" := Rate (1 # 4) ]}).
Proof. split_and!; vm_compute; reflexivity. Qed.


(** C7 fails for a malformed file: both drivers raise on it. *)
Lemma malformed_ledger_raises :
  files corrupt !! "eval_results/libero/run/eval_step_5000/0/success_rate.json"
    = Some Garbage /\
  files corrupt !! "eval_results/libero/run/eval_step_5000/0/success_rate_train.json"
    = Some Garbage /\
  single_run corrupt = (corrupt, Raise JSONDecodeError) /\
  pool_run corrupt = (corrupt, Raise JSONDecodeError).
Proof. split_and!; vm_compute; reflexivity. Qed.

Lemma ledger_load_scenario :
  load "eval_results/libero/run/eval_step_5000/0/success_rate.json" fresh
    = (fresh, Ok ∅) /\
  single_run corrupt = (corrupt, Raise JSONDecodeError) /\
  load "eval_results/libero/run/eval_step_5000/0/success_rate_train.json" fresh
    = (fresh, Ok ∅) /\
  pool_run corrupt = (corrupt, Raise JSONDecodeError).
Proof.
  split_and!.
  - apply (proj1 (proj1 (@ledger_load unit nat unit unit unit unit
                    unit nat unit unit unit unit unit unit
                    task_suite task_split "octo-custom" "finetune_saves/run" [0] 0
                    (Some 5000%Z) "train" true fresh) single_sim)).
    vm_compute; reflexivity.
  - apply (proj2 (proj1 (@ledger_load unit nat unit unit unit unit
                    unit nat unit unit unit unit unit unit
                    task_suite task_split "octo-custom" "finetune_saves/run" [0] 0
                    (Some 5000%Z) "train" true corrupt) single_sim)).
    vm_compute; reflexivity.
  - apply (proj1 (proj2 (@ledger_load unit nat unit unit unit unit
                    unit nat unit unit unit unit unit unit
                    task_suite task_split "octo-custom" "finetune_saves/run" [0] 0
                    (Some 5000%Z) "train" true fresh) pool_sim 4)).
    vm_compute; reflexivity.
  - apply (proj2 (proj2 (@ledger_load unit nat unit unit unit unit
                    unit nat unit unit unit unit unit unit
                    task_suite task_split "octo-custom" "finetune_saves/run" [0] 0
                    (Some 5000%Z) "train" true corrupt) pool_sim 4)).
    vm_compute; reflexivity.
Defined.


(** C5 fails: on the final subtask the policy predicts terminate, and
    the loop keeps running until the environment truncates the episode
    two steps later. *)
Lemma final_terminate_keeps_running :
  Simpler.running (Simpler.start simpler_sim tt 0) = true /\
  Simpler.final_subtask (Simpler.start simpler_sim tt 0) = true /\
  Simpler.predicts_terminate
    (Simpler.policy_action simpler_sim (Simpler.start simpler_sim tt 0)) = Ok true /\
  exists st1 st3,
    Simpler.body simpler_sim (Simpler.start simpler_sim tt 0) = Ok st1 /\
    Simpler.predicted_terminated st1 = true /\
    Simpler.running st1 = true /\
    Simpler.while_loop simpler_sim 10 (Simpler.start simpler_sim tt 0)
      = Ok (Some st3) /\
    Simpler.timestep st3 = 3 /\
    Simpler.success st3 = false.
Proof.
  split_and!; [reflexivity..|].
  eexists _, _. split_and!; [vm_compute; reflexivity|reflexivity|reflexivity|
                             vm_compute; reflexivity|reflexivity|reflexivity].
Qed.

Lemma final_terminate_steps_on_scenario :
  exists st',
    Simpler.body simpler_sim (Simpler.start simpler_sim tt 0) = Ok st' /\
    Simpler.predicted_terminated st' = true /\
    Simpler.env st' = 1 /\
    Simpler.timestep st' = 1 /\
    Simpler.running st' = true.
Proof.
  destruct (SimplerFacts.final_terminate_steps_on simpler_sim
              (Simpler.start simpler_sim tt 0) 1%Q)
    as (st' & Hbody & Hflag & Henv & Htime & Hrun);
    [vm_compute; reflexivity..|].
  exists st'. split_and!; [exact Hbody|exact Hflag|exact Henv|exact Htime|exact Hrun].
Defined.

End ScenarioFacts.

(** * Further properties *)

(** ** Output paths *)

Lemma string_app_cons c (a b : string) : String c a +:+ b = String c (a +:+ b).
Proof. reflexivity. Qed.

Lemma string_app_length (a b : string) :
  String.length (a +:+ b) = String.length a + String.length b.
Proof.
  induction a as [|c a IH]; [done|].
  rewrite string_app_cons. cbn [String.length]. by rewrite IH.
Qed.

Lemma string_app_inv_head (p a b : string) : p +:+ a = p +:+ b -> a = b.
Proof. apply (inj (String.app p)). Qed.

Lemma string_app_inv_tail (a b t : string) : a +:+ t = b +:+ t -> a = b.
Proof.
  revert b. induction a as [|c a IH]; intros [|d b]; try done.
  - intros H. apply (f_equal String.length) in H.
    rewrite !string_app_length in H. cbn [String.length] in H. lia.
  - intros H. apply (f_equal String.length) in H.
    rewrite !string_app_length in H. cbn [String.length] in H. lia.
  - rewrite !string_app_cons. intros [= -> H]. f_equal. by apply IH.
Qed.

Lemma string_app_assoc (a b c : string) : (a +:+ b) +:+ c = a +:+ (b +:+ c).
Proof.
  induction a as [|x a IH]; [done|]. rewrite !string_app_cons. by rewrite IH.
Qed.

Lemma str_split_not_nil sep s : str_split sep s <> [].
Proof.
  destruct s as [|c s]; cbn; [done|].
  destruct (decide (c = sep)); [done|]. by destruct (str_split sep s).
Qed.

(** Joining the pieces of a split with the separator gives the string
    back. *)
Lemma concat_str_split sep s :
  String.concat (String sep EmptyString) (str_split sep s) = s.
Proof.
  induction s as [|c s IH]; cbn [str_split]; [done|].
  pose proof (str_split_not_nil sep s) as Hne.
  destruct (decide (c = sep)) as [->|Hc].
  - cbn [String.concat]. destruct (str_split sep s) as [|w ws]; [done|].
    by rewrite <- IH.
  - destruct (str_split sep s) as [|w ws]; [done|].
    rewrite <- IH. cbn [String.concat]. by destruct ws.
Qed.

Lemma str_split_head sep a b :
  has_char sep a = false ->
  str_split sep (a +:+ String sep b) = a :: str_split sep b.
Proof.
  induction a as [|c a IH]; cbn [has_char].
  - intros _. change ("" +:+ String sep b) with (String sep b).
    cbn [str_split]. by rewrite decide_True.
  - destruct (decide (c = sep)); [done|]. intros Ha.
    rewrite string_app_cons. cbn [str_split]. rewrite decide_False by done.
    by rewrite (IH Ha).
Qed.

Lemma eval_path_seed_inj model_path seed seed' checkpoint_step (suffix : string) :
  eval_path model_path seed checkpoint_step +:+ suffix =
  eval_path model_path seed' checkpoint_step +:+ suffix ->
  seed = seed'.
Proof.
  unfold eval_path. destruct (decide _).
  - rewrite !string_app_assoc. intros H%string_app_inv_head.
    apply string_app_inv_tail in H. by apply (inj pretty).
  - rewrite !string_app_assoc. intros H.
    do 5 apply string_app_inv_head in H.
    apply string_app_inv_tail in H. by apply (inj pretty).
Qed.

(** X1. Only what follows the first [/] of the model path names the
    output directory: for a path [first/rest] that is not the Hugging
    Face one, the directory is
    [eval_results/libero/rest/eval_step_<step>/<seed>], whatever
    [first] is. *)
Theorem eval_path_drops_first_component first rest seed checkpoint_step :
  has_char "/" first = false ->
  first +:+ "/" +:+ rest <> "hf://rail-berkeley/octo-base-1.5" ->
  eval_path (first +:+ "/" +:+ rest) seed checkpoint_step =
  "eval_results/libero/" +:+ rest +:+ "/eval_step_" +:+
  fmt_step checkpoint_step +:+ "/" +:+ pretty seed.
Proof.
  intros Hfirst Hhf. unfold eval_path. rewrite decide_False by done.
  change ("/" +:+ rest) with (String "/" rest).
  rewrite (str_split_head _ _ _ Hfirst). cbn [tail].
  by rewrite (concat_str_split "/" rest).
Qed.

(** ** The ledger file, however a run ends *)

(** What is quiet hands nothing to [json.dump], however it ends. *)
Lemma quiet_dumpless {A} (m : M A) w w' r :
  quiet m -> m w = (w', r) ->
  exists evs, log w' = log w ++ evs /\ forall f l, JsonDump f l ∉ evs.
Proof.
  intros Hq Hrun. destruct (Hq _ _ _ Hrun) as (_ & evs & Hlog & Hart).
  exists evs. split; [done|]. intros f l Hin.
  rewrite Forall_forall in Hart. exact (Hart _ Hin).
Qed.

Lemma banner_dumpless {B} (n : string) (k : unit -> M B) w w' r :
  (forall u, quiet (k u)) -> (emit (Banner n) ≫= k) w = (w', r) ->
  exists evs, log w' = log w ++ evs /\ forall f l, JsonDump f l ∉ evs.
Proof.
  intros Hq. unfold mbind, M_bind, emit. intros Hrun.
  destruct (quiet_dumpless _ _ _ _ (Hq tt) Hrun) as (evs & Hlog & Hnone).
  cbn in Hlog. exists (Banner n :: evs). split.
  - by rewrite Hlog, <- app_assoc.
  - intros f l [Heq|Hin]%elem_of_cons; [discriminate|]. exact (Hnone _ _ Hin).
Qed.

Lemma lift_dumpless {A B} (r0 : result A) (k : A -> M B) w w' r :
  (forall a, k a w = (w', r) ->
     exists evs, log w' = log w ++ evs /\ forall f l, JsonDump f l ∉ evs) ->
  (lift r0 ≫= k) w = (w', r) ->
  exists evs, log w' = log w ++ evs /\ forall f l, JsonDump f l ∉ evs.
Proof.
  intros Hk. unfold mbind, M_bind, lift. destruct r0 as [a|x]; [apply Hk|].
  intros [= <- <-]. exists []. split; [by rewrite app_nil_r|].
  intros f l Hin. by apply not_elem_of_nil in Hin.
Qed.

Section RunTaskDumpless.
Context {Policy Env Obs Row Actions InitState : Type}.
Context {VPolicy VEnv VObs VRow VActions VAttn VHeat VInitState : Type}.

(** The rollouts of a task hand nothing to [json.dump], whether they
    return or raise. *)
Lemma single_run_task_dumpless
    (S : @Single.sim Policy Env Obs Row Actions InitState)
    save_video eval_path task_id t model w w' r :
  Single.run_task S save_video eval_path task_id t model w = (w', r) ->
  exists evs, log w' = log w ++ evs /\ forall f l, JsonDump f l ∉ evs.
Proof.
  unfold Single.run_task. apply banner_dumpless. intros _.
  apply quiet_bind; [apply single_runs_quiet|]. intros a.
  apply quiet_bind; [apply quiet_lift|]. intros rate. apply quiet_ret.
Qed.

Lemma pool_run_task_dumpless
    (S : @Vectorized.sim VPolicy VEnv VObs VRow VActions VAttn VHeat VInitState)
    env_num save_video eval_path split task_id t model w w' r :
  Vectorized.run_task S env_num save_video eval_path split task_id t model w
  = (w', r) ->
  exists evs, log w' = log w ++ evs /\ forall f l, JsonDump f l ∉ evs.
Proof.
  unfold Vectorized.run_task. apply lift_dumpless. intros selected.
  destruct (Vectorized.env_set_init_state S _ selected) as [e1 o1].
  destruct (Vectorized.settle S env_num 5 e1 o1) as [e2 o2].
  apply banner_dumpless. intros _.
  apply quiet_bind; [apply quiet_lift|]. intros st.
  apply quiet_bind; [apply quiet_lift|]. intros rate.
  apply quiet_bind; [|intros; apply quiet_ret].
  destruct save_video; [|apply quiet_ret].
  apply quiet_bind; [apply write_videos_quiet|]. intros _.
  by apply quiet_emit.
Qed.

End RunTaskDumpless.

Section AnyOutcome.
Context {Policy : Type}.
Variable task_suite : list task.
Variable file : string.
Variable run_task : nat -> task -> Policy -> M (Policy * entry).
Variable report : gmap string entry -> result unit.
Hypothesis run_task_announces :
  forall task_id t model, announces (name t) (run_task task_id t model).
Hypothesis run_task_dumpless :
  forall task_id t model w w' r, run_task task_id t model w = (w', r) ->
    exists evs, log w' = log w ++ evs /\ forall f l, JsonDump f l ∉ evs.

(** One task, whatever its outcome: the result files are as before, or
    the ledger file alone has been rewritten with the extended ledger. *)
Lemma task_step_any task_id model (l : gmap string entry) w w' r :
  task_step task_suite file run_task report task_id (model, l) w = (w', r) ->
  (files w' = files w /\ (forall s, r = Ok s -> s.2 = l)) \/
  (exists m l', l ⊆ l' /\ files w' = <[file := Json l']> (files w) /\
     r = Ok (m, l')).
Proof.
  unfold task_step, getitem.
  destruct (task_suite !! task_id) as [t|]; unfold mbind at 1, M_bind, lift;
    cbn [fst snd].
  2:{ intros [= <- <-]. left. split; [done|]. intros s [=]. }
  destruct (decide (is_Some (l !! name t))) as [Hin|Hout].
  { intros [= <- <-]. left. split; [done|]. by intros s [= <-]. }
  apply eq_None_not_Some in Hout.
  unfold mbind at 1, M_bind.
  destruct (run_task task_id t model w) as [w1 [[m1 e]|x]] eqn:Hrt;
    destruct (run_task_announces _ _ _ _ _ _ Hrt) as [Hfiles _].
  2:{ intros [= <- <-]. left. split; [done|]. intros s [=]. }
  unfold mbind at 1, M_bind, lift.
  destruct (report (<[name t:=e]> l)) as [[]|x].
  2:{ intros [= <- <-]. left. split; [done|]. intros s [=]. }
  intros [= <- <-]. right. exists m1, (<[name t:=e]> l).
  split; [by apply insert_subseteq|]. cbn. by rewrite Hfiles.
Qed.

(** The whole loop, whatever its outcome: either no result file has
    changed, or the ledger file alone holds a ledger [l'] that extends
    the one the loop started from; a loop that returns, returns the
    ledger the file holds. *)
Lemma task_loop_any tasks model (l : gmap string entry) w w' r :
  task_loop task_suite file run_task report tasks (model, l) w = (w', r) ->
  exists l', l ⊆ l' /\
    (forall s, r = Ok s -> s.2 = l') /\
    (files w' = files w /\ l' = l \/ files w' = <[file := Json l']> (files w)).
Proof.
  revert model l w. induction tasks as [|task_id tasks IH]; intros model l w.
  - intros [= <- <-]. exists l. split_and!; [done| |by left]. by intros s [= <-].
  - cbn [task_loop]. unfold mbind at 1, M_bind.
    destruct (task_step _ _ _ _ task_id (model, l) w) as [w1 r1] eqn:Hstep.
    apply task_step_any in Hstep as [[Hf1 Hs]|(m1 & l1 & Hsub1 & Hf1 & ->)].
    + destruct r1 as [[m1 l1]|x].
      * specialize (Hs _ eq_refl). cbn in Hs. subst l1.
        intros Hrest. destruct (IH _ _ _ Hrest) as (l' & Hsub' & Hret & Hf').
        exists l'. rewrite Hf1 in Hf'. done.
      * intros [= <- <-]. exists l. split_and!; [done| |by left]. intros s [=].
    + intros Hrest. destruct (IH _ _ _ Hrest) as (l' & Hsub' & Hret & Hf').
      exists l'. split_and!; [by etrans|done|]. right.
      destruct Hf' as [[-> ->]| ->]; [done|].
      by rewrite Hf1, insert_insert_eq.
Qed.

(** A run, whatever its outcome. *)
Lemma run_ledger_any tasks model w w' r :
  run_ledger task_suite file run_task report tasks model w = (w', r) ->
  (forall f, f <> file -> files w' !! f = files w !! f) /\
  (forall l0, files w !! file = Some (Json l0) ->
     exists l, files w' !! file = Some (Json l) /\ l0 ⊆ l /\
       forall l1, r = Ok l1 -> l1 = l).
Proof.
  unfold run_ledger, mbind at 1, M_bind, load.
  destruct (files w !! file) as [[|l0]|] eqn:Hfile; cbn [json_load].
  - intros [= <- <-]. split; [done|]. intros l0 [=].
  - unfold mbind at 1, M_bind, lift. destruct tasks as [ts|x].
    2:{ intros [= <- <-]. split; [done|]. intros ? [= <-].
        exists l0. split_and!; [done|done|]. intros l1 [=]. }
    unfold mbind at 1, M_bind.
    destruct (task_loop _ _ _ _ ts (model, l0) w) as [w1 r1] eqn:Hloop.
    apply task_loop_any in Hloop as (l' & Hsub & Hret & Hf).
    intros Hr.
    assert (w' = w1 /\ forall l1, r = Ok l1 -> l1 = l') as [-> Hl1].
    { destruct r1 as [s|x]; injection Hr as <- <-; (split; [done|]);
        intros l1 [=]; subst; by apply Hret. }
    split.
    + intros f Hne. destruct Hf as [[-> _]| ->]; [done|].
      by rewrite lookup_insert_ne.
    + intros ? [= <-]. exists l'. split_and!; [|done|done].
      destruct Hf as [[-> ->]| ->]; [done|]. apply lookup_insert_eq.
  - unfold mbind at 1, M_bind, lift. destruct tasks as [ts|x].
    2:{ intros [= <- <-]. split; [done|]. intros ? [=]. }
    unfold mbind at 1, M_bind.
    destruct (task_loop _ _ _ _ ts (model, ∅) w) as [w1 r1] eqn:Hloop.
    apply task_loop_any in Hloop as (l' & Hsub & Hret & Hf).
    intros Hr. assert (w' = w1) as ->
      by (destruct r1; by injection Hr as <- _).
    split; [|intros ? [=]].
    intros f Hne. destruct Hf as [[-> _]| ->]; [done|].
    by rewrite lookup_insert_ne.
Qed.

(** What one task hands to [json.dump], whatever its outcome: nothing,
    or - to the ledger file - the ledger it started from with its own
    entry added. *)
Lemma task_step_dumps task_id model (l : gmap string entry) w w' r :
  task_step task_suite file run_task report task_id (model, l) w = (w', r) ->
  exists evs, log w' = log w ++ evs /\
    forall f m, JsonDump f m ∈ evs -> f = file /\ l ⊆ m.
Proof.
  assert (forall w : world, exists evs : list event,
            log w = log w ++ evs /\
            forall f m, JsonDump f m ∈ evs -> f = file /\ l ⊆ m) as Hnil.
  { intros w0. exists []. split; [by rewrite app_nil_r|].
    intros f m Hin. by apply not_elem_of_nil in Hin. }
  unfold task_step, getitem.
  destruct (task_suite !! task_id) as [t|]; unfold mbind at 1, M_bind, lift;
    cbn [fst snd].
  2:{ intros [= <- <-]. apply Hnil. }
  destruct (decide (is_Some (l !! name t))) as [Hin|Hout].
  { intros [= <- <-]. apply Hnil. }
  apply eq_None_not_Some in Hout.
  unfold mbind at 1, M_bind.
  destruct (run_task task_id t model w) as [w1 [[m1 e]|x]] eqn:Hrt;
    destruct (run_task_dumpless _ _ _ _ _ _ Hrt) as (evs & Hlog & Hnone).
  2:{ intros [= <- <-]. exists evs. split; [done|].
      intros f m Hin. by destruct (Hnone _ _ Hin). }
  unfold mbind at 1, M_bind, lift.
  destruct (report (<[name t:=e]> l)) as [[]|x].
  2:{ intros [= <- <-]. exists evs. split; [done|].
      intros f m Hin. by destruct (Hnone _ _ Hin). }
  intros [= <- <-]. exists (evs ++ [JsonDump file (<[name t:=e]> l)]).
  cbn. split; [by rewrite Hlog, app_assoc|].
  intros f m [Hin|Hin]%elem_of_app; [by destruct (Hnone _ _ Hin)|].
  apply list_elem_of_singleton in Hin. injection Hin as -> ->.
  split; [done|by apply insert_subseteq].
Qed.

Lemma task_loop_dumps tasks model (l : gmap string entry) w w' r :
  task_loop task_suite file run_task report tasks (model, l) w = (w', r) ->
  exists evs, log w' = log w ++ evs /\
    forall f m, JsonDump f m ∈ evs -> f = file /\ l ⊆ m.
Proof.
  revert model l w. induction tasks as [|task_id tasks IH]; intros model l w.
  - intros [= <- <-]. exists []. split; [by rewrite app_nil_r|].
    intros f m Hin. by apply not_elem_of_nil in Hin.
  - cbn [task_loop]. unfold mbind at 1, M_bind.
    destruct (task_step _ _ _ _ task_id (model, l) w) as [w1 r1] eqn:Hstep.
    destruct (task_step_dumps _ _ _ _ _ _ Hstep) as (evs1 & Hlog1 & Hd1).
    destruct r1 as [[m1 l1]|x].
    + assert (l ⊆ l1) as Hsub.
      { apply task_step_any in Hstep as [[_ Hs]|(m' & l' & Hsub & _ & Heq)].
        - by rewrite <- (Hs _ eq_refl).
        - by injection Heq as -> ->. }
      intros Hrest. destruct (IH _ _ _ Hrest) as (evs2 & Hlog2 & Hd2).
      exists (evs1 ++ evs2). split; [by rewrite Hlog2, Hlog1, app_assoc|].
      intros f m [Hin|Hin]%elem_of_app; [by apply Hd1|].
      destruct (Hd2 _ _ Hin) as [-> Hsub2]. split; [done|by etrans].
    + intros [= <- <-]. by exists evs1.
Qed.

(** What a run hands to [json.dump], whatever its outcome. *)
Lemma run_ledger_dumps tasks model w w' r :
  run_ledger task_suite file run_task report tasks model w = (w', r) ->
  exists evs, log w' = log w ++ evs /\
    forall f m, JsonDump f m ∈ evs ->
      f = file /\ forall l0, files w !! file = Some (Json l0) -> l0 ⊆ m.
Proof.
  assert (exists evs : list event,
            log w = log w ++ evs /\
            forall f m, JsonDump f m ∈ evs ->
              f = file /\ forall l0, files w !! file = Some (Json l0) -> l0 ⊆ m)
    as Hnil.
  { exists []. split; [by rewrite app_nil_r|].
    intros f m Hin. by apply not_elem_of_nil in Hin. }
  unfold run_ledger, mbind at 1, M_bind, load.
  destruct (files w !! file) as [c|] eqn:Hfile.
  - destruct c as [|l0]; cbn [json_load].
    { intros [= <- <-]. exact Hnil. }
    unfold mbind at 1, M_bind, lift. destruct tasks as [ts|x].
    2:{ intros [= <- <-]. exact Hnil. }
    unfold mbind at 1, M_bind.
    destruct (task_loop _ _ _ _ ts (model, l0) w) as [w1 r1] eqn:Hloop.
    destruct (task_loop_dumps _ _ _ _ _ _ Hloop) as (evs & Hlog & Hd).
    intros Hr. assert (w' = w1) as ->
      by (destruct r1; by injection Hr as <- _).
    exists evs. split; [done|]. intros f m Hin.
    destruct (Hd _ _ Hin) as [-> Hsub]. split; [done|]. by intros ? [= <-].
  - unfold mbind at 1, M_bind, lift. destruct tasks as [ts|x].
    2:{ intros [= <- <-]. exact Hnil. }
    unfold mbind at 1, M_bind.
    destruct (task_loop _ _ _ _ ts (model, ∅) w) as [w1 r1] eqn:Hloop.
    destruct (task_loop_dumps _ _ _ _ _ _ Hloop) as (evs & Hlog & Hd).
    intros Hr. assert (w' = w1) as ->
      by (destruct r1; by injection Hr as <- _).
    exists evs. split; [done|]. intros f m Hin.
    destruct (Hd _ _ Hin) as [-> _]. split; [done|]. intros ? [=].
Qed.

End AnyOutcome.

Section LiberoFiles.
Context {Policy Env Obs Row Actions InitState : Type}.
Context {VPolicy VEnv VObs VRow VActions VAttn VHeat VInitState : Type}.

Local Abbreviation single_sim := (@Single.sim Policy Env Obs Row Actions InitState).
Local Abbreviation pool_sim :=
  (@Vectorized.sim VPolicy VEnv VObs VRow VActions VAttn VHeat VInitState).

(** X2. The model's [json_dump] writes the whole ledger in one step:
    every write is taken to go through (a dump that is cut short leaves
    a truncated file, which the model does not cover).  With that,
    however a run of either driver ends - returning, or raising in the
    load, in the task list, in a rollout or in the progress print -
    (a) no result file other than its own ledger file has changed;
    (b) a ledger [l0] found in that file has only been extended: the
    file then holds a ledger that contains every entry of [l0]
    unchanged, and a run that returns, returns that ledger; and
    (c) - which does not depend on the writes - every ledger the run
    has handed to [json.dump] went to its own ledger file and contains
    every entry of [l0] unchanged. *)
Theorem ledger_never_shrinks task_suite task_split model_path seed checkpoint_step split :
  (forall (S : single_sim) model_name tasks save_video w w' r,
     Single.evaluate S task_suite task_split model_name model_path tasks seed
       checkpoint_step split save_video w = (w', r) ->
     (forall f,
        f <> eval_path model_path seed checkpoint_step +:+ "/success_rate.json" ->
        files w' !! f = files w !! f) /\
     (forall l0,
        files w !! (eval_path model_path seed checkpoint_step +:+ "/success_rate.json")
          = Some (Json l0) ->
        exists l,
          files w' !! (eval_path model_path seed checkpoint_step +:+ "/success_rate.json")
            = Some (Json l) /\
          l0 ⊆ l /\ forall l1, r = Ok l1 -> l1 = l) /\
     (exists evs, log w' = log w ++ evs /\
        forall f m, JsonDump f m ∈ evs ->
          f = eval_path model_path seed checkpoint_step +:+ "/success_rate.json" /\
          forall l0,
            files w !! (eval_path model_path seed checkpoint_step +:+
                        "/success_rate.json") = Some (Json l0) ->
            l0 ⊆ m)) /\
  (forall (S : pool_sim) env_num model_name tasks save_video w w' r,
     Vectorized.evaluate S env_num task_suite task_split model_name model_path
       tasks seed checkpoint_step split save_video w = (w', r) ->
     (forall f,
        f <> eval_path model_path seed checkpoint_step +:+
             "/success_rate_" +:+ split +:+ ".json" ->
        files w' !! f = files w !! f) /\
     (forall l0,
        files w !! (eval_path model_path seed checkpoint_step +:+
                    "/success_rate_" +:+ split +:+ ".json") = Some (Json l0) ->
        exists l,
          files w' !! (eval_path model_path seed checkpoint_step +:+
                       "/success_rate_" +:+ split +:+ ".json") = Some (Json l) /\
          l0 ⊆ l /\ forall l1, r = Ok l1 -> l1 = l) /\
     (exists evs, log w' = log w ++ evs /\
        forall f m, JsonDump f m ∈ evs ->
          f = eval_path model_path seed checkpoint_step +:+
              "/success_rate_" +:+ split +:+ ".json" /\
          forall l0,
            files w !! (eval_path model_path seed checkpoint_step +:+
                        "/success_rate_" +:+ split +:+ ".json") = Some (Json l0) ->
            l0 ⊆ m)).
Proof.
  split.
  - intros S mn tasks sv w w' r. rewrite single_evaluate_frame.
    intros Hrun.
    pose proof (run_ledger_dumps _ _ _ _ (single_run_task_announces S sv _)
                  (single_run_task_dumpless S sv _) _ _ _ _ _ Hrun) as Hdumps.
    eapply run_ledger_any in Hrun as [Hother Hfile];
      [|apply single_run_task_announces].
    split_and!; [exact Hother|exact Hfile|exact Hdumps].
  - intros S n mn tasks sv w w' r. rewrite pool_evaluate_frame.
    intros Hrun.
    pose proof (run_ledger_dumps _ _ _ _ (pool_run_task_announces S n sv _ split)
                  (pool_run_task_dumpless S n sv _ split) _ _ _ _ _ Hrun)
      as Hdumps.
    eapply run_ledger_any in Hrun as [Hother Hfile];
      [|apply pool_run_task_announces].
    split_and!; [exact Hother|exact Hfile|exact Hdumps].
Qed.

(** X3. Runs do not interfere across seeds, nor - in the vectorized
    driver - across splits: a run for another seed (another split)
    leaves this seed's (this split's) ledger file exactly as it was,
    however it ends. *)
Theorem seeds_do_not_interfere task_suite task_split model_path checkpoint_step :
  (forall (S : single_sim) model_name tasks seed seed' split save_video w w' r,
     seed <> seed' ->
     Single.evaluate S task_suite task_split model_name model_path tasks seed'
       checkpoint_step split save_video w = (w', r) ->
     files w' !! (eval_path model_path seed checkpoint_step +:+ "/success_rate.json")
     = files w !! (eval_path model_path seed checkpoint_step +:+ "/success_rate.json")) /\
  (forall (S : pool_sim) env_num model_name tasks seed seed' split split'
          save_video w w' r,
     (seed <> seed' /\ split = split') \/ (seed = seed' /\ split <> split') ->
     Vectorized.evaluate S env_num task_suite task_split model_name model_path
       tasks seed' checkpoint_step split' save_video w = (w', r) ->
     files w' !! (eval_path model_path seed checkpoint_step +:+
                  "/success_rate_" +:+ split +:+ ".json")
     = files w !! (eval_path model_path seed checkpoint_step +:+
                   "/success_rate_" +:+ split +:+ ".json")).
Proof.
  split.
  - intros S mn tasks seed seed' sp sv w w' r Hne.
    rewrite single_evaluate_frame. intros Hrun.
    eapply run_ledger_any in Hrun as [Hother _];
      [|apply single_run_task_announces].
    apply Hother. intros Heq. apply Hne.
    by apply (eval_path_seed_inj model_path _ _ checkpoint_step "/success_rate.json").
  - intros S n mn tasks seed seed' sp sp' sv w w' r Hne.
    rewrite pool_evaluate_frame. intros Hrun.
    eapply run_ledger_any in Hrun as [Hother _];
      [|apply pool_run_task_announces].
    apply Hother. intros Heq.
    destruct Hne as [[Hne ->]|[-> Hne]].
    + apply Hne.
      by apply (eval_path_seed_inj model_path _ _ checkpoint_step
                  ("/success_rate_" +:+ sp' +:+ ".json")).
    + apply Hne.
      apply (string_app_inv_tail sp sp' ".json"),
            (string_app_inv_head "/success_rate_"),
            (string_app_inv_head (eval_path model_path seed' checkpoint_step)).
      exact Heq.
Qed.

End LiberoFiles.

(** ** The task list *)

Lemma comprehension_Ok {A B} (f : A -> result B) l ys :
  comprehension f l = Ok ys ->
  length ys = length l /\
  forall i y, ys !! i = Some y -> exists x, l !! i = Some x /\ f x = Ok y.
Proof.
  revert ys. induction l as [|x l IH]; intros ys; cbn [comprehension].
  - intros [= <-]. split; [done|]. intros i y. by rewrite lookup_nil.
  - unfold mbind, result_bind. destruct (f x) as [y0|] eqn:Hx; [|done].
    destruct (comprehension f l) as [ys0|]; [|done].
    intros [= <-]. destruct (IH ys0 eq_refl) as [Hlen Hall].
    split; [cbn; by rewrite Hlen|].
    intros [|i] y; cbn; [intros [= <-]; eauto|]. apply Hall.
Qed.

Lemma comprehension_Raise {A B} (f : A -> result B) l x e :
  x ∈ l -> f x = Raise e ->
  (forall x' e', f x' = Raise e' -> e' = e) ->
  comprehension f l = Raise e.
Proof.
  intros Hin Hx Hone. induction l as [|x0 l IH]; [by apply elem_of_nil in Hin|].
  cbn [comprehension]. unfold mbind, result_bind.
  destruct (f x0) as [y0|e0] eqn:Hx0; [|by rewrite (Hone _ _ Hx0)].
  apply elem_of_cons in Hin as [->|Hin]; [congruence|].
  by rewrite (IH Hin).
Qed.

Lemma index_Ok (l : list string) x i :
  index l x = Ok i ->
  l !! i = Some x /\ forall j y, l !! j = Some y -> j < i -> y <> x.
Proof.
  unfold index. destruct (list_find _ l) as [[i' x']|] eqn:Hfind; [|done].
  intros [= ->]. apply list_find_Some in Hfind as (Hi & -> & Hfirst). eauto.
Qed.

Lemma index_Raise (l : list string) x e :
  index l x = Raise e -> e = ValueError /\ x ∉ l.
Proof.
  unfold index. destruct (list_find _ l) as [[i' x']|] eqn:Hfind; [done|].
  intros [= <-]. split; [done|]. intros Hin.
  rewrite list_find_None, Forall_forall in Hfind. by apply (Hfind x).
Qed.

Lemma index_missing (l : list string) x : x ∉ l -> index l x = Raise ValueError.
Proof.
  intros Hx. destruct (index l x) as [i|e] eqn:Hi.
  - apply index_Ok in Hi as [Hi _]. exfalso. apply Hx.
    apply list_elem_of_lookup. eauto.
  - by apply index_Raise in Hi as [-> _].
Qed.

(** [s[:-10]] removes a suffix of ten characters. *)
Lemma drop_last10_suffix (n suffix : string) :
  String.length suffix = 10 -> drop_last10 (n +:+ suffix) = n.
Proof.
  intros Hs. unfold drop_last10. rewrite string_app_length, Hs.
  replace (String.length n + 10 - 10) with (String.length n) by lia.
  induction n as [|c n IH]; [by destruct suffix|].
  rewrite string_app_cons. cbn [String.length String.substring]. by rewrite IH.
Qed.

(** X4. When the task list resolves, it has one suite index per entry of
    the chosen pickle list, in order, and each index is the first
    position of the suite whose task is named like the entry without its
    last ten characters. *)
Theorem resolve_tasks_sound task_suite train_tasks test_tasks tasks split ids :
  resolve_tasks task_suite (train_tasks, test_tasks) tasks split = Ok ids ->
  length ids = length (if decide (split = "train") then train_tasks else test_tasks) /\
  forall i task_id, ids !! i = Some task_id ->
    exists task_name t,
      (if decide (split = "train") then train_tasks else test_tasks) !! i
        = Some task_name /\
      task_suite !! task_id = Some t /\
      name t = drop_last10 task_name /\
      forall j t', task_suite !! j = Some t' -> j < task_id ->
        name t' <> drop_last10 task_name.
Proof.
  unfold resolve_tasks. intros [Hlen Hall]%comprehension_Ok.
  split; [done|]. intros i task_id Hi.
  destruct (Hall i task_id Hi) as (task_name & Hentry & [Hat Hfirst]%index_Ok).
  rewrite list_lookup_fmap in Hat.
  destruct (task_suite !! task_id) as [t|] eqn:Ht; [|done].
  injection Hat as Hname. exists task_name, t. split_and!; [done..|].
  intros j t' Hj Hlt. apply (Hfirst j); [|done].
  by rewrite list_lookup_fmap, Hj.
Qed.

Section UnknownTask.
Context {Policy Env Obs Row Actions InitState : Type}.
Context {VPolicy VEnv VObs VRow VActions VAttn VHeat VInitState : Type}.

(** X5. An entry of the chosen pickle list that, without its last ten
    characters, names no task of the suite makes the list comprehension
    of line 64 (line 67) raise [ValueError], whatever the caller passed
    as [tasks].  What runs before that line is taken to return: the
    output directory is made, the ledger file, if there is one, loads
    (the hypothesis on the file), the benchmark is built, [load_model]
    returns and [task_split.pkl] is read (in the model the last three
    cannot raise).  Then both drivers end in that [ValueError] before
    anything is run, logged or written; when one of those steps raises
    in the source, the run ends earlier, in that step's exception. *)
Theorem unknown_task_fails_fast task_suite train_tasks test_tasks split task_name
    model_name model_path tasks seed checkpoint_step save_video w :
  task_name ∈ (if decide (split = "train") then train_tasks else test_tasks) ->
  drop_last10 task_name ∉ map name task_suite ->
  resolve_tasks task_suite (train_tasks, test_tasks) tasks split
  = Raise ValueError /\
  (forall S : @Single.sim Policy Env Obs Row Actions InitState,
     files w !! (eval_path model_path seed checkpoint_step +:+ "/success_rate.json")
       <> Some Garbage ->
     Single.evaluate S task_suite (train_tasks, test_tasks) model_name model_path
       tasks seed checkpoint_step split save_video w = (w, Raise ValueError)) /\
  (forall (S : @Vectorized.sim VPolicy VEnv VObs VRow VActions VAttn VHeat VInitState)
          env_num,
     files w !! (eval_path model_path seed checkpoint_step +:+
                 "/success_rate_" +:+ split +:+ ".json") <> Some Garbage ->
     Vectorized.evaluate S env_num task_suite (train_tasks, test_tasks) model_name
       model_path tasks seed checkpoint_step split save_video w
     = (w, Raise ValueError)).
Proof.
  intros Hin Hmissing.
  assert (resolve_tasks task_suite (train_tasks, test_tasks) tasks split
          = Raise ValueError) as Hres.
  { unfold resolve_tasks. eapply comprehension_Raise; [exact Hin| |].
    - by apply index_missing.
    - intros x e. by intros [-> _]%index_Raise. }
  assert (forall file, files w !! file <> Some Garbage ->
            exists l, load file w = (w, Ok l)) as Hload.
  { intros file Hfile. unfold load.
    destruct (files w !! file) as [[|l]|]; [done|by exists l|by exists ∅]. }
  split; [exact Hres|]. split.
  - intros S Hfile. rewrite single_evaluate_frame. unfold run_ledger.
    destruct (Hload _ Hfile) as [l Hl].
    erewrite bind_run; [|exact Hl]. by rewrite Hres.
  - intros S n Hfile. rewrite pool_evaluate_frame. unfold run_ledger.
    destruct (Hload _ Hfile) as [l Hl].
    erewrite bind_run; [|exact Hl]. by rewrite Hres.
Qed.

End UnknownTask.

(** ** More on the vectorized rollout *)

Module VectorizedMore.
Import Vectorized.

Section Rollout.
Context {Policy Env Obs Row Actions Attn Heat : Type}.
Variable model_step : Policy -> list (list Row) -> @model_out Policy Actions Attn.
Variable generate_attention_map : Attn -> Heat.
Variable combine_image_and_heatmap : list (list Row) -> Heat -> list (list Row).
Variable concatenate : Actions -> list (list Q).
Variable env_step : Env -> list (list Q) -> @env_out Env Obs.
Variable agentview_image : Obs -> list Row.
Variable env_num : nat.

Local Abbreviation state := (@loop_state Policy Env Row Attn).
Local Abbreviation body :=
  (body model_step generate_attention_map combine_image_and_heatmap
        concatenate env_step agentview_image env_num).
Local Abbreviation for_range :=
  (for_range model_step generate_attention_map combine_image_and_heatmap
        concatenate env_step agentview_image env_num).
Local Abbreviation rollout :=
  (rollout model_step generate_attention_map combine_image_and_heatmap
        concatenate env_step agentview_image env_num).
Local Abbreviation pool_reply := (pool_reply model_step concatenate env_step).
Local Abbreviation init_state := (init_state (Attn:=Attn) agentview_image env_num).
Local Abbreviation inv := (inv (Policy:=Policy) (Env:=Env) (Row:=Row) (Attn:=Attn) env_num).

(** X6. Success in the vectorized driver is the done flag alone: after
    the rollout, slot [k] is finished (and its video labelled
    "success") exactly when the pool reported it done in one of the
    iterations that were run; rewards are never read. *)
Theorem finished_iff_reported p e o st k :
  rollout p e o = Ok st ->
  k < env_num ->
  (finished_tasks st !! k = Some true <->
   exists j st_j,
     j < length (attention_history st) /\
     for_range 0 j (init_state p e o) = Ok (st_j, false) /\
     dones (pool_reply st_j) !! k = Some true) /\
  (video_result st k = Ok "success"%string <-> finished_tasks st !! k = Some true).
Proof.
  unfold Vectorized.rollout.
  destruct (for_range 0 max_step (init_state p e o)) as [[st' brk]|] eqn:Hrun;
    [|discriminate].
  intros [= <-] Hk. split.
  - split.
    + intros Hfin.
      destruct (VectorizedFacts.for_range_reported _ _ _ _ _ _ _ _ _ _ _ _ k Hrun)
        as (j & st_j & Hj & Hr & Hd);
        [by apply lookup_replicate_2|done|].
      exists j, st_j. cbn in Hj. split_and!; [lia|done|done].
    + intros (j & st_j & Hj & Hr & Hd).
      by eapply VectorizedFacts.for_range_reported_finished.
  - unfold video_result.
    destruct (finished_tasks st' !! k) as [[|]|]; split; done.
Qed.

Lemma body_frames a (st st' : state) brk :
  body a st = Ok (st', brk) ->
  length (images_with_attention_weights st') =
  S (length (images_with_attention_weights st)).
Proof.
  unfold Vectorized.body.
  destruct (check_slots _ _ _ _ _) as [[fin len]|]; [|discriminate].
  cbn. destruct (all fin); intros [= <- <-]; cbn;
    rewrite length_app; cbn; lia.
Qed.

Lemma for_range_frames a n (st st' : state) brk :
  for_range a n st = Ok (st', brk) ->
  length (images_with_attention_weights st) = length (attention_history st) ->
  length (images_with_attention_weights st') = length (attention_history st').
Proof.
  revert a st. induction n as [|n IH]; intros a st.
  - by intros [= <- <-].
  - rewrite VectorizedFacts.for_range_S.
    destruct (body a st) as [[st1 b1]|] eqn:Hb; [|discriminate]. cbn.
    pose proof (body_frames _ _ _ _ Hb) as Hfr.
    apply VectorizedFacts.body_spec in Hb as (_ & _ & _ & _ & _ & _ & Hah).
    intros Hrest Heq.
    assert (length (images_with_attention_weights st1) =
            length (attention_history st1)) as Heq1
      by (rewrite Hfr, Hah, length_app; cbn; lia).
    destruct b1; [by injection Hrest as <- <-|]. by eapply IH.
Qed.

(** What [write_videos] logs when it returns: one video per slot, in
    order, with as many frames as the slot's length allows. *)
Lemma write_videos_log video_path (st : state) slots w w' :
  write_videos video_path st slots w = (w', Ok tt) ->
  exists evs, log w' = log w ++ evs /\
    Forall2 (fun i ev => exists result l,
               video_result st i = Ok result /\
               episode_length st !! i = Some l /\
               ev = WriteVideo
                      (video_path +:+ "/" +:+ pretty (i + 1) +:+ "_" +:+
                       result +:+ ".mp4")
                      (Nat.min l (length (images_with_attention_weights st))))
            slots evs.
Proof.
  revert w. induction slots as [|i slots IH]; intros w; cbn [write_videos].
  - intros [= <-]. exists []. by rewrite app_nil_r.
  - intros Hrun.
    apply bind_Ok in Hrun as (w1 & result & Hres & Hrun).
    injection Hres as <- Hres.
    apply bind_Ok in Hrun as (w1 & l & Hl & Hrun).
    injection Hl as <- Hl.
    apply bind_Ok in Hrun as (w1 & frames & Hfr & Hrun).
    injection Hfr as <- Hfr.
    apply bind_Ok in Hrun as (w1 & [] & Hemit & Hrun).
    injection Hemit as <-.
    destruct (IH _ Hrun) as (evs & Hlog & Hall).
    apply comprehension_Ok in Hfr as [Hlen _].
    rewrite length_take in Hlen.
    unfold getitem in Hl.
    destruct (episode_length st !! i) as [l'|] eqn:Hli; [|done].
    injection Hl as ->.
    eexists (_ :: evs). split.
    + rewrite Hlog. cbn. by rewrite <- app_assoc.
    + constructor; [|done]. exists result, l. by rewrite Hlen.
Qed.

(** X7. The videos of a rollout: one per slot, in slot order, named
    [<slot + 1>_success.mp4] or [<slot + 1>_fail.mp4] by the finished
    flag; a finished slot's video has exactly [episode_length] frames,
    an unfinished slot's has one frame per iteration that was run. *)
Theorem video_frame_counts p e o st video_path w w' :
  rollout p e o = Ok st ->
  write_videos video_path st (seq 0 env_num) w = (w', Ok tt) ->
  exists evs, log w' = log w ++ evs /\ length evs = env_num /\
    forall i, i < env_num ->
      exists (f : bool) l,
        finished_tasks st !! i = Some f /\
        episode_length st !! i = Some l /\
        evs !! i =
        Some (WriteVideo
                (video_path +:+ "/" +:+ pretty (i + 1) +:+ "_" +:+
                 (if f then "success" else "fail") +:+ ".mp4")
                (if f then l else length (attention_history st))).
Proof.
  unfold Vectorized.rollout.
  destruct (for_range 0 max_step (init_state p e o)) as [[st' brk]|] eqn:Hrun;
    [|discriminate].
  intros [= <-] (evs & Hlog & Hall)%write_videos_log.
  pose proof (for_range_frames _ _ _ _ _ Hrun eq_refl) as Hfr.
  destruct (VectorizedFacts.inv_for_range _ _ _ _ _ _ _ _ _ _ _ _
              (VectorizedFacts.inv_init _ _ p e o) Hrun)
    as (n & Hn & (Hlf & Hll & Hah & Hlen) & _).
  cbn [Nat.add] in Hah.
  exists evs. split; [done|].
  pose proof (Forall2_length _ _ _ Hall) as Hlen2. rewrite length_seq in Hlen2.
  split; [done|]. intros i Hi.
  assert (seq 0 env_num !! i = Some i) as Hseq by by apply lookup_seq.
  destruct (Forall2_lookup_l _ _ _ _ _ Hall Hseq)
    as (ev & Hev & result & l & Hres & Hl & ->).
  unfold video_result in Hres.
  destruct (finished_tasks st' !! i) as [f|] eqn:Hf; [|done].
  exists f, l. split_and!; [done..|]. rewrite Hev. do 2 f_equal.
  - destruct f; by injection Hres as <-.
  - rewrite Hfr, Hah. destruct (Hlen i l Hl) as (Hrange & Htrue & Hfalse).
    destruct f.
    + specialize (Htrue Hf). lia.
    + rewrite (Hfalse Hf). lia.
Qed.

End Rollout.

End VectorizedMore.

(** ** More on the single-environment driver *)

Module SingleMore.
Import Single.

Section Driver.
Context {Policy Env Obs Row Actions InitState : Type}.
Variable S : @sim Policy Env Obs Row Actions InitState.

Lemma images_iter j (st : @loop_state Policy Env Row) :
  length (images (Nat.iter j (body S) st)) = length (images st) + j.
Proof.
  induction j as [|j IH]; [cbn; lia|]. rewrite Nat.iter_succ.
  unfold body at 1. cbn [images]. rewrite length_app, IH. cbn. lia.
Qed.

(** An episode always returns, with two to 601 images. *)
Lemma episode_returns model e i :
  exists st success,
    episode S model e i = Ok (st, success) /\
    2 <= length (images st) <= 601.
Proof.
  destruct (SingleFacts.for_range_iter S 600 (start S model e i))
    as (m & Hm & Hrun & _); [lia|].
  unfold episode. rewrite Hrun.
  destruct m as [|m]; [lia|].
  eexists _, _. split; [reflexivity|].
  rewrite images_iter.
  assert (length (images (start S model e i)) = 1) as ->
    by (unfold start; by destruct (env_set_init_state S _ i)).
  lia.
Qed.

(** X8. What one task of the single-environment driver records: one
    episode, from the first initial state of the task; the entry is the
    pair of the rate - 1 or 0 - and the one-element list of the
    episode's success flag.  Besides the banner the task logs at most
    one video, [1_success.mp4] or [1_fail.mp4], of two to 601 frames,
    and it touches no result file. *)
Theorem single_task_entry save_video eval_path task_id t model w w' model' e :
  run_task S save_video eval_path task_id t model w = (w', Ok (model', e)) ->
  exists init st (success : bool),
    get_task_init_states S task_id !! 0 = Some init /\
    episode S (model_reset S model (language t))
      (env_reset S (env_seed S (OffScreenRenderEnv S (task_bddl_file S t)) 0))
      init = Ok (st, success) /\
    e = RateOutcomes (if success then 1 else 0)%Q [success] /\
    model' = policy st /\
    files w' = files w /\
    2 <= length (images st) <= 601 /\
    log w' = log w ++ Banner (name t) ::
      (if save_video
       then [WriteVideo (eval_path +:+ "/video/" +:+ name t +:+ "/1_" +:+
                         (if success then "success" else "fail") +:+ ".mp4")
                        (length (images st))]
       else []).
Proof.
  unfold run_task, total_runs. cbn [seq runs]. unfold run_step.
  intros Hrun.
  apply bind_Ok in Hrun as (w1 & [] & Hban & Hrun). injection Hban as <-.
  apply bind_Ok in Hrun as (w2 & a & Hruns & Hrun).
  apply bind_Ok in Hruns as (w3 & a' & Hstep & Hret). injection Hret as <- <-.
  apply bind_Ok in Hstep as (w4 & init & Hinit & Hstep).
  injection Hinit as <- Hinit. unfold getitem in Hinit.
  destruct (get_task_init_states S task_id !! 0) as [i0|] eqn:Hi0; [|done].
  injection Hinit as ->.
  apply bind_Ok in Hstep as (w4 & [st success] & Hep & Hstep).
  injection Hep as <- Hep.
  apply bind_Ok in Hstep as (w4 & [] & Hvid & Hstep).
  injection Hstep as <- <-.
  apply bind_Ok in Hrun as (w5 & rate & Hrate & Hrun).
  injection Hrate as <- Hrate. injection Hrun as <- <- <-.
  destruct (episode_returns (model_reset S model (language t))
              (env_reset S (env_seed S (OffScreenRenderEnv S (task_bddl_file S t)) 0))
              init) as (st0 & s0 & Hep0 & Hlen).
  rewrite Hep in Hep0. injection Hep0 as <- <-.
  exists init, st, success. cbn [success_count episode_results acc_model] in *.
  split; [done|]. split; [done|]. split.
  { rewrite <- Hrate. by destruct success. }
  split; [done|]. split.
  { destruct save_video; by injection Hvid as <-. }
  split; [done|].
  destruct save_video; injection Hvid as <-; cbn [log]; [|done].
  rewrite <- app_assoc, !string_app_assoc. reflexivity.
Qed.

(** X9. A task for which the benchmark has no initial state: the
    driver prints the banner and raises [IndexError]; nothing is
    recorded. *)
Theorem single_no_init_state save_video eval_path task_id t model w :
  get_task_init_states S task_id = [] ->
  run_task S save_video eval_path task_id t model w =
  ({| files := files w; log := log w ++ [Banner (name t)] |}, Raise IndexError).
Proof.
  intros Hnone. unfold run_task, total_runs. cbn [seq runs]. unfold run_step.
  rewrite Hnone. reflexivity.
Qed.

End Driver.
End SingleMore.

(** ** More on the SimplerEnv episode loop *)

Module SimplerMore.
Import Simpler.

Section Episode.
Context {Policy Env Obs Image : Type}.
Variable S : @sim Policy Env Obs Image.



(** An iteration whose terminate vector is not empty returns; the
    environment it steps is the current one, or the current one
    advanced to the next subtask. *)
Lemma body_steps (st : @loop_state Policy Env Image) :
  terminate_episode (policy_action S st) <> [] ->
  exists st1 e1 a,
    body S st = Ok st1 /\
    (e1 = env st \/ e1 = advance_to_next_subtask S (env st)) /\
    env st1 = eo_env (env_step S e1 a) /\
    truncated st1 = eo_truncated (env_step S e1 a) /\
    success st1 = eo_success (env_step S e1 a) /\
    timestep st1 = timestep st + 1.
Proof.
  intros Hterm. unfold body, predicts_terminate, getitem.
  fold (policy_action S st).
  destruct (terminate_episode (policy_action S st)) as [|x xs]; [done|]. cbn.
  destruct (gt0 x), (final_subtask st); cbn;
    eexists _, _, _; (split; [reflexivity|]); cbn; eauto 10.
Qed.

(** X11. The episode loop ends when the environment keeps a step
    budget: if every step that is not truncated lowers some budget of
    the environment, advancing to the next subtask does not raise it
    and the policy's terminate vector is never empty, then from any
    state the loop returns within [budget + 1] iterations, without
    raising. *)
Theorem episode_loop_ends (budget : Env -> nat) :
  (forall e a, eo_truncated (env_step S e a) = false ->
     budget (eo_env (env_step S e a)) < budget e) ->
  (forall e, budget (advance_to_next_subtask S e) <= budget e) ->
  (forall p i s, terminate_episode (mo_action (model_step S p i s)) <> []) ->
  forall fuel st, budget (env st) < fuel ->
    exists st', while_loop S fuel st = Ok (Some st') /\
      running st' = false /\
      timestep st' <= timestep st + budget (env st) + 1.
Proof.
  intros Hstep Hadv Hterm fuel.
  induction fuel as [|fuel IH]; intros st Hfuel; [lia|].
  cbn [while_loop]. destruct (running st) eqn:Hr.
  2:{ exists st. split_and!; [done|done|lia]. }
  destruct (body_steps st (Hterm _ _ _))
    as (st1 & e1 & a & -> & He1 & Henv & Htr & _ & Ht).
  cbn [mbind result_bind].
  assert (budget e1 <= budget (env st)) as Hb1
    by (destruct He1 as [->| ->]; auto).
  destruct (eo_truncated (env_step S e1 a)) eqn:Htrunc.
  - exists st1. destruct fuel; cbn [while_loop]; unfold running;
      rewrite Htr; cbn; (split_and!; [done|done|lia]).
  - specialize (Hstep _ _ Htrunc).
    destruct (IH st1) as (st' & Hloop & Hrun & Hts); [rewrite Henv; lia|].
    exists st'. split_and!; [done|done|]. rewrite Henv in Hts. lia.
Qed.

End Episode.
End SimplerMore.

(** ** The command line: one run per seed *)

Section ForEach.
Context {A B : Type}.
Variable f : A -> M B.
Variable done_for : A -> world -> Prop.
Hypothesis f_settles : forall x w w' b, f x w = (w', Ok b) -> done_for x w'.
Hypothesis f_keeps : forall x y w w' r,
  done_for x w -> f y w = (w', r) -> done_for x w'.
Hypothesis f_skips : forall x w, done_for x w -> exists b, f x w = (w, Ok b).

Lemma for_each_keeps x l w w' r :
  done_for x w -> for_each l f w = (w', r) -> done_for x w'.
Proof.
  revert w. induction l as [|y l IH]; intros w Hx; cbn [for_each].
  - by intros [= <- _].
  - unfold mbind, M_bind. destruct (f y w) as [w1 [b|e]] eqn:Hy.
    + apply IH. by eapply f_keeps.
    + intros [= <- _]. by eapply f_keeps.
Qed.

Lemma for_each_settles l w w' :
  for_each l f w = (w', Ok tt) -> forall x, x ∈ l -> done_for x w'.
Proof.
  revert w. induction l as [|y l IH]; intros w; cbn [for_each].
  - intros _ x []%elem_of_nil.
  - unfold mbind, M_bind. destruct (f y w) as [w1 [b|e]] eqn:Hy; [|done].
    intros Hrest x [->|Hx]%elem_of_cons; [|by eapply IH].
    eapply for_each_keeps; [|exact Hrest]. by eapply f_settles.
Qed.

Lemma for_each_skips l w :
  (forall x, x ∈ l -> done_for x w) -> for_each l f w = (w, Ok tt).
Proof.
  induction l as [|y l IH]; intros Hall; cbn [for_each]; [done|].
  destruct (f_skips y w) as [b Hy]; [apply Hall; by left|].
  unfold mbind, M_bind. rewrite Hy. apply IH. intros x Hx. apply Hall. by right.
Qed.

(** A loop whose body settles its item for good can be run again
    without any effect. *)
Lemma for_each_again l w w' :
  for_each l f w = (w', Ok tt) -> for_each l f w' = (w', Ok tt).
Proof. intros Hrun. apply for_each_skips. by eapply for_each_settles. Qed.

End ForEach.

Section Settled.
Context {Policy : Type}.
Variable task_suite : list task.
Variable tasks : result (list nat).

Lemma settled_after file (run_task : nat -> task -> Policy -> M (Policy * entry))
    report model w w' l :
  (forall task_id t model, announces (name t) (run_task task_id t model)) ->
  run_ledger task_suite file run_task report tasks model w = (w', Ok l) ->
  settled task_suite tasks file w'.
Proof.
  intros Hann (l0 & ts & m' & Hload & -> & Hloop)%run_ledger_ok.
  apply load_synced in Hload as [_ Hsync].
  apply (task_loop_ok _ _ _ _ Hann) in Hloop as (Hcov & _ & Hsync' & _).
  exists ts, l. auto.
Qed.

Lemma settled_skips file (run_task : nat -> task -> Policy -> M (Policy * entry))
    report model w :
  settled task_suite tasks file w ->
  exists l, run_ledger task_suite file run_task report tasks model w = (w, Ok l).
Proof.
  intros (ts & l & -> & Hsync & Hcov). exists l. unfold run_ledger.
  erewrite bind_run; [|by apply synced_load].
  erewrite bind_run; [|reflexivity].
  erewrite bind_run; [|by apply task_loop_skip_all].
  done.
Qed.

Lemma settled_other file file'
    (run_task : nat -> task -> Policy -> M (Policy * entry)) report tasks'
    model w w' r :
  (forall task_id t model, announces (name t) (run_task task_id t model)) ->
  file <> file' ->
  settled task_suite tasks file w ->
  run_ledger task_suite file' run_task report tasks' model w = (w', r) ->
  settled task_suite tasks file w'.
Proof.
  intros Hann Hne (ts & l & -> & Hsync & Hcov) Hrun.
  eapply run_ledger_any in Hrun as [Hother _]; [|exact Hann].
  exists ts, l. split_and!; [done| |done].
  unfold synced in *. by rewrite (Hother file Hne).
Qed.

End Settled.

Section CliFacts.
Context {Policy Env Obs Row Actions InitState : Type}.
Context {VPolicy VEnv VObs VRow VActions VAttn VHeat VInitState : Type}.

(** X12. The whole command is resumable: when the script has gone
    through all its seeds, running it again with the same arguments
    goes through all seeds again without running, logging or writing
    anything. *)
Theorem main_resumable task_suite task_split model model_path seeds step split
    save_video :
  (forall (S : @Single.sim Policy Env Obs Row Actions InitState) w w',
     Cli.single_main S task_suite task_split model model_path seeds step split
       save_video w = (w', Ok tt) ->
     Cli.single_main S task_suite task_split model model_path seeds step split
       save_video w' = (w', Ok tt)) /\
  (forall (S : @Vectorized.sim VPolicy VEnv VObs VRow VActions VAttn VHeat VInitState)
          w w',
     Cli.pool_main S task_suite task_split model model_path seeds step split
       save_video w = (w', Ok tt) ->
     Cli.pool_main S task_suite task_split model model_path seeds step split
       save_video w' = (w', Ok tt)).
Proof.
  split.
  - intros S w w'. unfold Cli.single_main.
    apply (for_each_again _
             (fun seed => settled task_suite
                (resolve_tasks task_suite task_split [0] split)
                (eval_path model_path seed step +:+ "/success_rate.json"))).
    + intros seed w0 w1 l. rewrite single_evaluate_frame.
      apply settled_after, single_run_task_announces.
    + intros seed seed' w0 w1 r Hs. rewrite single_evaluate_frame. intros Hrun.
      destruct (decide (seed = seed')) as [<-|Hne].
      * destruct (settled_skips _ _ _
                    (Single.run_task S save_video (eval_path model_path seed step))
                    Single.report
                    (Single.load_model S model model_path seed step) _ Hs)
          as [l Hl].
        change (eval_path model_path seed step +:+ "/" +:+ "success_rate" +:+ ".json")
          with (eval_path model_path seed step +:+ "/success_rate.json") in Hrun.
        rewrite Hl in Hrun. by injection Hrun as <- _.
      * eapply settled_other; cycle 3;
          [exact Hrun|apply single_run_task_announces| |exact Hs].
        intros Heq. apply Hne.
        by apply (eval_path_seed_inj model_path _ _ step "/success_rate.json").
    + intros seed w0 Hs. rewrite single_evaluate_frame. by apply settled_skips.
  - intros S w w'. unfold Cli.pool_main.
    apply (for_each_again _
             (fun seed => settled task_suite
                (resolve_tasks task_suite task_split [0] split)
                (eval_path model_path seed step +:+
                 "/success_rate_" +:+ split +:+ ".json"))).
    + intros seed w0 w1 l. rewrite pool_evaluate_frame.
      apply settled_after, pool_run_task_announces.
    + intros seed seed' w0 w1 r Hs. rewrite pool_evaluate_frame. intros Hrun.
      destruct (decide (seed = seed')) as [<-|Hne].
      * destruct (settled_skips _ _ _
                    (Vectorized.run_task S 20 save_video
                       (eval_path model_path seed step) split)
                    Vectorized.report
                    (Vectorized.load_model S model model_path seed step) _ Hs)
          as [l Hl].
        change (eval_path model_path seed step +:+ "/" +:+
                ("success_rate_" +:+ split) +:+ ".json")
          with (eval_path model_path seed step +:+
                "/success_rate_" +:+ split +:+ ".json") in Hrun.
        rewrite Hl in Hrun. by injection Hrun as <- _.
      * eapply settled_other; cycle 3;
          [exact Hrun|apply pool_run_task_announces| |exact Hs].
        intros Heq. apply Hne.
        by apply (eval_path_seed_inj model_path _ _ step
                    ("/success_rate_" +:+ split +:+ ".json")).
    + intros seed w0 Hs. rewrite pool_evaluate_frame. by apply settled_skips.
Qed.

End CliFacts.

(** ** The finetuning configuration *)

Module FinetuneFacts.
Import FinetuneConfig.

(** X13. How [get_config] fails: a configuration string that does not
    have exactly three comma-separated parts raises [ValueError] (the
    unpacking); one with three parts raises [AssertionError] when the
    task or the mode is not a known one, and nothing else - the two
    [raise ValueError] statements of the function are never reached. *)
Theorem get_config_errors config_string :
  (length (str_split "," config_string) <> 3 ->
   get_config config_string = Throw (Builtin ValueError)) /\
  (forall mode task dataset,
     str_split "," config_string = [mode; task; dataset] ->
     (task ∈ ["image_conditioned"; "language_conditioned"; "multimodal"] /\
      mode ∈ ["full"; "head_only"; "head_mlp_only"; "none"] ->
      exists c, get_config config_string = Return c) /\
     (~ (task ∈ ["image_conditioned"; "language_conditioned"; "multimodal"] /\
         mode ∈ ["full"; "head_only"; "head_mlp_only"; "none"]) ->
      get_config config_string = Throw AssertionError)).
Proof.
  unfold get_config. split.
  - intros Hlen.
    destruct (str_split "," config_string) as [|a [|b [|c [|d l]]]]; try done.
  - intros mode task dataset ->. cbn [mbind outcome_bind].
    unfold among. split.
    + intros [Htask Hmode].
      rewrite !bool_decide_eq_true_2 by done. cbn.
      set_unfold. destruct Htask as [->|[->|[->|[]]]];
        destruct Hmode as [->|[->|[->|[->|[]]]]]; cbn; eauto.
    + intros Hnot.
      destruct (decide (task ∈ ["image_conditioned"; "language_conditioned";
                                "multimodal"])) as [Htask|Htask].
      * rewrite (bool_decide_eq_true_2 _ Htask). cbn.
        rewrite bool_decide_eq_false_2; [done|]. intros Hmode. by apply Hnot.
      * by rewrite (bool_decide_eq_false_2 _ Htask).
Qed.

(** X14. What a configuration that [get_config] returns holds: the
    modality and the mode are the second and the first part of the
    string; nothing is frozen by the configuration exactly in mode
    [full], and every other mode freezes [octo_transformer.*]; the
    third part is not checked and only decides the action pad mask,
    which is set exactly for [metaworld].  The optimizer of
    [finetune.py] therefore gets the configuration's frozen keys in
    every mode but [full], where it gets the pretrained model's. *)
Theorem get_config_sound config_string c :
  get_config config_string = Return c ->
  exists mode task dataset,
    str_split "," config_string = [mode; task; dataset] /\
    finetuning_mode c = mode /\ modality c = task /\
    mode ∈ ["full"; "head_only"; "head_mlp_only"; "none"] /\
    task ∈ ["image_conditioned"; "language_conditioned"; "multimodal"] /\
    (frozen_keys c = None <-> mode = "full") /\
    (mode <> "full" ->
     exists keys, frozen_keys c = Some keys /\ "octo_transformer.*" ∈ keys /\
       forall model_keys, Finetune.optimizer_frozen_keys c model_keys = Some keys) /\
    (mode = "full" ->
     forall model_keys, Finetune.optimizer_frozen_keys c model_keys = model_keys) /\
    (action_pad_mask c <> None <-> dataset = "metaworld") /\
    (keep_image_prob c = 0%Q <-> task = "language_conditioned").
Proof.
  unfold get_config.
  destruct (str_split "," config_string) as [|mode [|task [|dataset [|d l]]]];
    try done.
  cbn [mbind outcome_bind]. unfold among, assert.
  destruct (bool_decide (task ∈ _)) eqn:Htask; [|done].
  destruct (bool_decide (mode ∈ _)) eqn:Hmode; [|done].
  apply bool_decide_eq_true in Htask, Hmode.
  intros Hc. exists mode, task, dataset.
  set_unfold.
  destruct Htask as [->|[->|[->|[]]]]; destruct Hmode as [->|[->|[->|[->|[]]]]];
    cbn in Hc; injection Hc as <-; cbn;
    unfold Finetune.optimizer_frozen_keys; cbn;
    (split_and!; [done|done|done|naive_solver|naive_solver| | | | |]);
    try (split; done); try done;
    try (intros _; eexists; split_and!; [done|set_solver|done]);
    try (case_decide; split; congruence).
Qed.


End FinetuneFacts.

(** ** The finetuning script *)

Module FinetuneScript.
Import Finetune.

Lemma prefix_nil s : String.prefix "" s = true.
Proof. by destruct s. Qed.

Lemma prefix_app_same (a b c : string) :
  String.prefix (a +:+ b) (a +:+ c) = String.prefix b c.
Proof.
  induction a as [|x a IH]; [done|]. rewrite !string_app_cons.
  cbn [String.prefix]. by destruct (ascii_dec x x).
Qed.

Lemma prefix_app_r (a b : string) : String.prefix a (a +:+ b) = true.
Proof.
  induction a as [|x a IH]; [apply prefix_nil|]. rewrite string_app_cons.
  cbn [String.prefix]. by destruct (ascii_dec x x).
Qed.

Lemma prefix_refl (a : string) : String.prefix a a = true.
Proof.
  induction a as [|x a IH]; [done|]. cbn [String.prefix].
  by destruct (ascii_dec x x).
Qed.

Lemma prefix_length (a s : string) :
  String.prefix a s = true -> String.length a <= String.length s.
Proof.
  revert s. induction a as [|x a IH]; intros [|y s]; cbn; try done; [lia|].
  destruct (ascii_dec x y); [|done]. intros H%IH. lia.
Qed.

Lemma delete_keys_existsb {V} (d_keys : list (list string))
    (flat_config : gmap (list string) V) (c_key : list string) :
  delete_keys d_keys flat_config !! c_key =
  if existsb (fun d_key => String.prefix (dotted d_key) (dotted c_key)) d_keys
  then None else flat_config !! c_key.
Proof.
  unfold delete_keys. revert flat_config.
  induction d_keys as [|d ds IH]; intros flat; cbn [foldl existsb]; [done|].
  rewrite IH.
  destruct (existsb _ ds); [by rewrite orb_true_r|]. rewrite orb_false_r.
  destruct (String.prefix (dotted d) (dotted c_key)) eqn:Hp.
  - apply map_lookup_filter_None. right. intros v _ Hn. apply Hn.
    change (c_key, v).1 with c_key. by rewrite Hp.
  - destruct (flat !! c_key) as [v|] eqn:Hv.
    + apply map_lookup_filter_Some. split; [done|].
      change (c_key, v).1 with c_key. rewrite Hp. by intros [].
    + apply map_lookup_filter_None. by left.
Qed.

(** X16. What deleting configuration keys leaves: a key of the
    flattened configuration is kept, with its value, exactly when its
    dotted name does not start, as a string, with the dotted name of any
    of the keys to delete. *)
Theorem delete_keys_lookup {V} (d_keys : list (list string))
    (flat_config : gmap (list string) V) (c_key : list string) (v : V) :
  delete_keys d_keys flat_config !! c_key = Some v <->
  flat_config !! c_key = Some v /\
  forall d_key, d_key ∈ d_keys ->
    String.prefix (dotted d_key) (dotted c_key) = false.
Proof.
  rewrite delete_keys_existsb.
  destruct (existsb _ d_keys) eqn:Hex.
  - apply existsb_exists in Hex as (d & Hd%list_elem_of_In & Hp).
    split; [done|]. intros [_ Hnone]. by rewrite (Hnone d Hd) in Hp.
  - split; [|by intros []]. intros Hv. split; [done|]. intros d Hd.
    destruct (String.prefix (dotted d) (dotted c_key)) eqn:Hp; [|done].
    assert (existsb (fun d_key => String.prefix (dotted d_key) (dotted c_key))
              d_keys = true) as Hex'
      by (apply existsb_exists; exists d; split; [by apply list_elem_of_In|done]).
    by rewrite Hex' in Hex.
Qed.

Lemma dotted_prefix (d k : list string) :
  String.prefix (dotted d) (dotted (d ++ k)) = true.
Proof.
  unfold dotted. induction d as [|x d IH]; [apply prefix_nil|].
  destruct d as [|y d].
  - cbn [app String.concat]. destruct k; [apply prefix_refl|apply prefix_app_r].
  - change (String.concat "." (x :: y :: d))
      with (x +:+ "." +:+ String.concat "." (y :: d)).
    change (String.concat "." ((x :: y :: d) ++ k))
      with (x +:+ "." +:+ String.concat "." ((y :: d) ++ k)).
    by rewrite !prefix_app_same.
Qed.

(** X17. Deleting a key path deletes everything below it: a key of the
    flattened configuration that extends one of the paths to delete is
    gone, whatever the configuration held. *)
Theorem delete_keys_subtree {V} (d_keys : list (list string))
    (flat_config : gmap (list string) V) (d_key rest : list string) :
  d_key ∈ d_keys ->
  delete_keys d_keys flat_config !! (d_key ++ rest) = None.
Proof.
  intros Hin. rewrite delete_keys_existsb.
  assert (existsb (fun d => String.prefix (dotted d) (dotted (d_key ++ rest)))
            d_keys = true) as ->; [|done].
  apply existsb_exists. exists d_key. split; [by apply list_elem_of_In|].
  apply dotted_prefix.
Qed.

(** [replace] on a string. *)
Lemma replace_from_length old new skip s :
  String.length new <= String.length old ->
  String.length (replace_from old new skip s) + Nat.min skip (String.length s)
  <= String.length s.
Proof.
  intros Hlen. revert skip. induction s as [|c s IH]; intros skip;
    cbn [replace_from String.length]; [lia|].
  destruct skip as [|k].
  - destruct (String.prefix old (String c s)) eqn:Hp.
    + apply prefix_length in Hp. cbn [String.length] in Hp.
      rewrite string_app_length.
      specialize (IH (String.length old - 1)). lia.
    + cbn [String.length]. specialize (IH 0). lia.
  - specialize (IH k). lia.
Qed.

Lemma replace_length old new s :
  String.length new <= String.length old ->
  String.length (replace old new s) <= String.length s.
Proof.
  intros Hlen. pose proof (replace_from_length old new 0 s Hlen). unfold replace.
  lia.
Qed.

Lemma replace_absent old new s : contains old s = false -> replace old new s = s.
Proof.
  unfold replace. induction s as [|c s IH]; [done|].
  cbn [contains replace_from]. intros [Hp Hc]%orb_false_iff.
  rewrite Hp. by rewrite (IH Hc).
Qed.

(** X18. Cleaning an instruction never makes it longer, and leaves it
    as it is when none of the five patterns occurs in it. *)
Theorem clean_text_conservative cfg instruction :
  String.length (clean_text cfg instruction) <= String.length instruction /\
  ((forall p, p ∈ ["caddy"; "mug"; "frying pan"; "moka pot"; " the "] ->
      contains p instruction = false) ->
   clean_text cfg instruction = instruction).
Proof.
  unfold clean_text. split.
  - destruct (FinetuneConfig.clean_instruction cfg),
      (FinetuneConfig.remove_useless_token cfg); [| | |done].
    + etrans; [apply replace_length; cbn; lia|].
      etrans; [apply replace_length; cbn; lia|].
      etrans; [apply replace_length; cbn; lia|].
      etrans; [apply replace_length; cbn; lia|].
      apply replace_length; cbn; lia.
    + etrans; [apply replace_length; cbn; lia|].
      etrans; [apply replace_length; cbn; lia|].
      etrans; [apply replace_length; cbn; lia|].
      apply replace_length; cbn; lia.
    + apply replace_length; cbn; lia.
  - intros Hnone.
    assert (forall p new,
              p ∈ ["caddy"; "mug"; "frying pan"; "moka pot"; " the "] ->
              replace p new instruction = instruction) as Hrep
      by (intros p new Hp; apply replace_absent; auto).
    destruct (FinetuneConfig.clean_instruction cfg),
      (FinetuneConfig.remove_useless_token cfg);
      by rewrite ?Hrep by set_solver.
Qed.

Lemma window_closes a :
  (Z.of_nat (S a) `mod` 1000 = 0)%Z ->
  S a mod 1000 = 0 /\ a mod 1000 = 999 /\ a - a mod 1000 = S a - 1000.
Proof.
  intros Hm. pose proof (Nat2Z.inj_mod (S a) 1000) as Hz.
  change (Z.of_nat 1000) with 1000%Z in Hz.
  pose proof (Nat.div_mod_eq a 1000). pose proof (Nat.div_mod_eq (S a) 1000).
  pose proof (Nat.mod_upper_bound a 1000). pose proof (Nat.mod_upper_bound (S a) 1000).
  lia.
Qed.

Lemma window_grows a :
  (Z.of_nat (S a) `mod` 1000 <> 0)%Z ->
  S a mod 1000 = a mod 1000 + 1 /\ S a - S a mod 1000 = a - a mod 1000.
Proof.
  intros Hm. pose proof (Nat2Z.inj_mod (S a) 1000) as Hz.
  change (Z.of_nat 1000) with 1000%Z in Hz.
  pose proof (Nat.div_mod_eq a 1000). pose proof (Nat.div_mod_eq (S a) 1000).
  pose proof (Nat.mod_upper_bound a 1000). pose proof (Nat.mod_upper_bound (S a) 1000).
  lia.
Qed.

#[local] Set Warnings "-clear-no-such-hyp".

Section TrainLoop.
Context {TrainState Batch Info : Type}.
Variable batches : nat -> Batch.
Variable train_step : TrainState -> Batch -> TrainState * Info.
Variable training_loss : Info -> Q.

Local Abbreviation event := (@train_event TrainState Info).
Local Abbreviation state := (@loop_state TrainState Info).
Local Abbreviation body := (body batches train_step training_loss).
Local Abbreviation for_range := (for_range batches train_step training_loss).
Local Abbreviation run_steps := (run_steps batches train_step).
Local Abbreviation info_at := (info_at batches train_step).

(** The events of one iteration, by the three tests of lines 478, 482
    and 504. *)
Lemma body_events cfg save_dir i (st st' : state) :
  body cfg save_dir i st = Ok st' ->
  FinetuneConfig.log_interval cfg <> 0%Z /\
  FinetuneConfig.save_interval cfg <> 0%Z /\
  train_state st' = (train_step (train_state st) (batches i)).1 /\
  loss_history st' =
    (if bool_decide ((Z.of_nat i + 1) `mod` 1000 = 0)%Z then []
     else loss_history st ++
          [training_loss (train_step (train_state st) (batches i)).2]) /\
  events st' = events st ++
    (if bool_decide ((Z.of_nat i + 1) `mod` 1000 = 0)%Z
     then [PrintLoss (i + 1)
             (mean (loss_history st ++
                    [training_loss (train_step (train_state st) (batches i)).2]))]
     else []) ++
    (if bool_decide
          ((Z.of_nat i + 1) `mod` FinetuneConfig.log_interval cfg = 0)%Z
     then [WandbLog i (train_step (train_state st) (batches i)).2] else []) ++
    (if bool_decide
          ((Z.of_nat i + 1) `mod` FinetuneConfig.save_interval cfg = 0)%Z
        && bool_decide (save_dir <> None)
     then [SaveCheckpoint (i + 1) (train_step (train_state st) (batches i)).1]
     else []).
Proof.
  unfold Finetune.body, divides_into.
  destruct (train_step (train_state st) (batches i)) as [ts info]. cbn [fst snd].
  destruct (decide (FinetuneConfig.log_interval cfg = 0%Z)) as [|Hl];
    [by destruct (bool_decide _)|].
  destruct (decide (FinetuneConfig.save_interval cfg = 0%Z)) as [|Hs];
    [by destruct (bool_decide _)|].
  destruct (bool_decide ((Z.of_nat i + 1) `mod` 1000 = 0)%Z);
    destruct (bool_decide ((Z.of_nat i + 1) `mod` FinetuneConfig.log_interval cfg = 0)%Z);
    destruct (bool_decide ((Z.of_nat i + 1) `mod` FinetuneConfig.save_interval cfg = 0)%Z);
    destruct (bool_decide (save_dir <> None));
    cbn; intros [= <-]; cbn; split_and!; try done;
    by rewrite <- ?app_assoc, ?app_nil_r.
Qed.

(** X19. A zero interval stops the training at its first step: with at
    least one step to do, a [log_interval] or [save_interval] of zero
    makes the loop raise [ZeroDivisionError] - also when no checkpoint
    directory is given, since the remainder is taken before the
    directory is looked at. *)
Theorem train_zero_interval cfg save_dir state0 :
  (0 < FinetuneConfig.num_steps cfg)%Z ->
  FinetuneConfig.log_interval cfg = 0%Z \/ FinetuneConfig.save_interval cfg = 0%Z ->
  train batches train_step training_loss cfg save_dir state0
  = Raise ZeroDivisionError.
Proof.
  intros Hn Hzero. unfold train.
  destruct (Z.to_nat (FinetuneConfig.num_steps cfg)) as [|n] eqn:Hsteps; [lia|].
  cbn [Finetune.for_range].
  destruct (body cfg save_dir 0 _) as [st1|e] eqn:Hb.
  - apply body_events in Hb as (Hl & Hs & _). by destruct Hzero.
  - unfold Finetune.body, divides_into in Hb.
    destruct (train_step _ _) as [ts info].
    destruct (bool_decide ((Z.of_nat 0 + 1) `mod` 1000 = 0)%Z);
      repeat case_decide; cbn in Hb; try discriminate; by injection Hb as <-.
Qed.

Lemma for_range_events cfg save_dir state0 n : forall a (st st' : state),
  for_range cfg save_dir a n st = Ok st' ->
  train_state st = run_steps a state0 ->
  train_state st' = run_steps (a + n) state0 /\
  exists evs, events st' = events st ++ evs /\
    (forall s x, SaveCheckpoint s x ∈ evs <->
       save_dir <> None /\ a < s <= a + n /\
       (Z.of_nat s `mod` FinetuneConfig.save_interval cfg = 0)%Z /\
       x = run_steps s state0) /\
    (forall i info, WandbLog i info ∈ evs <->
       a <= i < a + n /\
       ((Z.of_nat i + 1) `mod` FinetuneConfig.log_interval cfg = 0)%Z /\
       info = info_at i state0).
Proof.
  induction n as [|n IH]; intros a st st'; cbn [Finetune.for_range].
  - intros [= <-] Hst. rewrite Nat.add_0_r. split; [done|].
    exists []. rewrite app_nil_r. split; [done|].
    split; intros; rewrite elem_of_nil; (split; [done|lia]).
  - destruct (body cfg save_dir a st) as [st1|e] eqn:Hb; [|done].
    cbn [mbind result_bind]. intros Hrest Hst.
    apply body_events in Hb as (_ & _ & Hts & _ & Hev).
    assert (train_state st1 = run_steps (S a) state0) as Hst1.
    { rewrite Hts, Hst. done. }
    destruct (IH _ _ _ Hrest Hst1) as (Hfin & evs & Hevs & Hsave & Hlog).
    split; [by rewrite Hfin; f_equal; lia|].
    eexists. split; [rewrite Hevs, Hev, <- app_assoc; reflexivity|].
    rewrite Hst in *. fold (info_at a state0) in *.
    change (train_step (run_steps a state0) (batches a)).1
      with (run_steps (S a) state0) in *.
    replace (Z.of_nat a + 1)%Z with (Z.of_nat (S a)) in * by lia.
    rewrite Nat.add_1_r.
    split.
    + intros s x. rewrite !elem_of_app, Hsave.
      clear IH Hsave Hlog Hev Hevs Hfin Hrest Hst Hst1 Hts.
      destruct (decide (s = S a)) as [->|];
        destruct (bool_decide (Z.of_nat (S a) `mod` 1000 = 0)%Z);
        destruct (bool_decide (Z.of_nat (S a) `mod` FinetuneConfig.log_interval cfg = 0)%Z);
        case_bool_decide as Hs; case_bool_decide as Hd; cbn [andb];
        set_unfold; naive_solver lia.
    + intros i info. rewrite !elem_of_app, Hlog.
      replace (Z.of_nat i + 1)%Z with (Z.of_nat (S i)) by lia.
      clear IH Hsave Hlog Hev Hevs Hfin Hrest Hst Hst1 Hts.
      destruct (decide (i = a)) as [->|];
        destruct (bool_decide (Z.of_nat (S a) `mod` 1000 = 0)%Z);
        case_bool_decide as Hl;
        destruct (bool_decide (Z.of_nat (S a) `mod` FinetuneConfig.save_interval cfg = 0)%Z
                  && bool_decide (save_dir <> None));
        set_unfold; naive_solver lia.
Qed.

Lemma for_range_prints cfg save_dir state0 n : forall a (st st' : state),
  for_range cfg save_dir a n st = Ok st' ->
  train_state st = run_steps a state0 ->
  loss_history st
  = map (fun k => training_loss (info_at k state0))
      (seq (a - a mod 1000) (a mod 1000)) ->
  exists evs, events st' = events st ++ evs /\
    forall s average, PrintLoss s average ∈ evs <->
      a < s <= a + n /\ (Z.of_nat s `mod` 1000 = 0)%Z /\
      average = mean (map (fun k => training_loss (info_at k state0))
                        (seq (s - 1000) 1000)).
Proof.
  induction n as [|n IH]; intros a st st'; cbn [Finetune.for_range].
  - intros [= <-] _ _. exists []. rewrite app_nil_r. split; [done|].
    intros. rewrite elem_of_nil. split; [done|lia].
  - destruct (body cfg save_dir a st) as [st1|e] eqn:Hb; [|done].
    cbn [mbind result_bind]. intros Hrest Hst Hh.
    apply body_events in Hb as (_ & _ & Hts & Hlh & Hev).
    assert (train_state st1 = run_steps (S a) state0) as Hst1.
    { rewrite Hts, Hst. done. }
    rewrite Hst in *. fold (info_at a state0) in *.
    replace (Z.of_nat a + 1)%Z with (Z.of_nat (S a)) in * by lia.
    assert (loss_history st ++ [training_loss (info_at a state0)]
            = map (fun k => training_loss (info_at k state0))
                (seq (a - a mod 1000) (a mod 1000 + 1))) as Happ.
    { rewrite Hh, seq_app, map_app. cbn [seq map].
      pose proof (Nat.div_mod_eq a 1000). pose proof (Nat.mod_upper_bound a 1000).
      by replace (a - a mod 1000 + a mod 1000) with a by lia. }
    assert (loss_history st1
            = map (fun k => training_loss (info_at k state0))
                (seq (S a - S a mod 1000) (S a mod 1000))) as Hh1.
    { rewrite Hlh. case_bool_decide as Hp.
      - apply window_closes in Hp as (-> & _). done.
      - apply window_grows in Hp as (-> & ->). done. }
    destruct (IH _ _ _ Hrest Hst1 Hh1) as (evs & Hevs & Hprint).
    eexists. split; [rewrite Hevs, Hev, <- app_assoc; reflexivity|].
    intros s average. rewrite !elem_of_app, Hprint, Nat.add_1_r.
    assert ((Z.of_nat (S a) `mod` 1000 = 0)%Z ->
            loss_history st ++ [training_loss (info_at a state0)]
            = map (fun k => training_loss (info_at k state0))
                (seq (S a - 1000) 1000)) as Hfull.
    { intros (_ & Hm & <-)%window_closes. by rewrite Happ, Hm. }
    pose (window := fun s =>
            mean (map (fun k => training_loss (info_at k state0))
                    (seq (s - 1000) 1000))).
    change (mean (map _ (seq (s - 1000) 1000))) with (window s).
    case_bool_decide as Hp;
      [rewrite (Hfull Hp);
       change (mean (map _ (seq (S a - 1000) 1000))) with (window (S a))|];
      clearbody window;
      clear IH Hprint Hev Hevs Hrest Hst Hst1 Hts Hh Hh1 Hlh Happ Hfull;
      destruct (decide (s = S a)) as [->|];
      destruct (bool_decide (Z.of_nat (S a) `mod` FinetuneConfig.log_interval cfg = 0)%Z);
      destruct (bool_decide (Z.of_nat (S a) `mod` FinetuneConfig.save_interval cfg = 0)%Z
                && bool_decide (save_dir <> None));
      set_unfold; naive_solver lia.
Qed.

(** X20. What a completed training run has done: the state is the one
    after [num_steps] steps; a checkpoint is saved exactly at the step
    counts from 1 to [num_steps] that [save_interval] divides, when a
    checkpoint directory is given, and holds the state after that many
    steps; the metrics of step [i] are logged exactly when
    [log_interval] divides [i + 1], under the step number [i]. *)
Theorem train_schedule cfg save_dir state0 (st : state) :
  train batches train_step training_loss cfg save_dir state0 = Ok st ->
  train_state st = run_steps (Z.to_nat (FinetuneConfig.num_steps cfg)) state0 /\
  (forall s x, SaveCheckpoint s x ∈ events st <->
     save_dir <> None /\ 1 <= s <= Z.to_nat (FinetuneConfig.num_steps cfg) /\
     (Z.of_nat s `mod` FinetuneConfig.save_interval cfg = 0)%Z /\
     x = run_steps s state0) /\
  (forall i info, WandbLog i info ∈ events st <->
     i < Z.to_nat (FinetuneConfig.num_steps cfg) /\
     ((Z.of_nat i + 1) `mod` FinetuneConfig.log_interval cfg = 0)%Z /\
     info = info_at i state0).
Proof.
  unfold train. intros Hrun.
  apply (for_range_events _ _ state0) in Hrun as (Hfin & evs & Hevs & Hsave & Hlog);
    [|done].
  cbn in Hevs. subst evs. split; [done|]. split.
  - intros s x. rewrite Hsave. intuition lia.
  - intros i info. rewrite Hlog. intuition lia.
Qed.

(** X21. Every thousandth step of a completed training run prints the
    mean of the losses of the last thousand steps, and nothing else is
    printed: the loss history is emptied after each print. *)
Theorem train_prints_window_mean cfg save_dir state0 (st : state) :
  train batches train_step training_loss cfg save_dir state0 = Ok st ->
  forall s average, PrintLoss s average ∈ events st <->
    1 <= s <= Z.to_nat (FinetuneConfig.num_steps cfg) /\
    (Z.of_nat s `mod` 1000 = 0)%Z /\
    average = mean (map (fun k => training_loss (info_at k state0))
                      (seq (s - 1000) 1000)).
Proof.
  unfold train. intros Hrun s average.
  apply (for_range_prints _ _ state0) in Hrun as (evs & Hevs & Hprint);
    [|done|done].
  cbn in Hevs. subst evs. rewrite Hprint. intuition lia.
Qed.

End TrainLoop.
End FinetuneScript.

(** ** The SimplerEnv driver *)

Module SimplerDriverFacts.
Import SimplerDriver.

Lemma banners_app evs1 evs2 :
  banners (evs1 ++ evs2) = banners evs1 ++ banners evs2.
Proof. apply omap_app. Qed.

Lemma banners_artifacts evs : Forall is_artifact evs -> banners evs = [].
Proof. induction 1 as [|[] ? []]; done. Qed.

Lemma world_eta w : {| files := files w; log := log w ++ [] |} = w.
Proof. destruct w. cbn. by rewrite app_nil_r. Qed.

Lemma policy_setup_of_not_empty task_name : policy_setup_of task_name <> "".
Proof. unfold policy_setup_of. by destruct (contains _ _). Qed.

Lemma W_bind_result {A B} (m1 m2 : W A) (f1 f2 : A -> W B) :
  (forall w1 w2, (m1 w1).2 = (m2 w2).2) ->
  (forall a w1 w2, (f1 a w1).2 = (f2 a w2).2) ->
  forall w1 w2, ((m1 ≫= f1) w1).2 = ((m2 ≫= f2) w2).2.
Proof.
  intros Hm Hf w1 w2. unfold mbind, W_bind. specialize (Hm w1 w2).
  destruct (m1 w1) as [? [| |]], (m2 w2) as [? [| |]]; cbn in Hm;
    simplify_eq; [apply Hf|done..].
Qed.

Section Driver.
Context {Policy Env Obs Image Params : Type}.
Variable S : @Simpler.sim Policy Env Obs Image.
Variable H : @host Policy Env Params.

Lemma while_loop_raises fuel : forall st e,
  Simpler.while_loop S fuel st = Raise e -> e = IndexError.
Proof.
  induction fuel as [|fuel IH]; intros st e; cbn [Simpler.while_loop];
    destruct (Simpler.running st); try done.
  destruct (Simpler.body S st) as [st'|e'] eqn:Hb; cbn.
  - apply IH.
  - intros [= <-]. unfold Simpler.body, Simpler.predicts_terminate, getitem in Hb.
    destruct (_ !! 0); cbn in Hb; [|by injection Hb].
    repeat case_match; discriminate.
Qed.

Lemma run_step_spec fuel save_dir task_name run a w :
  exists evs r,
    run_step S fuel save_dir task_name run a w
    = ({| files := files w; log := log w ++ evs |}, r) /\
    Forall is_artifact evs /\
    r <> Raised (Builtin UnboundLocalError) /\
    forall a', r = Finished a' ->
      success_count a <= success_count a' <= success_count a + 1.
Proof.
  unfold run_step, mbind, W_bind, of_loop, log_event, mret, W_ret.
  destruct (Simpler.while_loop S fuel _) as [[st|]|e] eqn:Hloop; cbn.
  - eexists _, _. split; [reflexivity|]. split_and!.
    + by repeat constructor.
    + done.
    + intros a' [= <-]. cbn. destruct (Simpler.success st); lia.
  - exists [], Unfinished. by rewrite world_eta.
  - exists [], (Raised (Builtin e)). rewrite world_eta. split_and!; try done.
    apply while_loop_raises in Hloop as ->. done.
Qed.

Lemma runs_spec fuel save_dir task_name rs : forall a w,
  exists evs r,
    runs S fuel save_dir task_name rs a w
    = ({| files := files w; log := log w ++ evs |}, r) /\
    Forall is_artifact evs /\
    r <> Raised (Builtin UnboundLocalError) /\
    forall a', r = Finished a' ->
      success_count a <= success_count a' <= success_count a + length rs.
Proof.
  induction rs as [|run rs IH]; intros a w; cbn [runs].
  - exists [], (Finished a). rewrite world_eta. split_and!; try done.
    intros a' [= <-]. cbn. lia.
  - unfold mbind at 1, W_bind.
    destruct (run_step_spec fuel save_dir task_name run a w)
      as (evs1 & r1 & -> & Harts1 & Hr1 & Hcount1).
    destruct r1 as [a1|e|].
    + destruct (IH a1 {| files := files w; log := log w ++ evs1 |})
        as (evs2 & r2 & -> & Harts2 & Hr2 & Hcount2). cbn [files log].
      exists (evs1 ++ evs2), r2. rewrite app_assoc. split_and!; try done.
      * by apply Forall_app.
      * intros a' Ha'. specialize (Hcount1 _ eq_refl). specialize (Hcount2 _ Ha').
        cbn [length]. lia.
    + by exists evs1, (Raised e).
    + by exists evs1, Unfinished.
Qed.

Lemma task_step_spec fuel model_name model_path save_dir timestamp total_runs
    rng_input checkpoint_step task_name a w w' r :
  task_step S H fuel model_name model_path save_dir timestamp total_runs
    rng_input checkpoint_step task_name a w = (w', r) ->
  (forall p, p <> save_dir +:+ "/eval_success_rate_" +:+ timestamp +:+ ".json" ->
     files w' !! p = files w !! p) /\
  ((model a = None -> previous_policy_setup a = "") ->
   r <> Raised (Builtin UnboundLocalError)) /\
  forall a', r = Finished a' ->
    (model a' = None -> previous_policy_setup a' = "") /\
    (exists q, all_tasks_success_rate a'
               = <[task_name := Rate q]> (all_tasks_success_rate a) /\
               (0 <= q /\ q <= 1)%Q) /\
    (exists evs, log w' = log w ++ evs /\ banners evs = [task_name]) /\
    (disk H (save_dir +:+ "/eval_success_rate_" +:+ timestamp +:+ ".json")
       (all_tasks_success_rate a') = Written ->
     files w' !! (save_dir +:+ "/eval_success_rate_" +:+ timestamp +:+ ".json")
     = Some (Json (all_tasks_success_rate a'))).
Proof.
  unfold task_step. intros Hrun.
  match type of Hrun with
  | context [if decide ?c then ?x else ?y] =>
      assert (exists o, (forall w0, (if decide c then x else y) w0 = (w0, o)) /\
                        o <> Unfinished /\
                        ((model a = None -> previous_policy_setup a = "") ->
                         o <> Raised (Builtin UnboundLocalError)))
        as (o & Ho & Hfin & Hbound)
  end.
  { destruct (decide _) as [Hne|Heq].
    - unfold load_model, of_outcome.
      destruct (contains "rt_1" model_name); [by exists (Raised NameError)|].
      destruct (contains "octo" model_name);
        [by eexists (Finished _)|by exists (Raised (Builtin ValueError))].
    - destruct (model a) as [m|] eqn:Hm.
      + exists (Finished m). done.
      + exists (Raised (Builtin UnboundLocalError)). split_and!; try done.
        intros Hinv _. apply Heq. rewrite (Hinv eq_refl).
        apply policy_setup_of_not_empty. }
  unfold mbind at 1, W_bind at 1 in Hrun. rewrite Ho in Hrun.
  destruct o as [m|e|]; [|injection Hrun as <- <-; split_and!;
     first [done|intros Hinv [= ->]; by apply (Hbound Hinv)]|done].
  unfold mbind at 1, W_bind at 1, log_event in Hrun.
  unfold mbind at 1, W_bind at 1 in Hrun.
  match type of Hrun with
  | context [runs S ?f ?sd ?t ?rs ?a0 ?w0] =>
      destruct (runs_spec f sd t rs a0 w0) as (arts & r1 & Hruns & Harts & Hr1 & Hcount);
      rewrite Hruns in Hrun
  end.
  cbn [files log] in Hrun.
  destruct r1 as [acc|e|];
    [|injection Hrun as <- <-; split_and!;
      first [done|intros _ [= ->]; by apply Hr1]..].
  specialize (Hcount _ eq_refl). cbn [success_count] in Hcount.
  rewrite length_seq in Hcount.
  unfold mbind at 1, W_bind at 1, of_result in Hrun.
  destruct (true_div (success_count acc) total_runs) as [q|e] eqn:Hdiv;
    [|injection Hrun as <- <-; split_and!;
      first [done|intros _ [= ->]; by destruct total_runs]].
  apply true_div_unit in Hdiv; [|lia].
  unfold mbind at 1, W_bind at 1, try_json_dump in Hrun.
  destruct (disk H _ _) eqn:Hdisk; cbn in Hrun; injection Hrun as <- <-;
    (split_and!;
     [intros p Hp; cbn; by rewrite ?lookup_insert_ne
     |done
     |intros a' [= <-]; cbn; split_and!;
      [done
      |by exists q
      |eexists; split; [rewrite <- ?app_assoc; reflexivity|];
       rewrite ?banners_app, (banners_artifacts arts) by done; done
      |intros Hw; first [by rewrite lookup_insert_eq | congruence] ]]).
Qed.

Lemma task_loop_spec fuel model_name model_path save_dir timestamp total_runs
    rng_input checkpoint_step tasks : forall a w w' r,
  task_loop S H fuel model_name model_path save_dir timestamp total_runs
    rng_input checkpoint_step tasks a w = (w', r) ->
  (model a = None -> previous_policy_setup a = "") ->
  (forall p, p <> save_dir +:+ "/eval_success_rate_" +:+ timestamp +:+ ".json" ->
     files w' !! p = files w !! p) /\
  r <> Raised (Builtin UnboundLocalError) /\
  forall a', r = Finished a' ->
    (forall t, is_Some (all_tasks_success_rate a' !! t) <->
       t ∈ tasks \/ is_Some (all_tasks_success_rate a !! t)) /\
    (forall t e, all_tasks_success_rate a' !! t = Some e ->
       all_tasks_success_rate a !! t = Some e \/
       exists q, e = Rate q /\ (0 <= q /\ q <= 1)%Q) /\
    (exists evs, log w' = log w ++ evs /\ banners evs = tasks) /\
    ((forall p m, disk H p m = Written) ->
     tasks <> [] \/
     files w !! (save_dir +:+ "/eval_success_rate_" +:+ timestamp +:+ ".json")
     = Some (Json (all_tasks_success_rate a)) ->
     files w' !! (save_dir +:+ "/eval_success_rate_" +:+ timestamp +:+ ".json")
     = Some (Json (all_tasks_success_rate a'))).
Proof.
  induction tasks as [|task_name tasks IH]; intros a w w' r; cbn [task_loop].
  - intros [= <- <-] Hinv. split_and!; try done.
    intros a' [= <-]. split_and!; try done.
    + intros t. rewrite elem_of_nil. tauto.
    + auto.
    + exists []. by rewrite app_nil_r.
    + by intros _ [|].
  - unfold mbind at 1, W_bind at 1.
    destruct (task_step _ _ _ _ _ _ _ _ _ _ _ _ _) as [w1 r1] eqn:Hstep.
    apply task_step_spec in Hstep as (Hfiles1 & Hbound1 & Hfin1).
    intros Hrun Hinv.
    destruct r1 as [a1|e|];
      [|injection Hrun as <- <-; split_and!;
        first [done|intros [= ->]; by apply Hbound1]..].
    destruct (Hfin1 _ eq_refl) as (Hinv1 & (q & Hledger & Hq) & (evs1 & Hlog1 & Hban1) & Hdump1).
    apply IH in Hrun as (Hfiles2 & Hbound2 & Hfin2); [|done].
    split_and!; [|done|].
    { intros p Hp. by rewrite Hfiles2, Hfiles1. }
    intros a' ->.
    destruct (Hfin2 _ eq_refl) as (Hdom & Hrates & (evs2 & Hlog2 & Hban2) & Hdump2).
    split_and!.
    + intros t. rewrite Hdom, Hledger, elem_of_cons.
      destruct (decide (t = task_name)) as [->|Hne].
      * rewrite lookup_insert_eq. split; [auto|]. intros _. right. by eexists.
      * rewrite lookup_insert_ne by done. tauto.
    + intros t e Ht. destruct (Hrates _ _ Ht) as [Hold|Hnew]; [|by right].
      rewrite Hledger in Hold.
      destruct (decide (t = task_name)) as [->|Hne].
      * rewrite lookup_insert_eq in Hold. injection Hold as <-. right. by exists q.
      * rewrite lookup_insert_ne in Hold by done. by left.
    + exists (evs1 ++ evs2). rewrite Hlog2, Hlog1, <- app_assoc. split; [done|].
      by rewrite banners_app, Hban1, Hban2.
    + intros Hdisk _. apply Hdump2; [done|]. right. by apply Hdump1.
Qed.

(** X22. A model name the driver cannot load stops the evaluation at
    its first task, before anything is printed or written: a name that
    contains [rt_1] ends in [NameError], since [get_rt_1_checkpoint] is
    bound nowhere, and a name with neither [rt_1] nor [octo] ends in
    [ValueError]. *)
Theorem unsupported_model_fails_fast fuel timestamp model_name model_path
    task_name tasks total_runs rng_input base_path checkpoint_step w :
  contains "rt_1" model_name = true \/ contains "octo" model_name = false ->
  evaluate S H fuel timestamp model_name model_path (task_name :: tasks)
    total_runs rng_input base_path checkpoint_step w
  = (w, Raised (if contains "rt_1" model_name then NameError
                else Builtin ValueError)).
Proof.
  intros Hname. unfold evaluate. cbn [task_loop]. unfold task_step.
  cbn [previous_policy_setup].
  destruct (decide (policy_setup_of task_name <> ""))
    as [_|Hempty]; [|destruct Hempty; apply policy_setup_of_not_empty].
  unfold load_model.
  destruct (contains "rt_1" model_name); [done|].
  destruct Hname as [Hn|Hn]; [done|by rewrite Hn].
Qed.

(** X23. With a model that loads, zero runs per task make the first
    task end in [ZeroDivisionError] right after its banner: the success
    rate divides by [total_runs]. *)
Theorem zero_runs_raises fuel timestamp model_name model_path
    task_name tasks rng_input base_path checkpoint_step w :
  contains "rt_1" model_name = false ->
  contains "octo" model_name = true ->
  evaluate S H fuel timestamp model_name model_path (task_name :: tasks)
    0 rng_input base_path checkpoint_step w
  = ({| files := files w; log := log w ++ [Banner task_name] |},
     Raised (Builtin ZeroDivisionError)).
Proof.
  intros Hrt Hocto. unfold evaluate. cbn [task_loop]. unfold task_step.
  cbn [previous_policy_setup].
  destruct (decide (policy_setup_of task_name <> ""))
    as [_|Hempty]; [|destruct Hempty; apply policy_setup_of_not_empty].
  unfold load_model. rewrite Hrt, Hocto. done.
Qed.


(** X25. However the evaluation ends, it leaves every file but its own
    ledger [save_dir/eval_success_rate_timestamp.json] as it was. *)
Theorem touches_only_its_ledger fuel timestamp model_name model_path tasks
    total_runs rng_input base_path checkpoint_step w w' r p :
  evaluate S H fuel timestamp model_name model_path tasks total_runs
    rng_input base_path checkpoint_step w = (w', r) ->
  p <> (if decide (model_path = "hf://rail-berkeley/octo-base-1.5")
        then "finetune_saves/octo-base" else model_path)
       +:+ "/eval_success_rate_" +:+ timestamp +:+ ".json" ->
  files w' !! p = files w !! p.
Proof.
  unfold evaluate, mbind at 1, W_bind at 1.
  destruct (task_loop _ _ _ _ _ _ _ _ _ _ _ _ _) as [w1 r1] eqn:Hloop.
  apply task_loop_spec in Hloop as (Hfiles & _); [|done].
  intros Hrun Hp.
  assert (w' = w1) as -> by (destruct r1; by injection Hrun).
  by apply Hfiles.
Qed.

(** X26. When every write goes through, an evaluation of at least one
    task that returns leaves in its ledger file exactly the mapping it
    built - the tasks of this call only, since the mapping starts empty
    and the file is opened for writing. *)
Theorem ledger_holds_this_call fuel timestamp model_name model_path tasks
    total_runs rng_input base_path checkpoint_step w w' m :
  (forall p l, disk H p l = Written) ->
  tasks <> [] ->
  evaluate S H fuel timestamp model_name model_path tasks total_runs
    rng_input base_path checkpoint_step w = (w', Finished m) ->
  files w' !! ((if decide (model_path = "hf://rail-berkeley/octo-base-1.5")
                then "finetune_saves/octo-base" else model_path)
               +:+ "/eval_success_rate_" +:+ timestamp +:+ ".json")
  = Some (Json m).
Proof.
  intros Hdisk Htasks.
  unfold evaluate, mbind at 1, W_bind at 1.
  destruct (task_loop _ _ _ _ _ _ _ _ _ _ _ _ _) as [w1 [a| |]] eqn:Hloop; [|done..].
  intros [= <- <-].
  apply task_loop_spec in Hloop as (_ & _ & Hfin); [|done].
  destruct (Hfin _ eq_refl) as (_ & _ & _ & Hdump). apply Hdump; auto.
Qed.

(** X27. The evaluation never ends in [UnboundLocalError]: the model
    is loaded at the first task, whose policy setup differs from the
    empty initial one, so the variable [model] is bound whenever the
    loading is skipped. *)
Theorem model_always_bound fuel timestamp model_name model_path tasks
    total_runs rng_input base_path checkpoint_step w :
  (evaluate S H fuel timestamp model_name model_path tasks total_runs
     rng_input base_path checkpoint_step w).2
  <> Raised (Builtin UnboundLocalError).
Proof.
  unfold evaluate, mbind at 1, W_bind at 1.
  destruct (task_loop _ _ _ _ _ _ _ _ _ _ _ _ _) as [w1 r1] eqn:Hloop.
  apply task_loop_spec in Hloop as (_ & Hbound & _); [|done].
  destruct r1 as [a|e|]; cbn; [done| |done].
  intros [= ->]. by apply Hbound.
Qed.

Lemma runs_result fuel save_dir task_name rs : forall a w1 w2,
  (runs S fuel save_dir task_name rs a w1).2
  = (runs S fuel save_dir task_name rs a w2).2.
Proof.
  induction rs as [|run rs IH]; intros a; cbn [runs]; [done|].
  apply W_bind_result; [|intros; apply IH].
  unfold run_step. apply W_bind_result; [done|]. intros st.
  apply W_bind_result; done.
Qed.

(** X28. How an evaluation ends - the mapping it returns or the
    exception it raises - depends neither on what the file system
    answers to the dumps of the ledger nor on the files and the log it
    starts from: a failed dump is swallowed by the bare [except], and
    nothing is read back. *)
Theorem dump_failures_swallowed disk' fuel timestamp model_name model_path
    tasks total_runs rng_input base_path checkpoint_step w1 w2 :
  (evaluate S {| load_pretrained := load_pretrained H;
                 OctoInference := OctoInference H;
                 make := make H; disk := disk' |}
     fuel timestamp model_name model_path tasks total_runs
     rng_input base_path checkpoint_step w1).2
  = (evaluate S H fuel timestamp model_name model_path tasks total_runs
       rng_input base_path checkpoint_step w2).2.
Proof.
  unfold evaluate. revert w1 w2. apply W_bind_result; [|done].
  generalize (@Build_task_acc Policy "" None ∅).
  induction tasks as [|task_name tasks' IH]; intros a; cbn [task_loop]; [done|].
  apply W_bind_result; [|intros; apply IH].
  unfold task_step. apply W_bind_result.
  { intros w1 w2.
    by destruct (decide (policy_setup_of task_name <> previous_policy_setup a)),
      (model a). }
  intros m. apply W_bind_result; [done|]. intros _.
  apply W_bind_result; [apply runs_result|]. intros r.
  apply W_bind_result; [done|]. intros rate.
  apply W_bind_result; [|done].
  intros w1 w2. unfold try_json_dump. cbn [disk].
  by destruct (disk' _ _), (disk H _ _).
Qed.

End Driver.
End SimplerDriverFacts.

(** ** The properties on the scripted worlds *)

Module ExamplesFacts.
Import Scenario Examples.

Lemma eval_path_example :
  eval_path ("finetune_saves" +:+ "/" +:+ "run") 0 (Some 5000%Z) =
  "eval_results/libero/" +:+ "run" +:+ "/eval_step_" +:+
  fmt_step (Some 5000%Z) +:+ "/" +:+ pretty 0%Z.
Proof.
  apply (eval_path_drops_first_component "finetune_saves" "run" 0 (Some 5000%Z));
    [vm_compute; reflexivity|discriminate].
Defined.

(** A run that starts from a ledger with one of the two tasks. *)
Lemma ledger_never_shrinks_example :
  ((exists l,
      files (single_run halfway).1
        !! (eval_path "finetune_saves/run" 0 (Some 5000%Z) +:+ "/success_rate.json")
        = Some (Json l) /\
      {[ "close_the_drawer" := RateOutcomes 1 [true] ]} ⊆ l /\
      forall l1, (single_run halfway).2 = Ok l1 -> l1 = l) /\
   (exists evs,
      log (single_run halfway).1 = log halfway ++ evs /\
      forall f m, JsonDump f m ∈ evs ->
        f = eval_path "finetune_saves/run" 0 (Some 5000%Z) +:+ "/success_rate.json" /\
        {[ "close_the_drawer" := RateOutcomes 1 [true] ]} ⊆ m)) /\
  ((exists l,
      files (pool_run halfway).1
        !! (eval_path "finetune_saves/run" 0 (Some 5000%Z) +:+
            "/success_rate_" +:+ "train" +:+ ".json")
        = Some (Json l) /\
      {[ "close_the_drawer" := Rate 1 ]} ⊆ l /\
      forall l1, (pool_run halfway).2 = Ok l1 -> l1 = l) /\
   (exists evs,
      log (pool_run halfway).1 = log halfway ++ evs /\
      forall f m, JsonDump f m ∈ evs ->
        f = eval_path "finetune_saves/run" 0 (Some 5000%Z) +:+
            "/success_rate_" +:+ "train" +:+ ".json" /\
        {[ "close_the_drawer" := Rate 1 ]} ⊆ m)).
Proof.
  split.
  - destruct (proj1 (@ledger_never_shrinks unit nat unit unit unit unit
                       unit nat unit unit unit unit unit unit
                       task_suite task_split "finetune_saves/run" 0
                       (Some 5000%Z) "train")
                single_sim "octo-custom" [0] true halfway
                (single_run halfway).1 (single_run halfway).2
                ltac:(vm_compute; reflexivity))
      as (_ & Hfile & evs & Hlog & Hdumps).
    split.
    + apply Hfile. vm_compute; reflexivity.
    + exists evs. split; [exact Hlog|]. intros f m Hin.
      destruct (Hdumps f m Hin) as [Hf Hsub]. split; [exact Hf|].
      apply Hsub. vm_compute; reflexivity.
  - destruct (proj2 (@ledger_never_shrinks unit nat unit unit unit unit
                       unit nat unit unit unit unit unit unit
                       task_suite task_split "finetune_saves/run" 0
                       (Some 5000%Z) "train")
                pool_sim 4 "octo-custom" [0] true halfway
                (pool_run halfway).1 (pool_run halfway).2
                ltac:(vm_compute; reflexivity))
      as (_ & Hfile & evs & Hlog & Hdumps).
    split.
    + apply Hfile. vm_compute; reflexivity.
    + exists evs. split; [exact Hlog|]. intros f m Hin.
      destruct (Hdumps f m Hin) as [Hf Hsub]. split; [exact Hf|].
      apply Hsub. vm_compute; reflexivity.
Defined.

(** The runs for seed 0 leave the ledgers of seed 1 alone. *)
Lemma seeds_do_not_interfere_example :
  files (single_run fresh).1
    !! (eval_path "finetune_saves/run" 1 (Some 5000%Z) +:+ "/success_rate.json")
  = files fresh
    !! (eval_path "finetune_saves/run" 1 (Some 5000%Z) +:+ "/success_rate.json") /\
  files (pool_run fresh).1
    !! (eval_path "finetune_saves/run" 1 (Some 5000%Z) +:+
        "/success_rate_" +:+ "train" +:+ ".json")
  = files fresh
    !! (eval_path "finetune_saves/run" 1 (Some 5000%Z) +:+
        "/success_rate_" +:+ "train" +:+ ".json").
Proof.
  split.
  - apply (proj1 (@seeds_do_not_interfere unit nat unit unit unit unit
                    unit nat unit unit unit unit unit unit
                    task_suite task_split "finetune_saves/run" (Some 5000%Z))
             single_sim "octo-custom" [0] 1%Z 0%Z "train" true fresh
             (single_run fresh).1 (single_run fresh).2);
      [discriminate|vm_compute; reflexivity].
  - apply (proj2 (@seeds_do_not_interfere unit nat unit unit unit unit
                    unit nat unit unit unit unit unit unit
                    task_suite task_split "finetune_saves/run" (Some 5000%Z))
             pool_sim 4 "octo-custom" [0] 1%Z 0%Z "train" "train" true fresh
             (pool_run fresh).1 (pool_run fresh).2);
      [left; split; [discriminate|reflexivity]|vm_compute; reflexivity].
Defined.

Lemma resolve_tasks_example :
  length [1; 0] = length (if decide ("train" = "train")
                          then ["close_the_drawer_demo.hdf5";
                                "open_the_drawer_demo.hdf5"] else []) /\
  forall i task_id, [1; 0] !! i = Some task_id ->
    exists task_name t,
      (if decide ("train" = "train")
       then ["close_the_drawer_demo.hdf5"; "open_the_drawer_demo.hdf5"]
       else []) !! i = Some task_name /\
      task_suite !! task_id = Some t /\
      name t = drop_last10 task_name /\
      forall j t', task_suite !! j = Some t' -> j < task_id ->
        name t' <> drop_last10 task_name.
Proof.
  apply (resolve_tasks_sound task_suite
           ["close_the_drawer_demo.hdf5"; "open_the_drawer_demo.hdf5"] []
           [0] "train" [1; 0]).
  vm_compute; reflexivity.
Defined.

Lemma unknown_task_example :
  resolve_tasks task_suite task_split_unknown [0] "train" = Raise ValueError /\
  Single.evaluate single_sim task_suite task_split_unknown "octo-custom"
    "finetune_saves/run" [0] 0 (Some 5000%Z) "train" true fresh
  = (fresh, Raise ValueError) /\
  Vectorized.evaluate pool_sim 4 task_suite task_split_unknown "octo-custom"
    "finetune_saves/run" [0] 0 (Some 5000%Z) "train" true fresh
  = (fresh, Raise ValueError).
Proof.
  assert ("push_the_button_demo.hdf5"
          ∈ (if decide ("train" = "train")
             then ["close_the_drawer_demo.hdf5"; "push_the_button_demo.hdf5"]
             else [])) as Hin
    by (apply (bool_decide_unpack _); vm_compute; exact I).
  assert (drop_last10 "push_the_button_demo.hdf5" ∉ map name task_suite) as Hout
    by (apply (bool_decide_unpack _); vm_compute; exact I).
  destruct (@unknown_task_fails_fast unit nat unit unit unit unit
              unit nat unit unit unit unit unit unit
              task_suite
              ["close_the_drawer_demo.hdf5"; "push_the_button_demo.hdf5"] []
              "train" "push_the_button_demo.hdf5" "octo-custom"
              "finetune_saves/run" [0] 0%Z (Some 5000%Z) true fresh
              Hin Hout) as (Hres & Hsingle & Hpool).
  split; [exact Hres|]. split.
  - apply (Hsingle single_sim). vm_compute; discriminate.
  - apply (Hpool pool_sim 4). vm_compute; discriminate.
Defined.

(** The four-slot rollout: slot 2 is the one reported done. *)
Lemma finished_iff_reported_example :
  (Vectorized.finished_tasks final !! 2 = Some true <->
   exists j st_j,
     j < length (Vectorized.attention_history final) /\
     for_range 0 j init = Ok (st_j, false) /\
     Vectorized.dones
       (Vectorized.pool_reply policy_step (fun _ : unit => []) pool_step st_j)
       !! 2 = Some true) /\
  (Vectorized.video_result final 2 = Ok "success"%string <->
   Vectorized.finished_tasks final !! 2 = Some true).
Proof.
  apply (VectorizedMore.finished_iff_reported policy_step (fun _ : unit => tt)
           (fun i (_ : unit) => i) (fun _ : unit => []) pool_step
           (fun _ : unit => [tt]) 4 tt 0 (replicate 4 tt) final 2);
    [vm_compute; reflexivity|lia].
Defined.

Lemma video_frame_counts_example :
  exists evs, log pool_videos.1 = log fresh ++ evs /\ length evs = 4 /\
    forall i, i < 4 ->
      exists (f : bool) l,
        Vectorized.finished_tasks final !! i = Some f /\
        Vectorized.episode_length final !! i = Some l /\
        evs !! i =
        Some (WriteVideo
                ("eval_results/libero/run/eval_step_5000/0/video/train/open_the_drawer"
                 +:+ "/" +:+ pretty (i + 1) +:+ "_" +:+
                 (if f then "success" else "fail") +:+ ".mp4")
                (if f then l else length (Vectorized.attention_history final))).
Proof.
  apply (VectorizedMore.video_frame_counts policy_step (fun _ : unit => tt)
           (fun i (_ : unit) => i) (fun _ : unit => []) pool_step
           (fun _ : unit => [tt]) 4 tt 0 (replicate 4 tt) final
           "eval_results/libero/run/eval_step_5000/0/video/train/open_the_drawer"
           fresh pool_videos.1);
    vm_compute; reflexivity.
Defined.

Lemma single_task_entry_example :
  exists init st (success : bool),
    Single.get_task_init_states single_sim 0 !! 0 = Some init /\
    Single.episode single_sim
      (Single.model_reset single_sim tt (language open_the_drawer))
      (Single.env_reset single_sim
         (Single.env_seed single_sim
            (Single.OffScreenRenderEnv single_sim
               (Single.task_bddl_file single_sim open_the_drawer)) 0))
      init = Ok (st, success) /\
    RateOutcomes 1 [true] = RateOutcomes (if success then 1 else 0)%Q [success] /\
    tt = Single.policy st /\
    files single_task_run.1 = files fresh /\
    2 <= length (Single.images st) <= 601 /\
    log single_task_run.1 = log fresh ++ Banner (name open_the_drawer) ::
      (if true
       then [WriteVideo ("eval_results/libero/run/eval_step_5000/0" +:+ "/video/" +:+
                         name open_the_drawer +:+ "/1_" +:+
                         (if success then "success" else "fail") +:+ ".mp4")
                        (length (Single.images st))]
       else []).
Proof.
  apply (SingleMore.single_task_entry single_sim true
           "eval_results/libero/run/eval_step_5000/0" 0 open_the_drawer tt fresh
           single_task_run.1 tt (RateOutcomes 1 [true])).
  vm_compute; reflexivity.
Defined.

Lemma single_no_init_state_example :
  Single.run_task single_sim_no_init true "eval_results/libero/run/eval_step_5000/0"
    0 open_the_drawer tt fresh =
  ({| files := files fresh; log := log fresh ++ [Banner (name open_the_drawer)] |},
   Raise IndexError).
Proof.
  apply (SingleMore.single_no_init_state single_sim_no_init true
           "eval_results/libero/run/eval_step_5000/0" 0 open_the_drawer tt fresh).
  reflexivity.
Defined.


(** The environment of [simpler_sim] truncates at its third step: three
    minus its counter is a budget. *)
Lemma episode_loop_ends_example :
  exists st',
    Simpler.while_loop simpler_sim 10 (Simpler.start simpler_sim tt 0)
    = Ok (Some st') /\
    Simpler.running st' = false /\
    Simpler.timestep st'
    <= Simpler.timestep (Simpler.start simpler_sim tt 0) +
       (3 - Simpler.env (Simpler.start simpler_sim tt 0)) + 1.
Proof.
  apply (SimplerMore.episode_loop_ends simpler_sim (fun e => 3 - e)).
  - intros e a Hrun. apply bool_decide_eq_false in Hrun. simpl. lia.
  - intros e. simpl. lia.
  - intros p i s. simpl. discriminate.
  - vm_compute. lia.
Defined.

Lemma main_resumable_example :
  single_cli (single_cli fresh).1 = ((single_cli fresh).1, Ok tt) /\
  pool_cli (pool_cli fresh).1 = ((pool_cli fresh).1, Ok tt).
Proof.
  split.
  - apply (proj1 (@main_resumable unit nat unit unit unit unit
                    unit nat unit unit unit unit unit unit
                    task_suite task_split "octo-custom" "finetune_saves/run"
                    [0; 1]%Z (Some 5000%Z) "train" true) single_sim fresh).
    vm_compute; reflexivity.
  - apply (proj2 (@main_resumable unit nat unit unit unit unit
                    unit nat unit unit unit unit unit unit
                    task_suite task_split "octo-custom" "finetune_saves/run"
                    [0; 1]%Z (Some 5000%Z) "train" true) pool_sim_20 fresh).
    vm_compute; reflexivity.
Defined.

(** Configuration strings. *)
Lemma get_config_errors_example :
  FinetuneConfig.get_config "head_only" = Throw (Builtin ValueError) /\
  (exists c, FinetuneConfig.get_config "full,multimodal,metaworld" = Return c) /\
  FinetuneConfig.get_config "lora,multimodal,libero" = Throw AssertionError.
Proof.
  split_and!.
  - apply (proj1 (FinetuneFacts.get_config_errors "head_only")).
    vm_compute. discriminate.
  - apply (proj1 (proj2 (FinetuneFacts.get_config_errors "full,multimodal,metaworld")
                    "full" "multimodal" "metaworld" ltac:(vm_compute; reflexivity))).
    split; apply (bool_decide_unpack _); vm_compute; exact I.
  - apply (proj2 (proj2 (FinetuneFacts.get_config_errors "lora,multimodal,libero")
                    "lora" "multimodal" "libero" ltac:(vm_compute; reflexivity))).
    intros [_ Hmode]. revert Hmode. apply (bool_decide_unpack _). vm_compute. exact I.
Defined.

Lemma get_config_sound_example :
  exists mode task dataset,
    str_split "," "head_only,language_conditioned,libero" = [mode; task; dataset] /\
    FinetuneConfig.finetuning_mode default_config = mode /\
    FinetuneConfig.modality default_config = task /\
    mode ∈ ["full"; "head_only"; "head_mlp_only"; "none"] /\
    task ∈ ["image_conditioned"; "language_conditioned"; "multimodal"] /\
    (FinetuneConfig.frozen_keys default_config = None <-> mode = "full") /\
    (mode <> "full" ->
     exists keys, FinetuneConfig.frozen_keys default_config = Some keys /\
       "octo_transformer.*" ∈ keys /\
       forall model_keys,
         Finetune.optimizer_frozen_keys default_config model_keys = Some keys) /\
    (mode = "full" ->
     forall model_keys,
       Finetune.optimizer_frozen_keys default_config model_keys = model_keys) /\
    (FinetuneConfig.action_pad_mask default_config <> None <-> dataset = "metaworld") /\
    (FinetuneConfig.keep_image_prob default_config = 0%Q <->
     task = "language_conditioned").
Proof.
  apply (FinetuneFacts.get_config_sound "head_only,language_conditioned,libero"
           default_config).
  vm_compute; reflexivity.
Defined.


(** Deleting the action head deletes both of its entries. *)
Lemma delete_keys_subtree_example :
  Finetune.delete_keys [["model"; "heads"; "action"]] flat_config
    !! (["model"; "heads"; "action"] ++ ["kwargs"; "action_dim"]) = None.
Proof.
  apply (FinetuneScript.delete_keys_subtree [["model"; "heads"; "action"]]
           flat_config ["model"; "heads"; "action"] ["kwargs"; "action_dim"]).
  apply (bool_decide_unpack _). vm_compute. exact I.
Defined.

Lemma clean_text_example :
  Finetune.clean_text (override 2000 500 1000 true) "open drawer" = "open drawer".
Proof.
  apply (proj2 (FinetuneScript.clean_text_conservative
                  (override 2000 500 1000 true) "open drawer")).
  intros p Hp.
  repeat (apply elem_of_cons in Hp as [->|Hp]; [vm_compute; reflexivity|]).
  by apply elem_of_nil in Hp.
Defined.

(** Training runs. *)
Lemma train_zero_interval_example :
  Finetune.train batches train_step training_loss (override 6 0 3 false) None 0
  = Raise ZeroDivisionError.
Proof.
  apply (FinetuneScript.train_zero_interval batches train_step training_loss
           (override 6 0 3 false) None 0);
    [vm_compute; reflexivity|left; reflexivity].
Defined.

Lemma train_schedule_example :
  Finetune.train_state trained
  = Finetune.run_steps batches train_step
      (Z.to_nat (FinetuneConfig.num_steps (override 2000 500 1000 false))) 0 /\
  (forall s x, Finetune.SaveCheckpoint s x ∈ Finetune.events trained <->
     Some "finetune_saves/run" <> None /\
     1 <= s <= Z.to_nat (FinetuneConfig.num_steps (override 2000 500 1000 false)) /\
     (Z.of_nat s `mod` FinetuneConfig.save_interval (override 2000 500 1000 false)
      = 0)%Z /\
     x = Finetune.run_steps batches train_step s 0) /\
  (forall i info, Finetune.WandbLog i info ∈ Finetune.events trained <->
     i < Z.to_nat (FinetuneConfig.num_steps (override 2000 500 1000 false)) /\
     ((Z.of_nat i + 1) `mod`
        FinetuneConfig.log_interval (override 2000 500 1000 false) = 0)%Z /\
     info = Finetune.info_at batches train_step i 0).
Proof.
  apply (FinetuneScript.train_schedule batches train_step training_loss
           (override 2000 500 1000 false) (Some "finetune_saves/run") 0 trained).
  vm_compute; reflexivity.
Defined.

Lemma train_prints_example :
  Finetune.PrintLoss 2000
    (Finetune.mean
       (map (fun k => training_loss (Finetune.info_at batches train_step k 0))
          (seq (2000 - 1000) 1000)))
  ∈ Finetune.events trained.
Proof.
  apply (FinetuneScript.train_prints_window_mean batches train_step training_loss
           (override 2000 500 1000 false) (Some "finetune_saves/run") 0 trained
           ltac:(vm_compute; reflexivity)).
  split; [vm_compute; lia|split; [vm_compute; reflexivity|reflexivity]].
Defined.

(** The SimplerEnv driver. *)
Lemma unsupported_model_example :
  SimplerDriver.evaluate simpler_sim host 10 "20240901_073905" "rt_1_x"
    "finetune_saves/run" SimplerDriver.tasks 2 42 "./inference_results" None fresh
  = (fresh, Raised (if contains "rt_1" "rt_1_x" then NameError
                    else Builtin ValueError)).
Proof.
  apply (SimplerDriverFacts.unsupported_model_fails_fast simpler_sim host 10
           "20240901_073905" "rt_1_x" "finetune_saves/run"
           "google_robot_pick_coke_can" (tail SimplerDriver.tasks) 2 42
           "./inference_results" None fresh).
  left. vm_compute; reflexivity.
Defined.

Lemma zero_runs_example :
  SimplerDriver.evaluate simpler_sim host 10 "20240901_073905" "octo-custom"
    "finetune_saves/run" SimplerDriver.tasks 0 42 "./inference_results" None fresh
  = ({| files := files fresh;
        log := log fresh ++ [Banner "google_robot_pick_coke_can"] |},
     Raised (Builtin ZeroDivisionError)).
Proof.
  apply (SimplerDriverFacts.zero_runs_raises simpler_sim host 10
           "20240901_073905" "octo-custom" "finetune_saves/run"
           "google_robot_pick_coke_can" (tail SimplerDriver.tasks) 42
           "./inference_results" None fresh);
    vm_compute; reflexivity.
Defined.


Lemma touches_only_its_ledger_example :
  files (simpler_run halfway).1
    !! "eval_results/libero/run/eval_step_5000/0/success_rate.json"
  = files halfway !! "eval_results/libero/run/eval_step_5000/0/success_rate.json".
Proof.
  apply (SimplerDriverFacts.touches_only_its_ledger simpler_sim host 10
           "20240901_073905" "octo-custom" "finetune_saves/run"
           ["google_robot_pick_coke_can"; "widowx_spoon_on_towel"] 2 42
           "./inference_results" None halfway
           (simpler_run halfway).1
           (simpler_run halfway).2);
    [vm_compute; reflexivity|vm_compute; discriminate].
Defined.

Lemma ledger_holds_this_call_example :
  files (simpler_run halfway).1
    !! ((if decide ("finetune_saves/run" = "hf://rail-berkeley/octo-base-1.5")
         then "finetune_saves/octo-base" else "finetune_saves/run")
        +:+ "/eval_success_rate_" +:+ "20240901_073905" +:+ ".json")
  = Some (Json (mapping_of (simpler_run halfway))).
Proof.
  apply (SimplerDriverFacts.ledger_holds_this_call simpler_sim host 10
           "20240901_073905" "octo-custom" "finetune_saves/run"
           ["google_robot_pick_coke_can"; "widowx_spoon_on_towel"] 2 42
           "./inference_results" None halfway
           (simpler_run halfway).1
           (mapping_of (simpler_run halfway)));
    [reflexivity|discriminate|vm_compute; reflexivity].
Defined.

End ExamplesFacts.
